(** * Claude-to-OpenAI relay: the protocol translator and its dispatch loop

    A shallow embedding of [services/claudeToOpenai.js] (the session-keyed
    version of the converter, the one the route file loads) and of the
    streaming branch of [routes/claudeOpenaiRoutes.js].

    Conventions of the embedding:
    - a JavaScript value that is optional in the wire format is an [option];
      [undefined] and [null] are both [None];
    - truthiness is written out: a string is truthy when it is present and
      non-empty, a number when it is present and non-zero, an array or an
      object whenever it is present;
    - token counts are [Z], block indices are [nat]; the addition of token
      counts is that of [Z], which the addition of the source (on doubles)
      is on safe integers;
    - a JavaScript [Map] that the code iterates is an association list in
      insertion order; the process-wide session table, which is only looked
      up by key, is a [gmap];
    - a downstream SSE frame (the three pushed lines [event: ...],
      [data: <json>] and the empty line) is one constructor of [event]
      carrying the fields of the JSON payload;
    - [JSON.parse], [JSON.stringify], base64 encoding and the decoding of
      a [Buffer] are library functions and enter as section variables;
    - [Response] reads a response as the OpenAI schema types it; [Wire]
      reads [convertResponse] on a response whose objects may be missing,
      [Route] the gates of the handler on a body whose [messages] may be
      missing, and [Upstream] the ['data'] listener on the buffers of the
      upstream stream. *)

From stdpp Require Import gmap strings list fin_maps.
From Stdlib Require Import ZArith QArith.

Open Scope string_scope.
Open Scope list_scope.
Open Scope nat_scope.

(** ** JavaScript truthiness and small library functions *)

Module Js.

(** [if (s)] for an optional string. *)
Definition truthy (o : option string) : bool :=
  match o with
  | Some (String _ _) => true
  | _ => false
  end.

(** [if (n)] for a present integer. *)
Definition truthy_num (n : Z) : bool := negb (n =? 0)%Z.

(** [x || d] on an optional string. *)
Definition or_else (o : option string) (d : string) : string :=
  match o with
  | Some (String a s) => String a s
  | _ => d
  end.

(** [line.startsWith(p)]. *)
Fixpoint startsWith (p s : string) : bool :=
  match p, s with
  | EmptyString, _ => true
  | String a p', String b s' => if Ascii.eqb a b then startsWith p' s' else false
  | String _ _, EmptyString => false
  end.

(** [s.substring(n)]. *)
Fixpoint substring_from (n : nat) (s : string) : string :=
  match n, s with
  | O, _ => s
  | S n', String _ s' => substring_from n' s'
  | S _, EmptyString => EmptyString
  end.

(** [s.split(sep)] for a non-empty separator: [skip] counts the separator
    characters still to be dropped, [cur] is the piece being read. *)
Fixpoint split_go (sep s : string) (skip : nat) (cur : string) : list string :=
  match s with
  | EmptyString => [cur]
  | String c s' =>
      match skip with
      | S k => split_go sep s' k cur
      | O =>
          if startsWith sep s
          then cur :: split_go sep s' (String.length sep - 1) EmptyString
          else split_go sep s' 0 (cur +:+ String c EmptyString)
      end
  end.

Definition split (sep s : string) : list string := split_go sep s 0 EmptyString.

(** The characters [String.prototype.trim] removes, within ASCII. *)
Definition is_space (c : Ascii.ascii) : bool :=
  let n := Ascii.nat_of_ascii c in
  ((n =? 9) || (n =? 10) || (n =? 11) || (n =? 12) || (n =? 13) || (n =? 32))%nat.

(** [s.trim() === ''], i.e. [!s.trim()]. *)
Fixpoint blank (s : string) : bool :=
  match s with
  | EmptyString => true
  | String c s' => is_space c && blank s'
  end.

(** The operations of a [Map] with numeric keys, in insertion order. *)
Section JsMap.
Context {V : Type}.

Definition Map_has (k : nat) (m : list (nat * V)) : bool :=
  existsb (fun e => Nat.eqb (fst e) k) m.

Fixpoint Map_set (k : nat) (v : V) (m : list (nat * V)) : list (nat * V) :=
  match m with
  | [] => [(k, v)]
  | (k', v') :: m' => if Nat.eqb k' k then (k, v) :: m' else (k', v') :: Map_set k v m'
  end.

Definition Map_keys (m : list (nat * V)) : list nat := map fst m.

Definition Map_size (m : list (nat * V)) : nat := length m.

Definition Map_clear : list (nat * V) := [].
End JsMap.

(** JSON values that the converter only passes along (tool inputs, schemas,
    metadata values). *)
#[local] Unset Elimination Schemes.
Inductive json :=
  | JNull
  | JBool (b : bool)
  | JNum (q : Q)
  | JStr (s : string)
  | JArr (l : list json)
  | JObj (fields : list (string * json)).
#[local] Set Elimination Schemes.

(** [Math.max(x, ...ys)]. *)
Definition Math_max (x : nat) (ys : list nat) : nat := foldl Nat.max x ys.

End Js.

(** ** The streaming translator: [_convertStreamEvent] and its state *)

Module Stream.
Import Js.

(** *** Upstream chunks (OpenAI chat-completions stream) *)

Record FunctionDelta := {
  fn_name : option string;
  fn_arguments : option string
}.

Record ToolCallDelta := {
  tc_index : option nat;
  tc_id : option string;
  tc_function : option FunctionDelta
}.

(** [tool_calls] absent, not an array or empty are all [[]]: the code asks
    [Array.isArray(delta.tool_calls) && delta.tool_calls.length > 0]. *)
Record Delta := {
  role : option string;
  content : option string;
  reasoning_content : option string;
  tool_calls : list ToolCallDelta
}.

Definition empty_delta : Delta :=
  {| role := None; content := None; reasoning_content := None; tool_calls := [] |}.

(** A choice without [delta] carries [empty_delta] ([choice.delta || {}]). *)
Record Choice := {
  delta : Delta;
  finish_reason : option string
}.

Record Usage := {
  prompt_tokens : Z;
  completion_tokens : Z
}.

(** [choices] absent or not an array is [[]]. *)
Record OpenAIChunk := {
  model : option string;
  choices : list Choice;
  usage : option Usage
}.

(** *** Downstream events (Anthropic stream) *)

Inductive BlockKind :=
  | TextBlock                          (* {type:'text', text:'', citations:null} *)
  | ThinkingBlock                      (* {type:'thinking', thinking:'', signature:''} *)
  | ToolUseBlock (id name : string).   (* {type:'tool_use', id, name, input:{}} *)

Inductive DeltaKind :=
  | text_delta (text : string)
  | thinking_delta (thinking : string)
  | signature_delta (signature : string)
  | input_json_delta (partial_json : string).

(** The [id] of [message_start]: [sessionId || `msg_${this._generateId()}`]. *)
Inductive MessageId :=
  | GivenId (sessionId : string)
  | GeneratedId.

Inductive event :=
  | message_start (id : MessageId) (model : option string)
  | content_block_start (index : nat) (content_block : BlockKind)
  | content_block_delta (index : nat) (d : DeltaKind)
  | content_block_stop (index : nat)
  | message_delta (stop_reason : string) (stop_sequence : option string)
                  (input_tokens output_tokens : Z)
  | message_stop.

(** *** Session state *)

Record ToolBlock := {
  started : bool;
  tb_id : string;
  tb_name : string
}.

Record StreamState := mkState {
  messageStarted : bool;
  textBlockStarted : bool;
  thinkingBlockStarted : bool;
  toolBlocks : list (nat * ToolBlock);
  contentBlockIndex : nat;
  inputTokens : Z;
  outputTokens : Z
}.

(** The object [_getStreamState] stores for a key it has not seen. *)
Definition initial_state : StreamState :=
  mkState false false false Map_clear 0 0 0.

Definition set_messageStarted (b : bool) (s : StreamState) : StreamState :=
  mkState b (textBlockStarted s) (thinkingBlockStarted s) (toolBlocks s)
          (contentBlockIndex s) (inputTokens s) (outputTokens s).
Definition set_textBlockStarted (b : bool) (s : StreamState) : StreamState :=
  mkState (messageStarted s) b (thinkingBlockStarted s) (toolBlocks s)
          (contentBlockIndex s) (inputTokens s) (outputTokens s).
Definition set_thinkingBlockStarted (b : bool) (s : StreamState) : StreamState :=
  mkState (messageStarted s) (textBlockStarted s) b (toolBlocks s)
          (contentBlockIndex s) (inputTokens s) (outputTokens s).
Definition set_toolBlocks (m : list (nat * ToolBlock)) (s : StreamState) : StreamState :=
  mkState (messageStarted s) (textBlockStarted s) (thinkingBlockStarted s) m
          (contentBlockIndex s) (inputTokens s) (outputTokens s).
Definition set_contentBlockIndex (n : nat) (s : StreamState) : StreamState :=
  mkState (messageStarted s) (textBlockStarted s) (thinkingBlockStarted s) (toolBlocks s)
          n (inputTokens s) (outputTokens s).
Definition set_inputTokens (n : Z) (s : StreamState) : StreamState :=
  mkState (messageStarted s) (textBlockStarted s) (thinkingBlockStarted s) (toolBlocks s)
          (contentBlockIndex s) n (outputTokens s).
Definition set_outputTokens (n : Z) (s : StreamState) : StreamState :=
  mkState (messageStarted s) (textBlockStarted s) (thinkingBlockStarted s) (toolBlocks s)
          (contentBlockIndex s) (inputTokens s) n.

(** *** Statements over the state: mutate it, push events *)

Definition Step : Type := StreamState -> list event * StreamState.

Definition skip : Step := fun s => ([], s).
Definition emit (e : event) : Step := fun s => ([e], s).
Definition update (f : StreamState -> StreamState) : Step := fun s => ([], f s).
Definition read (k : StreamState -> Step) : Step := fun s => k s s.
Definition seq (f g : Step) : Step :=
  fun s => let (e1, s1) := f s in let (e2, s2) := g s1 in (e1 ++ e2, s2).
Definition when_ (c : StreamState -> bool) (f : Step) : Step :=
  fun s => if c s then f s else ([], s).
Fixpoint for_each {A : Type} (l : list A) (body : A -> Step) : Step :=
  match l with
  | [] => skip
  | x :: l' => seq (body x) (for_each l' body)
  end.

Declare Scope step_scope.
Delimit Scope step_scope with step.
Bind Scope step_scope with Step.
Notation "f ;; g" := (seq f g) (at level 100, g at level 200, right associativity) : step_scope.
Open Scope step_scope.

(** [_mapStopReason]; the lookup table has own keys only (a finish reason
    naming a member of [Object.prototype] is outside the model). *)
Definition _mapStopReason (openaiReason : option string) : string :=
  match openaiReason with
  | Some "stop" => "end_turn"
  | Some "length" => "max_tokens"
  | Some "tool_calls" => "tool_use"
  | Some "function_call" => "tool_use"
  | Some "content_filter" => "refusal"
  | _ => "end_turn"
  end.

(** *** The blocks of [_convertStreamEvent] *)

(** [if (delta.role && !state.messageStarted) { ... }] *)
Definition start_message (sessionId : option string) (c : OpenAIChunk) (d : Delta) : Step :=
  when_ (fun s => truthy (role d) && negb (messageStarted s)) (
    update (set_messageStarted true) ;;
    update (set_textBlockStarted false) ;;
    update (set_thinkingBlockStarted false) ;;
    update (set_toolBlocks Map_clear) ;;
    update (set_contentBlockIndex 0) ;;
    update (set_inputTokens 0) ;;
    update (set_outputTokens 0) ;;
    emit (message_start (if truthy sessionId
                         then GivenId (or_else sessionId "")
                         else GeneratedId)
                        (model c))).

(** [if (state.thinkingBlockStarted) { signature_delta; content_block_stop; ... }];
    [advance] tells whether the branch also runs [state.contentBlockIndex++]
    (it does everywhere but under [finish_reason]). *)
Definition stop_thinking_block (advance : bool) : Step :=
  when_ thinkingBlockStarted (
    read (fun s => emit (content_block_delta (contentBlockIndex s) (signature_delta ""))) ;;
    read (fun s => emit (content_block_stop (contentBlockIndex s))) ;;
    (if advance then update (fun s => set_contentBlockIndex (contentBlockIndex s + 1) s)
     else skip) ;;
    update (set_thinkingBlockStarted false)).

(** [if (state.textBlockStarted) { content_block_stop; ... }] *)
Definition stop_text_block (advance : bool) : Step :=
  when_ textBlockStarted (
    read (fun s => emit (content_block_stop (contentBlockIndex s))) ;;
    (if advance then update (fun s => set_contentBlockIndex (contentBlockIndex s + 1) s)
     else skip) ;;
    update (set_textBlockStarted false)).

(** [if (state.toolBlocks.size > 0) { for (const [index] of state.toolBlocks) ...;
    state.toolBlocks.clear(); state.contentBlockIndex = Math.max(...) + 1 }].
    The statements are in the order of the source: the map is cleared
    before [Math.max] reads its keys. Under [finish_reason] the index is not
    reassigned. *)
Definition stop_tool_blocks (advance : bool) : Step :=
  when_ (fun s => Nat.ltb 0 (Map_size (toolBlocks s))) (
    read (fun s => for_each (Map_keys (toolBlocks s))
                            (fun index => emit (content_block_stop index))) ;;
    update (set_toolBlocks Map_clear) ;;
    (if advance
     then update (fun s => set_contentBlockIndex
                             (Math_max (contentBlockIndex s) (Map_keys (toolBlocks s)) + 1) s)
     else skip)).

(** The body of [if (delta.content) { ... }]. *)
Definition on_content (text : string) : Step :=
  stop_thinking_block true ;;
  stop_tool_blocks true ;;
  when_ (fun s => negb (textBlockStarted s)) (
    read (fun s => emit (content_block_start (contentBlockIndex s) TextBlock)) ;;
    update (set_textBlockStarted true)) ;;
  read (fun s => emit (content_block_delta (contentBlockIndex s) (text_delta text))).

(** The body of [else if (delta.reasoning_content) { ... }]. *)
Definition on_reasoning (thinking : string) : Step :=
  stop_text_block true ;;
  stop_tool_blocks true ;;
  when_ (fun s => negb (thinkingBlockStarted s)) (
    read (fun s => emit (content_block_start (contentBlockIndex s) ThinkingBlock)) ;;
    update (set_thinkingBlockStarted true)) ;;
  read (fun s => emit (content_block_delta (contentBlockIndex s) (thinking_delta thinking))).

(** One iteration of [for (const toolCall of delta.tool_calls) { ... }]. *)
Definition on_tool_call (toolCall : ToolCallDelta) : Step :=
  let index := default 0 (tc_index toolCall) in
  when_ (fun _ => truthy (tc_id toolCall)) (
    when_ (fun s => Map_has index (toolBlocks s)) (emit (content_block_stop index)) ;;
    let toolId := or_else (tc_id toolCall) "" in
    let toolName := or_else (tc_function toolCall ≫= fn_name) "" in
    update (fun s => set_toolBlocks
                       (Map_set index {| started := true; tb_id := toolId; tb_name := toolName |}
                                (toolBlocks s)) s) ;;
    emit (content_block_start index (ToolUseBlock toolId toolName))) ;;
  when_ (fun _ => truthy (tc_function toolCall ≫= fn_arguments)) (
    emit (content_block_delta index
            (input_json_delta (or_else (tc_function toolCall ≫= fn_arguments) "")))).

(** The body of [else if (Array.isArray(delta.tool_calls) && ...length > 0)]. *)
Definition on_tool_calls (calls : list ToolCallDelta) : Step :=
  stop_text_block true ;;
  stop_thinking_block true ;;
  for_each calls on_tool_call.

(** The [if / else if / else if] over the three kinds of delta. *)
Definition on_delta (d : Delta) : Step :=
  if truthy (content d) then on_content (or_else (content d) "")
  else if truthy (reasoning_content d) then on_reasoning (or_else (reasoning_content d) "")
  else match tool_calls d with
       | [] => skip
       | calls => on_tool_calls calls
       end.

(** [if (openaiChunk.usage) { ... }] *)
Definition record_usage (u : option Usage) : Step :=
  match u with
  | None => skip
  | Some u =>
      when_ (fun _ => truthy_num (prompt_tokens u)) (update (set_inputTokens (prompt_tokens u))) ;;
      when_ (fun _ => truthy_num (completion_tokens u))
            (update (set_outputTokens (completion_tokens u)))
  end.

(** [if (choice.finish_reason) { ... }]; [state.inputTokens +
    state.outputTokens] is written as the sum of integers. *)
Definition on_finish (reason : option string) : Step :=
  when_ (fun _ => truthy reason) (
    stop_thinking_block false ;;
    stop_text_block false ;;
    stop_tool_blocks false ;;
    read (fun s => emit (message_delta (_mapStopReason reason) None
                                       0 (inputTokens s + outputTokens s)))).

(** [_convertStreamEvent] once [state] has been fetched: the events pushed
    and the state the session is left in. *)
Definition convert_event (sessionId : option string) (c : OpenAIChunk) : Step :=
  match choices c with
  | [] => skip
  | choice :: _ =>
      start_message sessionId c (delta choice) ;;
      on_delta (delta choice) ;;
      record_usage (usage c) ;;
      on_finish (finish_reason choice)
  end.

(** A session: the chunks of one stream, translated in order. *)
Fixpoint run_session (sessionId : option string) (chunks : list OpenAIChunk) : Step :=
  match chunks with
  | [] => skip
  | c :: chunks' => convert_event sessionId c ;; run_session sessionId chunks'
  end.

End Stream.

(** ** The session table and [convertStreamChunk] *)

Module Converter.
Import Js Stream.

(** What [JSON.parse(data)] gives for one [data:] line, as far as
    [_convertStreamEvent] reads it: a syntax error (thrown), the value
    [null] (reading [openaiChunk.choices] throws), or a chunk. *)
Inductive ParseResult :=
  | syntax_error
  | parsed_null
  | parsed (openaiChunk : OpenAIChunk).

(** [sessionId || 'default'] *)
Definition session_key (sessionId : option string) : string :=
  or_else sessionId "default".

(** [_getStreamState]: the state of the key, and the table with the entry
    it creates when the key is new. The repair of a state whose
    [toolBlocks] is not a [Map] never runs on the states created here. *)
Definition _getStreamState (_streamStates : gmap string StreamState)
    (sessionId : option string) : StreamState * gmap string StreamState :=
  let key := session_key sessionId in
  match _streamStates !! key with
  | Some state => (state, _streamStates)
  | None => (initial_state, <[key := initial_state]> _streamStates)
  end.

(** [_resetStreamState] *)
Definition _resetStreamState (_streamStates : gmap string StreamState)
    (sessionId : option string) : gmap string StreamState :=
  delete (session_key sessionId) _streamStates.

(** [_convertStreamEvent]: the state object lives in the table, so what
    [convert_event] does to it is stored under its key. *)
Definition _convertStreamEvent (_streamStates : gmap string StreamState)
    (openaiChunk : OpenAIChunk) (sessionId : option string)
    : list event * gmap string StreamState :=
  let (state, table) := _getStreamState _streamStates sessionId in
  let (events, state') := convert_event sessionId openaiChunk state in
  (events, <[session_key sessionId := state']> table).

Section Lines.
Variable JSON_parse : string -> ParseResult.

(** The body of [for (const line of lines)] in [convertStreamChunk], on the
    events converted so far and the table. *)
Definition convert_line (sessionId : option string)
    (acc : list event * gmap string StreamState) (line : string)
    : list event * gmap string StreamState :=
  let (convertedEvents, table) := acc in
  if startsWith "data: " line then
    let data := substring_from 6 line in
    if String.eqb data "[DONE]" then
      (convertedEvents ++ [message_stop],
       _resetStreamState table (Some (session_key sessionId)))
    else
      match JSON_parse data with
      | syntax_error => (convertedEvents, table)
      | parsed_null => (convertedEvents, snd (_getStreamState table sessionId))
      | parsed openaiChunk =>
          let (claudeEvents, table') := _convertStreamEvent table openaiChunk sessionId in
          (convertedEvents ++ claudeEvents, table')
      end
  else (convertedEvents, table).

(** [convertStreamChunk]; the returned string is [''] exactly when the list
    of events is empty. *)
Definition convertStreamChunk (_streamStates : gmap string StreamState)
    (chunk : string) (sessionId : option string)
    : list event * gmap string StreamState :=
  if blank chunk then ([], _streamStates)
  else foldl (convert_line sessionId) ([], _streamStates) (split "
" chunk).

End Lines.
End Converter.

(** ** The streaming branch of the route handler *)

Module Dispatch.
Import Js Stream Converter.

(** What the handler holds while the upstream stream is read: the tail
    buffer, the frames written to [res], and the converter's table. The
    usage totals it sniffs from the frames are written nowhere downstream
    and are left out. *)
Record Handler := {
  buffer : string;
  res : list event;
  _streamStates : gmap string StreamState
}.

Section Route.
Variable JSON_parse : string -> ParseResult.
Variable sessionId : string.

(** The body of [for (const line of lines)] in the ['data'] listener. *)
Definition write_frame (h : Handler) (line : string) : Handler :=
  if negb (blank line) then
    let (claudeChunk, table) :=
      convertStreamChunk JSON_parse (_streamStates h) line (Some sessionId) in
    {| buffer := buffer h; res := res h ++ claudeChunk; _streamStates := table |}
  else h.

(** [openaiStream.on('data', ...)], on the text that [chunk.toString()]
    gives for the chunk. *)
Definition on_data (h : Handler) (chunk : string) : Handler :=
  let lines := split "

" (buffer h +:+ chunk) in
  let h' := {| buffer := default "" (last lines); res := res h;
               _streamStates := _streamStates h |} in
  foldl write_frame h' (removelast lines).

(** [openaiStream.on('end', ...)]: the two [res.write] calls. *)
Definition on_end (h : Handler) : Handler :=
  {| buffer := buffer h; res := res h ++ [message_stop];
     _streamStates := _streamStates h |}.

(** A request whose upstream delivers [chunks] and then ends. *)
Definition stream_request (table : gmap string StreamState) (chunks : list string) : Handler :=
  on_end (foldl on_data {| buffer := ""; res := []; _streamStates := table |} chunks).

End Route.
End Dispatch.

(** ** [convertRequest]: Anthropic request to OpenAI request *)

Module Request.
Import Js.

(** *** Anthropic side *)

Inductive ImageSource :=
  | image_base64 (media_type data : string)
  | image_url (url : string)
  | image_other.

(** [document_content] carries the string when [source.content] is one. *)
Inductive DocumentSource :=
  | document_base64 (data : string)
  | document_text (data : string)
  | document_content (content : option string)
  | document_other.

Inductive ResultPart :=
  | result_text (text : string)
  | result_other.

Inductive ToolResultContent :=
  | result_string (s : string)
  | result_array (parts : list ResultPart)
  | result_none.

Inductive ContentBlock :=
  | text (text : string)
  | image (source : ImageSource)
  | document (source : DocumentSource) (title : option string)
  | tool_use (id name : string) (input : json)
  | tool_result (tool_use_id : string) (content : ToolResultContent)
  | thinking (thinking signature : string)
  | other_block.

Inductive MessageContent :=
  | content_string (s : string)
  | content_array (blocks : list ContentBlock)
  | content_missing.

Record Message := {
  role : string;
  content : MessageContent
}.

Inductive SystemPart :=
  | system_text (text : string)
  | system_other.

Inductive SystemPrompt :=
  | system_string (s : string)
  | system_array (parts : list SystemPart).

Record ToolDef := {
  name : string;
  description : option string;
  input_schema : option json
}.

Record ToolChoice := {
  tc_type : string;
  tc_name : option string;
  disable_parallel_tool_use : option bool
}.

(** [temperature] and [top_p] are tested against [undefined] only, so a
    present [null] is kept apart: [Some None]. *)
Record AnthropicRequest := {
  model : string;
  messages : list Message;
  system : option SystemPrompt;
  max_tokens : option Z;
  temperature : option (option Q);
  top_p : option (option Q);
  stop_sequences : option (list string);
  stream : option bool;
  tools : option (list ToolDef);
  tool_choice : option ToolChoice;
  metadata : option (list (string * json))
}.

(** *** OpenAI side *)

Inductive Part :=
  | part_text (text : string)
  | part_image_url (url : string)
  | part_file (file_data : string) (filename : option string).

Inductive OpenAIContent :=
  | openai_string (s : string)
  | openai_parts (parts : list Part)
  | openai_null.

Record OpenAIToolCall := {
  call_id : string;
  call_name : string;
  call_arguments : string
}.

Record OpenAIMessage := {
  o_role : string;
  o_content : OpenAIContent;
  o_tool_calls : option (list OpenAIToolCall);
  o_tool_call_id : option string
}.

Record OpenAITool := {
  f_name : string;
  f_description : option string;
  f_parameters : option json
}.

Inductive OpenAIToolChoice :=
  | choice_string (s : string)
  | choice_function (name : option string).

Record OpenAIRequest := {
  o_model : string;
  o_messages : list OpenAIMessage;
  o_stream : bool;
  max_completion_tokens : option Z;
  stop : option (list string);
  o_temperature : option (option Q);
  o_top_p : option (option Q);
  o_tools : option (list OpenAITool);
  o_tool_choice : option OpenAIToolChoice;
  parallel_tool_calls : option bool;
  o_metadata : option (list (string * string))
}.

(** What [_convertMessageContent] returns: one message object, or the
    array of tool messages. *)
Inductive Converted :=
  | one_message (m : OpenAIMessage)
  | message_array (ms : list OpenAIMessage).

(** The four accumulators of the scan over the content blocks. *)
Record Scan := {
  textParts : list Part;
  contentParts : list Part;
  toolCalls : list OpenAIToolCall;
  toolResults : list OpenAIMessage
}.

Section Convert.
Variable JSON_stringify : json -> string.
Variable base64 : string -> string.

(** The body of [for (const contentBlock of content)]. *)
Definition scan_block (acc : Scan) (contentBlock : ContentBlock) : Scan :=
  match contentBlock with
  | text t =>
      let textPart := part_text t in
      {| textParts := textParts acc ++ [textPart];
         contentParts := contentParts acc ++ [textPart];
         toolCalls := toolCalls acc; toolResults := toolResults acc |}
  | image source =>
      let imageUrl :=
        match source with
        | image_base64 media_type data => Some ("data:" +:+ media_type +:+ ";base64," +:+ data)
        | image_url url => Some url
        | image_other => None
        end in
      if truthy imageUrl then
        {| textParts := textParts acc;
           contentParts := contentParts acc ++ [part_image_url (or_else imageUrl "")];
           toolCalls := toolCalls acc; toolResults := toolResults acc |}
      else acc
  | document source title =>
      let base64Content :=
        match source with
        | document_base64 data => Some data
        | document_text data => Some (base64 data)
        | document_content (Some c) => Some (base64 c)
        | document_content None => None
        | document_other => None
        end in
      if truthy base64Content then
        {| textParts := textParts acc;
           contentParts := contentParts acc ++
             [part_file (or_else base64Content "")
                        (if truthy title then title else None)];
           toolCalls := toolCalls acc; toolResults := toolResults acc |}
      else acc
  | tool_use id name input =>
      {| textParts := textParts acc; contentParts := contentParts acc;
         toolCalls := toolCalls acc ++
           [{| call_id := id; call_name := name; call_arguments := JSON_stringify input |}];
         toolResults := toolResults acc |}
  | tool_result tool_use_id c =>
      let toolContent :=
        match c with
        | result_string s => openai_string s
        | result_array parts =>
            openai_parts (omap (fun part => match part with
                                            | result_text t => Some (part_text t)
                                            | result_other => None
                                            end) parts)
        | result_none => openai_string ""
        end in
      {| textParts := textParts acc; contentParts := contentParts acc;
         toolCalls := toolCalls acc;
         toolResults := toolResults acc ++
           [{| o_role := "tool"; o_content := toolContent; o_tool_calls := None;
               o_tool_call_id := Some tool_use_id |}] |}
  | thinking _ _ => acc
  | other_block => acc
  end.

(** The scan of an array content, from the four empty arrays. *)
Definition scan_blocks (blocks : list ContentBlock) : Scan :=
  foldl scan_block
        {| textParts := []; contentParts := []; toolCalls := []; toolResults := [] |}
        blocks.

(** The default return at the end of [_convertMessageContent]. *)
Definition default_message (role : string) (content : MessageContent) : OpenAIMessage :=
  {| o_role := role;
     o_content := openai_string (match content with content_string s => s | _ => "" end);
     o_tool_calls := None; o_tool_call_id := None |}.

(** [_convertMessageContent] *)
Definition _convertMessageContent (msg : Message) : Converted :=
  match content msg with
  | content_string s =>
      one_message {| o_role := role msg; o_content := openai_string s;
                     o_tool_calls := None; o_tool_call_id := None |}
  | content_array blocks =>
      let acc := scan_blocks blocks in
      if 0 <? length (toolResults acc) then message_array (toolResults acc)
      else if String.eqb (role msg) "assistant"
              && ((0 <? length (textParts acc)) || (0 <? length (toolCalls acc))) then
        one_message
          {| o_role := "assistant";
             o_content := if 0 <? length (textParts acc)
                          then openai_parts (textParts acc) else openai_null;
             o_tool_calls := if 0 <? length (toolCalls acc)
                             then Some (toolCalls acc) else None;
             o_tool_call_id := None |}
      else if String.eqb (role msg) "user" && (0 <? length (contentParts acc)) then
        one_message {| o_role := "user"; o_content := openai_parts (contentParts acc);
                       o_tool_calls := None; o_tool_call_id := None |}
      else one_message (default_message (role msg) (content msg))
  | content_missing => one_message (default_message (role msg) (content msg))
  end.

(** What one message adds to [openaiMessages]: the array spread, or the
    object (an object is always truthy). *)
Definition pushed (converted : Converted) : list OpenAIMessage :=
  match converted with
  | message_array ms => ms
  | one_message m => [m]
  end.

(** The system message of [_convertMessages], if any. *)
Definition system_messages (system : option SystemPrompt) : list OpenAIMessage :=
  match system with
  | Some (system_string s) =>
      if truthy (Some s)
      then [{| o_role := "system"; o_content := openai_string s;
               o_tool_calls := None; o_tool_call_id := None |}]
      else []
  | Some (system_array parts) =>
      let text := foldl (fun text part => match part with
                                          | system_text t => text +:+ t
                                          | system_other => text
                                          end) "" parts in
      if truthy (Some text)
      then [{| o_role := "system"; o_content := openai_string text;
               o_tool_calls := None; o_tool_call_id := None |}]
      else []
  | None => []
  end.

(** [_convertMessages] *)
Definition _convertMessages (claudeRequest : AnthropicRequest) : list OpenAIMessage :=
  system_messages (system claudeRequest) ++
  flat_map (fun msg => pushed (_convertMessageContent msg)) (messages claudeRequest).

(** [_convertTools] *)
Definition _convertTools (tools : list ToolDef) : list OpenAITool :=
  map (fun tool => {| f_name := name tool; f_description := description tool;
                      f_parameters := input_schema tool |}) tools.

(** [!toolChoice.disable_parallel_tool_use] *)
Definition not_disabled (toolChoice : ToolChoice) : bool :=
  match disable_parallel_tool_use toolChoice with
  | Some true => false
  | _ => true
  end.

(** [_convertToolChoice]: the pair [{ toolChoice, parallelToolCalls }]; the
    [switch] compares [toolChoice.type] with each label in turn. *)
Definition _convertToolChoice (toolChoice : option ToolChoice) : OpenAIToolChoice * bool :=
  match toolChoice with
  | None => (choice_string "auto", true)
  | Some toolChoice =>
      if String.eqb (tc_type toolChoice) "auto" then
        (choice_string "auto", not_disabled toolChoice)
      else if String.eqb (tc_type toolChoice) "any" then
        (choice_string "required", not_disabled toolChoice)
      else if String.eqb (tc_type toolChoice) "tool" then
        (choice_function (tc_name toolChoice), not_disabled toolChoice)
      else if String.eqb (tc_type toolChoice) "none" then
        (choice_string "none", true)
      else (choice_string "auto", true)
  end.

(** The loop over [Object.entries(claudeRequest.metadata)]. *)
Definition convert_metadata (metadata : list (string * json)) : list (string * string) :=
  omap (fun entry => match snd entry with
                     | JNull => None
                     | JStr s => Some (fst entry, s)
                     | value => Some (fst entry, JSON_stringify value)
                     end) metadata.

(** [convertRequest] *)
Definition convertRequest (claudeRequest : AnthropicRequest) : OpenAIRequest :=
  let converted_choice :=
    match tools claudeRequest, tool_choice claudeRequest with
    | Some _, Some tc => Some (_convertToolChoice (Some tc))
    | _, _ => None
    end in
  {| o_model := model claudeRequest;
     o_messages := _convertMessages claudeRequest;
     o_stream := default false (stream claudeRequest);
     max_completion_tokens :=
       match max_tokens claudeRequest with
       | Some n => if truthy_num n then Some n else None
       | None => None
       end;
     stop := stop_sequences claudeRequest;
     o_temperature := temperature claudeRequest;
     o_top_p := top_p claudeRequest;
     o_tools := _convertTools <$> tools claudeRequest;
     o_tool_choice := fst <$> converted_choice;
     parallel_tool_calls :=
       match converted_choice with
       | Some (_, false) => Some false
       | _ => None
       end;
     o_metadata := convert_metadata <$> metadata claudeRequest |}.

End Convert.

(** [contentBlock.type === 'tool_result'] *)
Definition is_tool_result (contentBlock : ContentBlock) : bool :=
  match contentBlock with
  | tool_result _ _ => true
  | _ => false
  end.

(** The requests for which [convertRequest] sets [parallel_tool_calls]:
    [tools] and [tool_choice] are present, the type of the choice is
    [auto], [any] or [tool], and it carries a truthy
    [disable_parallel_tool_use]. *)
Definition disables_parallel (claudeRequest : AnthropicRequest) : bool :=
  match tools claudeRequest, tool_choice claudeRequest with
  | Some _, Some tc =>
      (String.eqb (tc_type tc) "auto" || String.eqb (tc_type tc) "any"
       || String.eqb (tc_type tc) "tool")
      && match disable_parallel_tool_use tc with Some true => true | _ => false end
  | _, _ => false
  end.

End Request.

(** ** [convertResponse]: OpenAI response to Anthropic message *)

Module Response.
Import Js.

(** *** OpenAI side *)

Record FunctionCall := {
  name : string;
  arguments : string
}.

Record ToolCall := {
  type : string;
  id : option string;
  function : FunctionCall
}.

(** [content] is [None] for [null] or [undefined]; [tool_calls] absent is
    the empty list. *)
Record Message := {
  content : option string;
  reasoning_content : option string;
  tool_calls : list ToolCall
}.

(** A choice as the schema types it, with its [message]; [Wire.Choice]
    is a choice whose [message] may be missing. *)
Record Choice := {
  message : Message;
  finish_reason : option string
}.

Record OpenAIResponse := {
  r_id : option string;
  r_model : option string;
  choices : option (list Choice);
  usage : option Stream.Usage
}.

(** *** Anthropic side *)

(** [input]: the parsed arguments, or the raw string when [JSON.parse]
    throws. *)
Inductive ToolInput :=
  | input_parsed (v : json)
  | input_raw (s : string).

Inductive ContentBlock :=
  | text (text : string) (citations : option json)
  | thinking (thinking signature : string)
  | tool_use (id : option string) (name : string) (input : ToolInput).

Record AnthropicUsage := {
  cache_creation : option json;
  cache_creation_input_tokens : option Z;
  cache_read_input_tokens : option Z;
  input_tokens : Z;
  output_tokens : Z;
  server_tool_use : option json;
  service_tier : string
}.

Record AnthropicResponse := {
  a_id : Stream.MessageId;
  a_type : string;
  a_role : string;
  a_content : list ContentBlock;
  a_model : option string;
  stop_reason : string;
  stop_sequence : option string;
  a_usage : AnthropicUsage
}.

(** The error [convertResponse] throws, with the message
    [Invalid OpenAI response: "choices" array is empty or missing.] *)
Inductive Error :=
  | InvalidUpstreamResponse.

Section Convert.
Variable JSON_parse : string -> option json.

(** [toolCall.type === 'function'] *)
Definition is_function (toolCall : ToolCall) : bool :=
  String.eqb (type toolCall) "function".

(** The block pushed for a function tool call: [input] is parsed from
    [function.arguments], or stays the string when parsing throws. *)
Definition tool_use_of (toolCall : ToolCall) : ContentBlock :=
  let input :=
    match JSON_parse (arguments (function toolCall)) with
    | Some v => input_parsed v
    | None => input_raw (arguments (function toolCall))
    end in
  tool_use (id toolCall) (name (function toolCall)) input.

(** The body of [for (const toolCall of message.tool_calls)]. *)
Definition convert_tool_call (toolCall : ToolCall) : list ContentBlock :=
  if is_function toolCall then [tool_use_of toolCall] else [].

(** The three pushes that build [content]. *)
Definition convert_content (message : Message) : list ContentBlock :=
  match content message with
  | Some c => [text c None]
  | None => []
  end ++
  (if truthy (reasoning_content message)
   then [thinking (or_else (reasoning_content message) "") ""]
   else []) ++
  flat_map convert_tool_call (tool_calls message).

(** [convertResponse] *)
Definition convertResponse (openaiResponse : OpenAIResponse) : Error + AnthropicResponse :=
  match choices openaiResponse ≫= head with
  | None => inl InvalidUpstreamResponse
  | Some choice =>
      inr {| a_id := if truthy (r_id openaiResponse)
                     then Stream.GivenId (or_else (r_id openaiResponse) "")
                     else Stream.GeneratedId;
             a_type := "message";
             a_role := "assistant";
             a_content := convert_content (message choice);
             a_model := r_model openaiResponse;
             stop_reason := Stream._mapStopReason (finish_reason choice);
             stop_sequence := None;
             a_usage :=
               {| cache_creation := None;
                  cache_creation_input_tokens := None;
                  cache_read_input_tokens := None;
                  input_tokens :=
                    default 0%Z (Stream.prompt_tokens <$> usage openaiResponse);
                  output_tokens :=
                    default 0%Z (Stream.completion_tokens <$> usage openaiResponse);
                  server_tool_use := None;
                  service_tier := "standard" |} |}
  end.

End Convert.
End Response.

(** ** Reading an event trace *)

Module Trace.
Import Js Stream.

Definition is_start (i : nat) (e : event) : bool :=
  match e with
  | content_block_start j _ => j =? i
  | _ => false
  end.

Definition is_stop (i : nat) (e : event) : bool :=
  match e with
  | content_block_stop j => j =? i
  | _ => false
  end.

Definition is_message_delta (e : event) : bool :=
  match e with
  | message_delta _ _ _ _ => true
  | _ => false
  end.

Definition is_message_stop (e : event) : bool :=
  match e with
  | message_stop => true
  | _ => false
  end.

Definition count {A : Type} (p : A -> bool) (l : list A) : nat :=
  length (List.filter p l).

(** Number of [content_block_start] / [content_block_stop] events at [i]. *)
Definition starts (i : nat) (evs : list event) : nat := count (is_start i) evs.
Definition stops (i : nat) (evs : list event) : nat := count (is_stop i) evs.

(** At every [message_delta] of the trace, the events before it open and
    close each index equally often. *)
Definition balanced_at_message_delta (evs : list event) : Prop :=
  forall pre post sr sq it ot,
    evs = pre ++ message_delta sr sq it ot :: post ->
    forall i, starts i pre = stops i pre.

(** Blocks the state holds open at index [i]. *)
Definition open_at (i : nat) (s : StreamState) : nat :=
  (if textBlockStarted s && (contentBlockIndex s =? i) then 1 else 0) +
  (if thinkingBlockStarted s && (contentBlockIndex s =? i) then 1 else 0) +
  count (fun k => k =? i) (Map_keys (toolBlocks s)).

(** Every block opened in the trace is closed in it or still held open by
    the state, index by index. *)
Definition balance (evs : list event) (s : StreamState) : Prop :=
  forall i, starts i evs = stops i evs + open_at i s.

Definition no_open (s : StreamState) : Prop :=
  textBlockStarted s = false /\ thinkingBlockStarted s = false /\ toolBlocks s = [].

(** Text, thinking and tool blocks exclude one another. *)
Definition exclusive (s : StreamState) : Prop :=
  (textBlockStarted s = true -> thinkingBlockStarted s = false /\ toolBlocks s = []) /\
  (thinkingBlockStarted s = true -> toolBlocks s = []).

(** The invariant of a session: the trace so far and the state agree. *)
Definition well_formed (evs : list event) (s : StreamState) : Prop :=
  balance evs s /\ exclusive s /\ balanced_at_message_delta evs.

Definition is_message_start (e : event) : bool :=
  match e with
  | message_start _ _ => true
  | _ => false
  end.

(** [content_block_start], [content_block_delta] or [content_block_stop]. *)
Definition is_block_event (e : event) : bool :=
  match e with
  | content_block_start _ _ | content_block_delta _ _ | content_block_stop _ => true
  | _ => false
  end.

(** Every event a statement pushes satisfies [P], whatever the state. *)
Definition emits_only (P : event -> bool) (f : Step) : Prop :=
  forall s, forallb P (f s).1 = true.

(** The first choice carries a truthy [delta.role]. *)
Definition carries_role (c : OpenAIChunk) : bool :=
  match choices c with
  | choice :: _ => truthy (role (delta choice))
  | [] => false
  end.

(** The first choice carries a delta that can open a block: text, thinking,
    or a tool call with an [id]. *)
Definition opens_block (c : OpenAIChunk) : bool :=
  match choices c with
  | choice :: _ =>
      truthy (content (delta choice))
      || truthy (reasoning_content (delta choice))
      || existsb (fun toolCall => truthy (tc_id toolCall)) (tool_calls (delta choice))
  | [] => false
  end.

(** No chunk opens a block before the first chunk that carries a role. *)
Fixpoint role_first (chunks : list OpenAIChunk) : bool :=
  match chunks with
  | [] => true
  | c :: chunks' => carries_role c || (negb (opens_block c) && role_first chunks')
  end.

(** No chunk of the session carries a role. *)
Definition never_role (chunks : list OpenAIChunk) : bool :=
  forallb (fun c => negb (carries_role c)) chunks.

(** The first choice carries a truthy [finish_reason]. *)
Definition finishes (c : OpenAIChunk) : bool :=
  match choices c with
  | choice :: _ => truthy (finish_reason choice)
  | [] => false
  end.

(** The chunks before the first one that carries a role. *)
Fixpoint before_role (chunks : list OpenAIChunk) : list OpenAIChunk :=
  match chunks with
  | [] => []
  | c :: chunks' => if carries_role c then [] else c :: before_role chunks'
  end.

(** The chunks from the first one that carries a role on. *)
Fixpoint from_role (chunks : list OpenAIChunk) : list OpenAIChunk :=
  match chunks with
  | [] => []
  | c :: chunks' => if carries_role c then chunks else from_role chunks'
  end.

(** The state the role branch leaves. *)
Definition started_state : StreamState := mkState true false false Map_clear 0 0 0.

(** A chunk whose first choice carries a role and nothing else. *)
Definition role_only (model : option string) (role : string) : OpenAIChunk :=
  {| model := model;
     choices := [{| delta := {| role := Some role; content := None;
                                reasoning_content := None; tool_calls := [] |};
                    finish_reason := None |}];
     usage := None |}.

End Trace.

(** ** Sample inputs *)

Module Sample.
Import Js Stream.

Definition chunk_of (d : Delta) (reason : option string) (u : option Usage) : OpenAIChunk :=
  {| model := Some "m"; choices := [{| delta := d; finish_reason := reason |}]; usage := u |}.

Definition role_delta : Delta :=
  {| role := Some "assistant"; content := None; reasoning_content := None; tool_calls := [] |}.

Definition text_of (t : string) : Delta :=
  {| role := None; content := Some t; reasoning_content := None; tool_calls := [] |}.

Definition reasoning_of (t : string) : Delta :=
  {| role := None; content := None; reasoning_content := Some t; tool_calls := [] |}.

Definition calls_of (l : list ToolCallDelta) : Delta :=
  {| role := None; content := None; reasoning_content := None; tool_calls := l |}.

Definition call (i : nat) (id : option string) (args : option string) : ToolCallDelta :=
  {| tc_index := Some i; tc_id := id;
     tc_function := Some {| fn_name := Some "f"; fn_arguments := args |} |}.

(** Scenario 4 of the specification: role, two text deltas, finish. *)
Definition text_session : list OpenAIChunk :=
  [chunk_of role_delta None None;
   chunk_of (text_of "he") None None;
   chunk_of (text_of "llo") None None;
   chunk_of empty_delta (Some "stop") (Some {| prompt_tokens := 1; completion_tokens := 2 |})].

(** The terminal chunk of scenario 4. *)
Definition finish_chunk : OpenAIChunk :=
  chunk_of empty_delta (Some "stop") (Some {| prompt_tokens := 1; completion_tokens := 2 |}).

(** Text arrives before the role. *)
Definition text_before_role : list OpenAIChunk :=
  [chunk_of (text_of "a") None None;
   chunk_of role_delta None None;
   chunk_of empty_delta (Some "stop") None].

(** A text block opened and closed by a [finish_reason] before the role
    arrives. *)
Definition closed_before_role : list OpenAIChunk :=
  [chunk_of (text_of "a") None None;
   chunk_of empty_delta (Some "stop") None;
   chunk_of role_delta None None;
   chunk_of (text_of "b") None None;
   chunk_of empty_delta (Some "stop") None].

(** Text and a finish, never a role. *)
Definition text_without_role : list OpenAIChunk :=
  [chunk_of (text_of "a") None None;
   chunk_of empty_delta (Some "length") None].

(** A state with tool blocks 0 and 1 open, as left by a parallel tool call. *)
Definition two_tools_open : StreamState :=
  snd (run_session (Some "s")
         [chunk_of role_delta None None;
          chunk_of (calls_of [call 0 (Some "a") None; call 1 (Some "b") None]) None None]
         initial_state).

(** Library functions that the samples below never reach. *)
Definition no_stringify (v : json) : string := "".
Definition no_base64 (s : string) : string := "".
Definition no_parse (s : string) : option json := None.

(** A request with [tool_choice] but without [tools]. *)
Definition choice_without_tools : Request.AnthropicRequest :=
  {| Request.model := "m"; Request.messages := []; Request.system := None;
     Request.max_tokens := None; Request.temperature := None; Request.top_p := None;
     Request.stop_sequences := None; Request.stream := None;
     Request.tools := None;
     Request.tool_choice :=
       Some {| Request.tc_type := "auto"; Request.tc_name := None;
               Request.disable_parallel_tool_use := Some true |};
     Request.metadata := None |}.

(** A request with [tools] and a [none] choice that disables parallel use. *)
Definition choice_none : Request.AnthropicRequest :=
  {| Request.model := "m"; Request.messages := []; Request.system := None;
     Request.max_tokens := None; Request.temperature := None; Request.top_p := None;
     Request.stop_sequences := None; Request.stream := None;
     Request.tools := Some [];
     Request.tool_choice :=
       Some {| Request.tc_type := "none"; Request.tc_name := None;
               Request.disable_parallel_tool_use := Some true |};
     Request.metadata := None |}.

(** A user message that holds a thinking block only. *)
Definition thinking_only : Request.Message :=
  {| Request.role := "user";
     Request.content := Request.content_array [Request.thinking "hm" "sig"] |}.

Definition thinking_only_request : Request.AnthropicRequest :=
  {| Request.model := "m"; Request.messages := [thinking_only]; Request.system := None;
     Request.max_tokens := None; Request.temperature := None; Request.top_p := None;
     Request.stop_sequences := None; Request.stream := None;
     Request.tools := None; Request.tool_choice := None; Request.metadata := None |}.

(** A tool call of a type other than [function]. *)
Definition custom_call : Response.ToolCall :=
  {| Response.type := "custom"; Response.id := Some "c1";
     Response.function := {| Response.name := "f"; Response.arguments := "{}" |} |}.

Definition response_of (choices : option (list Response.Choice)) : Response.OpenAIResponse :=
  {| Response.r_id := Some "r1"; Response.r_model := Some "m";
     Response.choices := choices; Response.usage := None |}.

(** Text and two tool calls, neither of type [function]. *)
Definition text_and_custom_calls : Response.OpenAIResponse :=
  response_of (Some [{| Response.message :=
                          {| Response.content := Some "hi";
                             Response.reasoning_content := None;
                             Response.tool_calls := [custom_call; custom_call] |};
                        Response.finish_reason := Some "stop" |}]).

(** A stand-in for [JSON.parse] on three payloads, which are named here
    rather than spelled out as JSON text. *)
Definition parse_demo (data : string) : Converter.ParseResult :=
  if String.eqb data "role" then Converter.parsed (chunk_of role_delta None None)
  else if String.eqb data "text" then Converter.parsed (chunk_of (text_of "hi") None None)
  else if String.eqb data "null" then Converter.parsed_null
  else Converter.syntax_error.

End Sample.

(** ** The gates of [handleMessagesRequest] before an account is chosen *)

Module Route.
Import Js.

(** The fields of [apiKeyData] the gates read. *)
Record ApiKeyData := {
  permissions : option string;
  enableModelRestriction : bool;
  restrictedModels : option (list string)
}.

(** [checkPermissions] *)
Definition checkPermissions (apiKeyData : ApiKeyData) (requiredPermission : string) : bool :=
  let permissions := or_else (permissions apiKeyData) "all" in
  String.eqb permissions "all" || String.eqb permissions requiredPermission.

(** [req.body] as the handler receives it: an Anthropic request whose
    [messages] may be missing. *)
Record Body := {
  model : string;
  messages : option (list Request.Message);
  system : option Request.SystemPrompt;
  max_tokens : option Z;
  temperature : option (option Q);
  top_p : option (option Q);
  stop_sequences : option (list string);
  stream : option bool;
  tools : option (list Request.ToolDef);
  tool_choice : option Request.ToolChoice;
  metadata : option (list (string * json))
}.

(** The error types of the replies. *)
Inductive Rejection :=
  | permission_error
  | invalid_request_error
  | api_error.

(** What the handler has done when the gates are behind it: a reply with a
    status and an error type, or the converted request in hand. *)
Inductive Outcome :=
  | rejected (status : nat) (error : Rejection)
  | admitted (openaiRequest : Request.OpenAIRequest).

Section Gates.
Variable JSON_stringify : json -> string.
Variable base64 : string -> string.

(** [claudeToOpenai.convertRequest(req.body)]: without [messages],
    [for (const msg of claudeRequest.messages)] throws a [TypeError]. *)
Definition convertRequest (body : Body) : option Request.OpenAIRequest :=
  match messages body with
  | None => None
  | Some msgs =>
      Some (Request.convertRequest JSON_stringify base64
              {| Request.model := model body; Request.messages := msgs;
                 Request.system := system body; Request.max_tokens := max_tokens body;
                 Request.temperature := temperature body; Request.top_p := top_p body;
                 Request.stop_sequences := stop_sequences body;
                 Request.stream := stream body; Request.tools := tools body;
                 Request.tool_choice := tool_choice body;
                 Request.metadata := metadata body |})
  end.

(** The permission check, the conversion of the body and the model
    restriction, in the order of the handler. An exception of the
    conversion reaches the handler's [catch], which replies
    [error.status || 500] with [api_error]. *)
Definition preflight (apiKeyData : ApiKeyData) (body : Body) : Outcome :=
  if negb (checkPermissions apiKeyData "openai") then rejected 403 permission_error
  else match convertRequest body with
       | None => rejected 500 api_error
       | Some openaiRequest =>
           if enableModelRestriction apiKeyData
              && (0 <? length (default [] (restrictedModels apiKeyData)))
              && negb (existsb (String.eqb (model body))
                               (default [] (restrictedModels apiKeyData)))
           then rejected 403 invalid_request_error
           else admitted openaiRequest
       end.

End Gates.

(** A body with the given model and messages and nothing else. *)
Definition body_of (model : string) (messages : option (list Request.Message)) : Body :=
  {| model := model; messages := messages; system := None; max_tokens := None;
     temperature := None; top_p := None; stop_sequences := None; stream := None;
     tools := None; tool_choice := None; metadata := None |}.

End Route.

(** ** Reading payloads off a trace, and what a chunk carries *)

Module Payload.
Import Js Stream.

(** The delta of a [content_block_delta] that carries upstream content;
    the [signature_delta] the translator adds on its own is none. *)
Definition payload_of (e : event) : option DeltaKind :=
  match e with
  | content_block_delta _ (signature_delta _) => None
  | content_block_delta _ d => Some d
  | _ => None
  end.

(** The fragments of one entry of [delta.tool_calls]. *)
Definition call_payloads (toolCall : ToolCallDelta) : list DeltaKind :=
  if truthy (tc_function toolCall ≫= fn_arguments)
  then [input_json_delta (or_else (tc_function toolCall ≫= fn_arguments) "")]
  else [].

(** What the first choice of a chunk carries, by the precedence of the
    translator: text, else reasoning, else tool-call arguments. *)
Definition chunk_payloads (c : OpenAIChunk) : list DeltaKind :=
  match choices c with
  | [] => []
  | choice :: _ =>
      let d := delta choice in
      if truthy (content d) then [text_delta (or_else (content d) "")]
      else if truthy (reasoning_content d)
      then [thinking_delta (or_else (reasoning_content d) "")]
      else flat_map call_payloads (tool_calls d)
  end.

(** An [input_json_delta] with the block index it is sent at. *)
Definition fragment_of (e : event) : option (nat * string) :=
  match e with
  | content_block_delta index (input_json_delta partial_json) => Some (index, partial_json)
  | _ => None
  end.

(** The argument fragments of a chunk with the upstream index of their
    tool call ([toolCall.index ?? 0]). *)
Definition chunk_fragments (c : OpenAIChunk) : list (nat * string) :=
  match choices c with
  | [] => []
  | choice :: _ =>
      let d := delta choice in
      if truthy (content d) || truthy (reasoning_content d) then []
      else flat_map (fun toolCall =>
                       if truthy (tc_function toolCall ≫= fn_arguments)
                       then [(default 0 (tc_index toolCall),
                              or_else (tc_function toolCall ≫= fn_arguments) "")]
                       else [])
                    (tool_calls d)
  end.

(** A [message_delta] with a stop reason of the Anthropic protocol, a null
    [stop_sequence] and zero [input_tokens]; any other event passes. *)
Definition well_formed_message_delta (e : event) : bool :=
  match e with
  | message_delta stop_reason stop_sequence input_tokens _ =>
      existsb (String.eqb stop_reason) ["end_turn"; "max_tokens"; "tool_use"; "refusal"]
      && match stop_sequence with None => true | Some _ => false end
      && (input_tokens =? 0)%Z
  | _ => true
  end.

(** The names [mapping[openaiReason]] finds on [Object.prototype] and not
    among the own keys of the table of [_mapStopReason]. *)
Definition inherited (name : string) : bool :=
  existsb (String.eqb name)
    ["constructor"; "__proto__"; "hasOwnProperty"; "isPrototypeOf";
     "propertyIsEnumerable"; "toLocaleString"; "toString"; "valueOf";
     "__defineGetter__"; "__defineSetter__"; "__lookupGetter__"; "__lookupSetter__"].

(** A finish reason whose lookup the table of own keys answers. *)
Definition own_finish_reason (openaiReason : option string) : bool :=
  match openaiReason with
  | Some name => negb (inherited name)
  | None => true
  end.

(** The finish reason of the first choice of the chunk, if any, is such. *)
Definition plain_finish (c : OpenAIChunk) : bool :=
  match choices c with
  | choice :: _ => own_finish_reason (finish_reason choice)
  | [] => true
  end.

(** The stop reasons as the specification tables them: [stop] gives
    [end_turn], [length] gives [max_tokens], [tool_calls] and
    [function_call] give [tool_use], [content_filter] gives [refusal], and
    anything else [end_turn]. *)
Definition mapped_stop_reason (openaiReason : option string) : string :=
  match openaiReason with
  | Some reason =>
      if String.eqb reason "stop" then "end_turn"
      else if String.eqb reason "length" then "max_tokens"
      else if String.eqb reason "tool_calls" || String.eqb reason "function_call"
           then "tool_use"
      else if String.eqb reason "content_filter" then "refusal"
      else "end_turn"
  | None => "end_turn"
  end.




(** A statement leaves a component of the state as it was. *)
Definition keeps {A : Type} (proj : StreamState -> A) (f : Step) : Prop :=
  forall s, proj (f s).2 = proj s.

(** A statement does not look at [messageStarted]. *)
Definition blind (f : Step) : Prop :=
  forall b s, f (set_messageStarted b s) = ((f s).1, set_messageStarted b (f s).2).

(** A statement never lowers [contentBlockIndex]. *)
Definition grows (f : Step) : Prop :=
  forall s, contentBlockIndex s <= contentBlockIndex (f s).2.

(** [p] reads nothing off the event. *)
Definition silent {B : Type} (p : event -> option B) (e : event) : bool :=
  match p e with
  | None => true
  | Some _ => false
  end.

(** Whatever the state, the events of the statement read through [p] as
    the list [l]. *)
Definition yields {B : Type} (p : event -> option B) (f : Step) (l : list B) : Prop :=
  forall s, omap p (f s).1 = l.

End Payload.

(** ** Separators in the byte stream *)

Module Reframe.
Import Js.

(** [s.includes(sep)] *)
Fixpoint occurs (sep s : string) : bool :=
  match s with
  | EmptyString => startsWith sep s
  | String _ s' => startsWith sep s || occurs sep s'
  end.

(** No occurrence of [sep] in [cur +:+ rest] starts inside [cur]. *)
Fixpoint clean (sep cur rest : string) : Prop :=
  match cur with
  | EmptyString => True
  | String _ cur' => startsWith sep (cur +:+ rest) = false /\ clean sep cur' rest
  end.

(** A line [convertStreamChunk] passes over: not a [data: ] line, or a
    data line other than [[DONE]] whose payload does not parse. *)
Definition ignored (JSON_parse : string -> Converter.ParseResult) (line : string) : bool :=
  if startsWith "data: " line then
    negb (String.eqb (substring_from 6 line) "[DONE]")
    && match JSON_parse (substring_from 6 line) with
       | Converter.syntax_error => true
       | _ => false
       end
  else true.

(** A chunk of one line that carries [c]: a [data: ] line without a line
    break whose payload is not [[DONE]] and parses to [c]. *)
Definition carries (JSON_parse : string -> Converter.ParseResult) (line : string)
    (c : Stream.OpenAIChunk) : Prop :=
  startsWith "data: " line = true
  /\ occurs "
" line = false
  /\ String.eqb (substring_from 6 line) "[DONE]" = false
  /\ JSON_parse (substring_from 6 line) = Converter.parsed c.

End Reframe.

(** ** Content blocks by type, and a tool call echoed back *)

Module Blocks.

(** The tool call object [_convertMessageContent] builds
    ([{type:'function', id, function:{name, arguments}}]), read as an entry
    of [message.tool_calls] of a response. *)
Definition echoed (call : Request.OpenAIToolCall) : Response.ToolCall :=
  {| Response.type := "function";
     Response.id := Some (Request.call_id call);
     Response.function := {| Response.name := Request.call_name call;
                             Response.arguments := Request.call_arguments call |} |}.

(** [contentBlock.type === 'tool_use'] *)
Definition is_tool_use (contentBlock : Request.ContentBlock) : bool :=
  match contentBlock with
  | Request.tool_use _ _ _ => true
  | _ => false
  end.

(** [contentBlock.type === 'text'] *)
Definition is_text (contentBlock : Request.ContentBlock) : bool :=
  match contentBlock with
  | Request.text _ => true
  | _ => false
  end.

(** The tool message a [tool_result] block becomes. *)
Definition tool_message (contentBlock : Request.ContentBlock)
    : option Request.OpenAIMessage :=
  match contentBlock with
  | Request.tool_result tool_use_id c =>
      Some {| Request.o_role := "tool";
              Request.o_content :=
                match c with
                | Request.result_string s => Request.openai_string s
                | Request.result_array parts =>
                    Request.openai_parts
                      (omap (fun part => match part with
                                         | Request.result_text t => Some (Request.part_text t)
                                         | Request.result_other => None
                                         end) parts)
                | Request.result_none => Request.openai_string ""
                end;
              Request.o_tool_calls := None;
              Request.o_tool_call_id := Some tool_use_id |}
  | _ => None
  end.

(** The part a [text] block becomes. *)
Definition text_part (contentBlock : Request.ContentBlock) : option Request.Part :=
  match contentBlock with
  | Request.text t => Some (Request.part_text t)
  | _ => None
  end.

(** The tool call a [tool_use] block becomes. *)
Definition tool_call (JSON_stringify : Js.json -> string)
    (contentBlock : Request.ContentBlock) : option Request.OpenAIToolCall :=
  match contentBlock with
  | Request.tool_use id name input =>
      Some {| Request.call_id := id; Request.call_name := name;
              Request.call_arguments := JSON_stringify input |}
  | _ => None
  end.

(** The [tool_use] block of a response that answers a [tool_use] block of
    a request with the same id, name and input. *)
Definition same_tool_use (contentBlock : Request.ContentBlock)
    : option Response.ContentBlock :=
  match contentBlock with
  | Request.tool_use id name input =>
      Some (Response.tool_use (Some id) name (Response.input_parsed input))
  | _ => None
  end.

(** The finish reason of the first choice of the response, if any, is
    answered by the own keys of the table of [_mapStopReason]. *)
Definition plain_reply (openaiResponse : Response.OpenAIResponse) : bool :=
  match Response.choices openaiResponse ≫= head with
  | Some choice => Payload.own_finish_reason (Response.finish_reason choice)
  | None => true
  end.

(** [JSON.parse] reads back what [JSON.stringify] wrote for the input of
    the block. *)
Definition input_round_trips (JSON_stringify : Js.json -> string)
    (JSON_parse : string -> option Js.json) (contentBlock : Request.ContentBlock) : Prop :=
  match contentBlock with
  | Request.tool_use _ _ input => JSON_parse (JSON_stringify input) = Some input
  | _ => True
  end.

(** The text of a system part, [''] for a part of another type. *)
Definition system_part_text (part : Request.SystemPart) : string :=
  match part with
  | Request.system_text t => t
  | Request.system_other => ""
  end.

End Blocks.

(** ** [convertResponse] on a response whose objects may be missing *)

Module Wire.
Import Js.

(** An entry of [message.tool_calls]; [function] may be missing. *)
Record ToolCall := {
  type : string;
  id : option string;
  function : option Response.FunctionCall
}.

(** An entry of [tool_calls] may be [null]. *)
Record Message := {
  content : option string;
  reasoning_content : option string;
  tool_calls : list (option ToolCall)
}.

Record Choice := {
  message : option Message;
  finish_reason : option string
}.

(** An entry of [choices] may be [null]. *)
Record OpenAIResponse := {
  r_id : option string;
  r_model : option string;
  choices : option (list (option Choice));
  usage : option Stream.Usage
}.

(** The error [convertResponse] throws itself, and the [TypeError] of
    reading a property of [undefined] or [null]. *)
Inductive Error :=
  | InvalidUpstreamResponse
  | TypeError.

Section Convert.
Variable JSON_parse : string -> option json.

(** One iteration of [for (const toolCall of message.tool_calls)]:
    [toolCall.type] throws on a [null] entry, and
    [toolCall.function.arguments] throws when a function entry has no
    [function]. *)
Definition convert_tool_call (toolCall : option ToolCall)
    : Error + list Response.ContentBlock :=
  match toolCall with
  | None => inl TypeError
  | Some toolCall =>
      if String.eqb (type toolCall) "function" then
        match function toolCall with
        | None => inl TypeError
        | Some f =>
            inr [Response.tool_use_of JSON_parse
                   {| Response.type := type toolCall; Response.id := id toolCall;
                      Response.function := f |}]
        end
      else inr []
  end.

(** The loop, which stops at the first exception. *)
Fixpoint convert_tool_calls (toolCalls : list (option ToolCall))
    : Error + list Response.ContentBlock :=
  match toolCalls with
  | [] => inr []
  | toolCall :: rest =>
      match convert_tool_call toolCall with
      | inl e => inl e
      | inr blocks =>
          match convert_tool_calls rest with
          | inl e => inl e
          | inr more => inr (blocks ++ more)
          end
      end
  end.

(** [convertResponse]: [openaiResponse.choices?.[0]], the test [!choice],
    then [message.content] read off [choice.message]. *)
Definition convertResponse (openaiResponse : OpenAIResponse)
    : Error + Response.AnthropicResponse :=
  match choices openaiResponse ≫= head with
  | None | Some None => inl InvalidUpstreamResponse
  | Some (Some choice) =>
      match message choice with
      | None => inl TypeError
      | Some message =>
          match convert_tool_calls (tool_calls message) with
          | inl e => inl e
          | inr blocks =>
              inr {| Response.a_id :=
                       if truthy (r_id openaiResponse)
                       then Stream.GivenId (or_else (r_id openaiResponse) "")
                       else Stream.GeneratedId;
                     Response.a_type := "message";
                     Response.a_role := "assistant";
                     Response.a_content :=
                       match content message with
                       | Some c => [Response.text c None]
                       | None => []
                       end ++
                       (if truthy (reasoning_content message)
                        then [Response.thinking
                                (or_else (reasoning_content message) "") ""]
                        else []) ++
                       blocks;
                     Response.a_model := r_model openaiResponse;
                     Response.stop_reason := Stream._mapStopReason (finish_reason choice);
                     Response.stop_sequence := None;
                     Response.a_usage :=
                       {| Response.cache_creation := None;
                          Response.cache_creation_input_tokens := None;
                          Response.cache_read_input_tokens := None;
                          Response.input_tokens :=
                            default 0%Z (Stream.prompt_tokens <$> usage openaiResponse);
                          Response.output_tokens :=
                            default 0%Z (Stream.completion_tokens <$> usage openaiResponse);
                          Response.server_tool_use := None;
                          Response.service_tier := "standard" |} |}
          end
      end
  end.

End Convert.

(** An entry of [tool_calls] the loop reads without an exception: an
    object that is not of type [function], or has its [function]. *)
Definition readable (toolCall : option ToolCall) : bool :=
  match toolCall with
  | None => false
  | Some toolCall =>
      negb (String.eqb (type toolCall) "function")
      || match function toolCall with Some _ => true | None => false end
  end.

(** The entries of type [function] that have their [function], as
    [Response] types them. *)
Definition function_call (toolCall : option ToolCall) : option Response.ToolCall :=
  match toolCall with
  | Some toolCall =>
      if String.eqb (type toolCall) "function" then
        match function toolCall with
        | Some f => Some {| Response.type := type toolCall; Response.id := id toolCall;
                            Response.function := f |}
        | None => None
        end
      else None
  | None => None
  end.

(** A response that [Response] types, as it is on the wire. *)
Definition of_tool_call (toolCall : Response.ToolCall) : option ToolCall :=
  Some {| type := Response.type toolCall; id := Response.id toolCall;
          function := Some (Response.function toolCall) |}.

Definition of_choice (choice : Response.Choice) : option Choice :=
  Some {| message :=
            Some {| content := Response.content (Response.message choice);
                    reasoning_content :=
                      Response.reasoning_content (Response.message choice);
                    tool_calls :=
                      map of_tool_call (Response.tool_calls (Response.message choice)) |};
          finish_reason := Response.finish_reason choice |}.

Definition of_response (openaiResponse : Response.OpenAIResponse) : OpenAIResponse :=
  {| r_id := Response.r_id openaiResponse;
     r_model := Response.r_model openaiResponse;
     choices := map of_choice <$> Response.choices openaiResponse;
     usage := Response.usage openaiResponse |}.

(** A response with the given choices and nothing else. *)
Definition response_of (choices : option (list (option Choice))) : OpenAIResponse :=
  {| r_id := Some "r1"; r_model := Some "m"; choices := choices; usage := None |}.

(** A message with text and one entry of [tool_calls], and a choice that
    carries it. *)
Definition message_with (toolCall : option ToolCall) : Message :=
  {| content := Some "hi"; reasoning_content := None; tool_calls := [toolCall] |}.

Definition choice_with (toolCall : option ToolCall) : Choice :=
  {| message := Some (message_with toolCall); finish_reason := Some "stop" |}.

(** A choice without [message]. *)
Definition choice_without_message : Choice :=
  {| message := None; finish_reason := Some "stop" |}.

(** An entry of the given type without [function]. *)
Definition call_without_function (type : string) : option ToolCall :=
  Some {| type := type; id := Some "c1"; function := None |}.

End Wire.

(** ** The ['data'] listener on the chunks of the upstream stream *)

Module Upstream.
Import Js Stream Converter.

Section Listener.
(** [chunk.toString()]: the UTF-8 decoding of one [Buffer]. *)
Variable toString : list Byte.byte -> string.
Variable JSON_parse : string -> ParseResult.
Variable sessionId : string.

(** [openaiStream.on('data', (chunk) => { buffer += chunk.toString(); ... })] *)
Definition on_data (h : Dispatch.Handler) (chunk : list Byte.byte) : Dispatch.Handler :=
  Dispatch.on_data JSON_parse sessionId h (toString chunk).

(** A request whose upstream delivers the buffers [chunks] and then ends. *)
Definition stream_request (table : gmap string StreamState)
    (chunks : list (list Byte.byte)) : Dispatch.Handler :=
  Dispatch.on_end
    (foldl on_data
       {| Dispatch.buffer := ""; Dispatch.res := []; Dispatch._streamStates := table |}
       chunks).

(** Decoding the chunks one by one reads the text that decoding their
    concatenation reads: no chunk ends inside a character. *)
Definition cut_at_characters (chunks : list (list Byte.byte)) : Prop :=
  String.concat "" (map toString chunks) = toString (concat chunks).

End Listener.
End Upstream.

(** * Scenarios of the specification, run on the embedding *)

Section Scenarios.
Import Js Stream Sample.

(** Scenario 4: role, two text deltas, finish with usage. *)
Example scenario_text :
  (run_session (Some "s") text_session initial_state).1
  = [message_start (GivenId "s") (Some "m");
     content_block_start 0 TextBlock;
     content_block_delta 0 (text_delta "he");
     content_block_delta 0 (text_delta "llo");
     content_block_stop 0;
     message_delta "end_turn" None 0 3].
Proof. reflexivity. Qed.

(** Scenario 5: thinking, then text. *)
Example scenario_thinking_then_text :
  (run_session (Some "s")
     [chunk_of role_delta None None;
      chunk_of (reasoning_of "pondering") None None;
      chunk_of (text_of "answer") None None;
      chunk_of empty_delta (Some "stop") None]
     initial_state).1
  = [message_start (GivenId "s") (Some "m");
     content_block_start 0 ThinkingBlock;
     content_block_delta 0 (thinking_delta "pondering");
     content_block_delta 0 (signature_delta "");
     content_block_stop 0;
     content_block_start 1 TextBlock;
     content_block_delta 1 (text_delta "answer");
     content_block_stop 1;
     message_delta "end_turn" None 0 0].
Proof. reflexivity. Qed.

(** Scenario 6: two parallel tool calls, argument fragments interleaved. *)
Example scenario_parallel_tools :
  (run_session (Some "s")
     [chunk_of role_delta None None;
      chunk_of (calls_of [call 0 (Some "a") None; call 1 (Some "b") None]) None None;
      chunk_of (calls_of [call 0 None (Some "{"); call 1 None (Some "{")]) None None;
      chunk_of (calls_of [call 0 None (Some "}"); call 1 None (Some "}")]) None None;
      chunk_of empty_delta (Some "tool_calls") None]
     initial_state).1
  = [message_start (GivenId "s") (Some "m");
     content_block_start 0 (ToolUseBlock "a" "f");
     content_block_start 1 (ToolUseBlock "b" "f");
     content_block_delta 0 (input_json_delta "{");
     content_block_delta 1 (input_json_delta "{");
     content_block_delta 0 (input_json_delta "}");
     content_block_delta 1 (input_json_delta "}");
     content_block_stop 0;
     content_block_stop 1;
     message_delta "tool_use" None 0 0].
Proof. reflexivity. Qed.

(** [split] cuts at each separator, leftmost first. *)
Example split_frames :
  split "

" "a

b


c" = ["a"; "b"; "
c"].
Proof. reflexivity. Qed.

(** A whole request: three frames in two network chunks, then ['end']. The
    table entry of the session is gone after [data: [DONE]]. *)
Example scenario_request :
  Dispatch.res
    (Dispatch.stream_request parse_demo "s" ∅
       ["data: role

data: te"; "xt

data: [DONE]

"])
  = [message_start (GivenId "s") (Some "m");
     content_block_start 0 TextBlock;
     content_block_delta 0 (text_delta "hi");
     message_stop;
     message_stop]
  /\ Dispatch._streamStates
       (Dispatch.stream_request parse_demo "s" ∅
          ["data: role

data: te"; "xt

data: [DONE]

"]) !! "s" = None.
Proof. split; [reflexivity|]. by vm_compute. Qed.

End Scenarios.

(** * Properties of the streaming translator *)

Section StepFacts.
Import Js Stream Trace.

Lemma count_app {A : Type} (p : A -> bool) (l1 l2 : list A) :
  count p (l1 ++ l2) = count p l1 + count p l2.
Proof. unfold count. by rewrite List.filter_app, length_app. Qed.

Lemma count_cons {A : Type} (p : A -> bool) (x : A) (l : list A) :
  count p (x :: l) = (if p x then 1 else 0) + count p l.
Proof. unfold count. simpl. by destruct (p x). Qed.

Lemma count_none {A : Type} (p : A -> bool) (l : list A) :
  (forall x, In x l -> p x = false) -> count p l = 0.
Proof.
  induction l as [|x l IH]; intros H; [done|].
  rewrite count_cons, (H x (or_introl eq_refl)), IH; [done|].
  intros y Hy. apply H. by right.
Qed.

Lemma for_each_stop (keys : list nat) (s : StreamState) :
  for_each keys (fun index => emit (content_block_stop index)) s
  = (map content_block_stop keys, s).
Proof.
  induction keys as [|k keys IH]; [done|].
  simpl. unfold seq. generalize (content_block_stop k); intros e.
  change (emit e s) with ([e], s). cbv iota beta. by rewrite IH.
Qed.

Lemma stops_of_stops (i : nat) (keys : list nat) :
  stops i (map content_block_stop keys) = count (fun k => k =? i) keys.
Proof.
  induction keys as [|k keys IH]; [done|].
  unfold stops in *. simpl map. by rewrite !count_cons, IH.
Qed.

Lemma starts_of_stops (i : nat) (keys : list nat) :
  starts i (map content_block_stop keys) = 0.
Proof.
  apply count_none. intros e He. apply in_map_iff in He as (k & <- & _). done.
Qed.

Lemma Map_keys_set {V : Type} (k : nat) (v : V) (m : list (nat * V)) :
  Map_keys (Map_set k v m) = if Map_has k m then Map_keys m else Map_keys m ++ [k].
Proof.
  induction m as [|[k' v'] m IH]; [done|].
  simpl. destruct (Nat.eqb_spec k' k) as [->|Hne]; simpl; [done|].
  rewrite IH. by destruct (Map_has k m).
Qed.

Lemma Map_has_count {V : Type} (k : nat) (m : list (nat * V)) :
  Map_has k m = false -> count (fun j => j =? k) (Map_keys m) = 0.
Proof.
  intros H. apply count_none. intros j Hj.
  apply in_map_iff in Hj as ([j' v] & <- & Hin). simpl.
  destruct (Nat.eqb_spec j' k) as [->|]; [|done].
  unfold Map_has in H. rewrite <- not_true_iff_false in H. destruct H.
  apply existsb_exists. exists (k, v). split; [done|]. simpl. apply Nat.eqb_refl.
Qed.


Lemma balanced_app_quiet (evs e : list event) :
  balanced_at_message_delta evs ->
  existsb is_message_delta e = false ->
  balanced_at_message_delta (evs ++ e).
Proof.
  intros Hb Hq pre post sr sq it ot Heq.
  assert (Hmd : ~ In (message_delta sr sq it ot) e).
  { intros Hin. rewrite <- not_true_iff_false in Hq. destruct Hq.
    apply existsb_exists. by eexists. }
  apply app_eq_app in Heq as [l [[-> Hl]|[-> Hl]]].
  - destruct l as [|x l].
    + destruct Hmd. simpl in Hl. rewrite <- Hl. by left.
    + injection Hl as <- _. by eapply Hb.
  - destruct Hmd. rewrite Hl. apply in_elt.
Qed.

Lemma balanced_app_delta (evs : list event) sr sq it ot :
  balanced_at_message_delta evs ->
  (forall i, starts i evs = stops i evs) ->
  balanced_at_message_delta (evs ++ [message_delta sr sq it ot]).
Proof.
  intros Hb Heq pre post sr' sq' it' ot' Hsplit.
  apply app_eq_app in Hsplit as [l [[-> Hl]|[-> Hl]]].
  - destruct l as [|x l].
    + simpl in Hl. injection Hl as _ _ _ _ _. by rewrite app_nil_r in Heq.
    + injection Hl as <- _. by eapply Hb.
  - destruct l as [|x l]; [by rewrite app_nil_r|].
    injection Hl as _ Hl. by destruct l.
Qed.

Lemma count_nil {A : Type} (p : A -> bool) : count p [] = 0.
Proof. done. Qed.

Lemma balanced_app_closes (evs e : list event) sr sq it ot :
  balanced_at_message_delta evs ->
  existsb is_message_delta e = false ->
  (forall i, starts i (evs ++ e) = stops i (evs ++ e)) ->
  balanced_at_message_delta (evs ++ e ++ [message_delta sr sq it ot]).
Proof.
  intros Hb Hq Heq. rewrite app_assoc.
  apply balanced_app_delta; [|done]. by apply balanced_app_quiet.
Qed.

Lemma quiet_stops (keys : list nat) :
  existsb is_message_delta (map content_block_stop keys) = false.
Proof. by induction keys. Qed.

Lemma stop_tool_blocks_eq (advance : bool) (s : StreamState) :
  stop_tool_blocks advance s =
  if 0 <? Map_size (toolBlocks s)
  then (map content_block_stop (Map_keys (toolBlocks s)),
        if advance
        then set_contentBlockIndex (contentBlockIndex s + 1) (set_toolBlocks Map_clear s)
        else set_toolBlocks Map_clear s)
  else ([], s).
Proof.
  unfold stop_tool_blocks, when_. destruct (0 <? Map_size (toolBlocks s)); [|done].
  unfold seq at 1. unfold read at 1. rewrite for_each_stop.
  destruct advance; simpl; by rewrite app_nil_r.
Qed.

Ltac run_step :=
  repeat (cbv beta iota delta
            [on_content on_reasoning on_finish stop_thinking_block stop_text_block
             seq when_ read update emit skip negb andb fst snd
             messageStarted textBlockStarted thinkingBlockStarted toolBlocks
             contentBlockIndex inputTokens outputTokens
             set_messageStarted set_textBlockStarted set_thinkingBlockStarted
             set_toolBlocks set_contentBlockIndex set_inputTokens set_outputTokens];
          rewrite ?stop_tool_blocks_eq);
  simpl.

Ltac by_cases_on_index :=
  repeat match goal with
         | |- context [Nat.eqb ?a ?b] => destruct (Nat.eqb_spec a b)
         | H : context [Nat.eqb ?a ?b] |- _ => destruct (Nat.eqb_spec a b)
         end; simpl in *; try lia.

Ltac solve_balance H :=
  let i := fresh "i" in
  intros i; specialize (H i); unfold starts, stops, open_at in *; simpl in *;
  repeat (rewrite ?count_app, ?count_cons, ?count_nil in *; simpl in * );
  change (count (is_stop i)) with (stops i) in *;
  change (count (is_start i)) with (starts i) in *;
  rewrite ?stops_of_stops, ?starts_of_stops in *;
  by_cases_on_index.

Ltac solve_exclusive :=
  split; simpl; intros; try split; (reflexivity || congruence).

Ltac solve_quiet :=
  repeat (rewrite ?existsb_app, ?quiet_stops; simpl); done.

Lemma on_content_wf (t : string) (evs : list event) (s : StreamState) :
  well_formed evs s ->
  well_formed (evs ++ (on_content t s).1) (on_content t s).2
  /\ messageStarted (on_content t s).2 = messageStarted s.
Proof.
  destruct s as [ms ts th tb cbi it ot]. intros (Hbal & (Hx1 & Hx2) & Hmd). simpl in *.
  destruct ts, th; try (by destruct Hx1); try (destruct Hx1 as [_ ->]; [done|]);
   try (rewrite Hx2 in * by done); try destruct tb as [|[k v] tb]; run_step.
  all: split; [|done]; split; [|split].
  all: try (apply balanced_app_quiet; [done|solve_quiet]).
  all: try (split; simpl; intros; done).
  all: try solve_balance Hbal.
Qed.

Lemma on_reasoning_wf (t : string) (evs : list event) (s : StreamState) :
  well_formed evs s ->
  well_formed (evs ++ (on_reasoning t s).1) (on_reasoning t s).2
  /\ messageStarted (on_reasoning t s).2 = messageStarted s.
Proof.
  destruct s as [ms ts th tb cbi it ot]. intros (Hbal & (Hx1 & Hx2) & Hmd). simpl in *.
  destruct ts, th; try (by destruct Hx1); try (destruct Hx1 as [_ ->]; [done|]);
   try (rewrite Hx2 in * by done); try destruct tb as [|[k v] tb]; run_step.
  all: split; [|done]; split; [|split].
  all: try (apply balanced_app_quiet; [done|solve_quiet]).
  all: try solve_exclusive.
  all: try solve_balance Hbal.
Qed.

Lemma on_tool_call_wf (toolCall : ToolCallDelta) (evs : list event) (s : StreamState) :
  textBlockStarted s = false -> thinkingBlockStarted s = false ->
  well_formed evs s ->
  well_formed (evs ++ (on_tool_call toolCall s).1) (on_tool_call toolCall s).2
  /\ textBlockStarted (on_tool_call toolCall s).2 = false
  /\ thinkingBlockStarted (on_tool_call toolCall s).2 = false
  /\ messageStarted (on_tool_call toolCall s).2 = messageStarted s.
Proof.
  destruct s as [ms ts th tb cbi it ot]. simpl. intros -> -> (Hbal & _ & Hmd).
  unfold on_tool_call.
  destruct (truthy (tc_id toolCall)), (truthy (tc_function toolCall ≫= fn_arguments));
    destruct (Map_has (default 0 (tc_index toolCall)) tb) eqn:Hhas; run_step; rewrite ?Hhas.
  all: split; [|done]; split; [|split].
  all: try (apply balanced_app_quiet; [done|solve_quiet]).
  all: try solve_exclusive.
  all: intros i; specialize (Hbal i); unfold starts, stops, open_at in *; simpl in *;
    rewrite ?Map_keys_set, ?Hhas;
    repeat (rewrite ?count_app, ?count_cons, ?count_nil in *; simpl in * );
    by_cases_on_index.
Qed.

Lemma tool_calls_loop_wf (calls : list ToolCallDelta) (evs : list event) (s : StreamState) :
  textBlockStarted s = false -> thinkingBlockStarted s = false ->
  well_formed evs s ->
  well_formed (evs ++ (for_each calls on_tool_call s).1) (for_each calls on_tool_call s).2
  /\ messageStarted (for_each calls on_tool_call s).2 = messageStarted s.
Proof.
  revert evs s. induction calls as [|toolCall calls IH]; intros evs s Hts Hth Hwf.
  - simpl. by rewrite app_nil_r.
  - simpl. unfold seq.
    destruct (on_tool_call_wf toolCall evs s Hts Hth Hwf) as (Hwf1 & Hts1 & Hth1 & Hms1).
    destruct (on_tool_call toolCall s) as [e1 s1]. simpl in *.
    destruct (IH (evs ++ e1) s1 Hts1 Hth1 Hwf1) as (Hwf2 & Hms2).
    destruct (for_each calls on_tool_call s1) as [e2 s2]. simpl in *.
    rewrite app_assoc. split; [done|congruence].
Qed.

Lemma stop_text_block_wf (evs : list event) (s : StreamState) :
  well_formed evs s ->
  well_formed (evs ++ (stop_text_block true s).1) (stop_text_block true s).2
  /\ textBlockStarted (stop_text_block true s).2 = false
  /\ thinkingBlockStarted (stop_text_block true s).2 = thinkingBlockStarted s
  /\ messageStarted (stop_text_block true s).2 = messageStarted s.
Proof.
  destruct s as [ms ts th tb cbi it ot]. intros (Hbal & (Hx1 & Hx2) & Hmd). simpl in *.
  destruct ts; run_step.
  - destruct Hx1 as [-> ->]; [done|].
    split; [|done]. split; [|split].
    + solve_balance Hbal.
    + solve_exclusive.
    + apply balanced_app_quiet; [done|solve_quiet].
  - rewrite app_nil_r. done.
Qed.

Lemma stop_thinking_block_wf (evs : list event) (s : StreamState) :
  well_formed evs s -> textBlockStarted s = false ->
  well_formed (evs ++ (stop_thinking_block true s).1) (stop_thinking_block true s).2
  /\ textBlockStarted (stop_thinking_block true s).2 = false
  /\ thinkingBlockStarted (stop_thinking_block true s).2 = false
  /\ messageStarted (stop_thinking_block true s).2 = messageStarted s.
Proof.
  destruct s as [ms ts th tb cbi it ot]. intros (Hbal & (Hx1 & Hx2) & Hmd) Hts.
  simpl in *. subst ts. destruct th; run_step.
  - rewrite Hx2 in * by done.
    split; [|done]. split; [|split].
    + solve_balance Hbal.
    + solve_exclusive.
    + apply balanced_app_quiet; [done|solve_quiet].
  - rewrite app_nil_r. done.
Qed.

Lemma on_tool_calls_wf (calls : list ToolCallDelta) (evs : list event) (s : StreamState) :
  well_formed evs s ->
  well_formed (evs ++ (on_tool_calls calls s).1) (on_tool_calls calls s).2
  /\ messageStarted (on_tool_calls calls s).2 = messageStarted s.
Proof.
  intros Hwf. unfold on_tool_calls, seq.
  destruct (stop_text_block_wf evs s Hwf) as (Hwf1 & Hts1 & Hth1 & Hms1).
  destruct (stop_text_block true s) as [e1 s1]. simpl in *.
  destruct (stop_thinking_block_wf (evs ++ e1) s1 Hwf1 Hts1) as (Hwf2 & Hts2 & Hth2 & Hms2).
  destruct (stop_thinking_block true s1) as [e2 s2]. simpl in *.
  destruct (tool_calls_loop_wf calls ((evs ++ e1) ++ e2) s2 Hts2 Hth2 Hwf2) as (Hwf3 & Hms3).
  destruct (for_each calls on_tool_call s2) as [e3 s3]. simpl in *.
  rewrite !app_assoc. split; [done|congruence].
Qed.

Lemma on_delta_wf (d : Delta) (evs : list event) (s : StreamState) :
  well_formed evs s ->
  well_formed (evs ++ (on_delta d s).1) (on_delta d s).2
  /\ messageStarted (on_delta d s).2 = messageStarted s.
Proof.
  intros Hwf. unfold on_delta.
  destruct (truthy (content d)); [by apply on_content_wf|].
  destruct (truthy (reasoning_content d)); [by apply on_reasoning_wf|].
  destruct (tool_calls d) as [|toolCall calls]; [|by apply on_tool_calls_wf].
  simpl. by rewrite app_nil_r.
Qed.

Lemma on_finish_wf (reason : option string) (evs : list event) (s : StreamState) :
  well_formed evs s ->
  well_formed (evs ++ (on_finish reason s).1) (on_finish reason s).2
  /\ messageStarted (on_finish reason s).2 = messageStarted s.
Proof.
  destruct s as [ms ts th tb cbi it ot]. intros (Hbal & (Hx1 & Hx2) & Hmd). simpl in *.
  unfold on_finish, when_. destruct (truthy reason); [|by rewrite app_nil_r].
  destruct ts, th; try (by destruct Hx1); try (destruct Hx1 as [_ ->]; [done|]);
   try (rewrite Hx2 in * by done); try destruct tb as [|[k v] tb]; run_step.
  all: split; [|done]; split; [|split]; try solve_exclusive; try solve_balance Hbal.
  all: match goal with
       | |- balanced_at_message_delta (_ ++ [?md]) =>
           apply (balanced_app_closes evs [])
       | |- balanced_at_message_delta (_ ++ [?a; ?md]) =>
           apply (balanced_app_closes evs [a])
       | |- balanced_at_message_delta (_ ++ [?a; ?b; ?md]) =>
           apply (balanced_app_closes evs [a; b])
       | |- balanced_at_message_delta (_ ++ ?a :: map content_block_stop ?l ++ [?md]) =>
           apply (balanced_app_closes evs (a :: map content_block_stop l))
       end; [done|solve_quiet|solve_balance Hbal].
Qed.

Lemma start_message_wf (sessionId : option string) (c : OpenAIChunk) (d : Delta)
    (evs : list event) (s : StreamState) :
  well_formed evs s -> messageStarted s = true \/ no_open s ->
  well_formed (evs ++ (start_message sessionId c d s).1) (start_message sessionId c d s).2
  /\ (messageStarted (start_message sessionId c d s).2 = true
      \/ no_open (start_message sessionId c d s).2)
  /\ (messageStarted s = true \/ truthy (role d) = true ->
      messageStarted (start_message sessionId c d s).2 = true)
  /\ (messageStarted (start_message sessionId c d s).2 = false ->
      (start_message sessionId c d s).2 = s).
Proof.
  destruct s as [ms ts th tb cbi it ot]. intros (Hbal & Hx & Hmd) Hopen.
  unfold start_message, when_. simpl.
  destruct (truthy (role d)), ms; simpl; rewrite ?app_nil_r.
  - split; [done|]. split; [by left|]. split; [done|]. done.
  - destruct Hopen as [|(Hts & Hth & Htb)]; [done|]. simpl in *. subst.
    run_step. split; [|split; [by left|split; done]].
    split; [|split].
    + solve_balance Hbal.
    + solve_exclusive.
    + apply balanced_app_quiet; [done|solve_quiet].
  - split; [done|]. split; [by left|]. split; [done|]. done.
  - split; [done|]. split; [done|]. split; [|done]. by intros [|].
Qed.

Lemma record_usage_blocks (u : option Usage) (s : StreamState) :
  (record_usage u s).1 = []
  /\ messageStarted (record_usage u s).2 = messageStarted s
  /\ textBlockStarted (record_usage u s).2 = textBlockStarted s
  /\ thinkingBlockStarted (record_usage u s).2 = thinkingBlockStarted s
  /\ toolBlocks (record_usage u s).2 = toolBlocks s
  /\ contentBlockIndex (record_usage u s).2 = contentBlockIndex s.
Proof.
  destruct u as [u|]; [|done]. unfold record_usage, seq, when_.
  destruct (truthy_num (prompt_tokens u)), (truthy_num (completion_tokens u)); done.
Qed.

Lemma well_formed_same_blocks (evs : list event) (s s' : StreamState) :
  textBlockStarted s' = textBlockStarted s ->
  thinkingBlockStarted s' = thinkingBlockStarted s ->
  toolBlocks s' = toolBlocks s ->
  contentBlockIndex s' = contentBlockIndex s ->
  well_formed evs s -> well_formed evs s'.
Proof.
  intros Hts Hth Htb Hcbi (Hbal & Hx & Hmd). split; [|split; [|done]].
  - intros i. specialize (Hbal i). unfold open_at in *. by rewrite Hts, Hth, Htb, Hcbi.
  - unfold exclusive in *. by rewrite Hts, Hth, Htb.
Qed.

Lemma on_tool_call_no_id (toolCall : ToolCallDelta) (s : StreamState) :
  truthy (tc_id toolCall) = false -> (on_tool_call toolCall s).2 = s.
Proof.
  intros Hid. unfold on_tool_call, seq, when_. rewrite Hid.
  by destruct (truthy (tc_function toolCall ≫= fn_arguments)).
Qed.

Lemma tool_calls_loop_no_id (calls : list ToolCallDelta) (s : StreamState) :
  existsb (fun toolCall => truthy (tc_id toolCall)) calls = false ->
  (for_each calls on_tool_call s).2 = s.
Proof.
  induction calls as [|toolCall calls IH]; [done|].
  simpl. intros [Hid Hrest]%orb_false_iff. unfold seq.
  pose proof (on_tool_call_no_id toolCall s Hid) as H1.
  destruct (on_tool_call toolCall s) as [e1 s1]. simpl in H1. subst s1.
  specialize (IH Hrest). by destruct (for_each calls on_tool_call s).
Qed.

Lemma on_delta_quiet (d : Delta) (s : StreamState) :
  no_open s ->
  truthy (content d) || truthy (reasoning_content d)
  || existsb (fun toolCall => truthy (tc_id toolCall)) (tool_calls d) = false ->
  (on_delta d s).2 = s.
Proof.
  intros (Hts & Hth & Htb) [[Hc Hr]%orb_false_iff Hid]%orb_false_iff.
  unfold on_delta. rewrite Hc, Hr.
  destruct (tool_calls d) as [|toolCall calls]; [done|].
  unfold on_tool_calls, seq, stop_text_block, stop_thinking_block, when_.
  rewrite Hts, Hth.
  pose proof (tool_calls_loop_no_id (toolCall :: calls) s Hid) as H.
  by destruct (for_each (toolCall :: calls) on_tool_call s).
Qed.

Lemma on_finish_no_open (reason : option string) (s : StreamState) :
  no_open s -> (on_finish reason s).2 = s.
Proof.
  destruct s as [ms ts th tb cbi it ot]. intros (Hts & Hth & Htb). simpl in *. subst.
  unfold on_finish, when_. by destruct (truthy reason).
Qed.

Lemma convert_event_wf (sessionId : option string) (c : OpenAIChunk)
    (evs : list event) (s : StreamState) :
  well_formed evs s -> messageStarted s = true \/ no_open s ->
  messageStarted s = true \/ carries_role c = true \/ opens_block c = false ->
  well_formed (evs ++ (convert_event sessionId c s).1) (convert_event sessionId c s).2
  /\ (messageStarted (convert_event sessionId c s).2 = true
      \/ no_open (convert_event sessionId c s).2)
  /\ (messageStarted s = true \/ carries_role c = true ->
      messageStarted (convert_event sessionId c s).2 = true).
Proof.
  intros Hwf Hopen Hc. unfold convert_event, carries_role, opens_block in *.
  destruct (choices c) as [|choice rest].
  { simpl. rewrite app_nil_r. split; [done|]. split; [done|]. by intros [|]. }
  unfold seq.
  destruct (start_message_wf sessionId c (delta choice) evs s Hwf Hopen)
    as (Hwf1 & Hopen1 & Hms1 & Hsame1).
  destruct (start_message sessionId c (delta choice) s) as [e1 s1]. simpl in *.
  destruct (on_delta_wf (delta choice) (evs ++ e1) s1 Hwf1) as (Hwf2 & Hms2).
  pose proof (on_delta_quiet (delta choice) s1) as Hquiet2.
  destruct (on_delta (delta choice) s1) as [e2 s2]. simpl in *.
  destruct (record_usage_blocks (usage c) s2) as (He3 & Hms3 & Hts3 & Hth3 & Htb3 & Hcbi3).
  destruct (record_usage (usage c) s2) as [e3 s3]. simpl in *. subst e3.
  assert (Hwf3 : well_formed ((evs ++ e1) ++ e2) s3)
    by (by apply (well_formed_same_blocks _ s2)).
  destruct (on_finish_wf (finish_reason choice) _ s3 Hwf3) as (Hwf4 & Hms4).
  pose proof (on_finish_no_open (finish_reason choice) s3) as Hquiet4.
  destruct (on_finish (finish_reason choice) s3) as [e4 s4]. simpl in *.
  replace (evs ++ e1 ++ e2 ++ e4) with (((evs ++ e1) ++ e2) ++ e4)
    by (by rewrite <- !app_assoc).
  split; [done|]. split.
  - destruct (messageStarted s1) eqn:Hs1; [left; congruence|right].
    specialize (Hsame1 eq_refl). subst s1.
    destruct Hopen1 as [|Hno]; [congruence|].
    destruct Hc as [|[Hrole|Hquiet]]; [congruence| |].
    { by specialize (Hms1 (or_intror Hrole)). }
    specialize (Hquiet2 Hno Hquiet). subst s2.
    assert (Hno3 : no_open s3).
    { destruct Hno as (? & ? & ?). unfold no_open. by rewrite Hts3, Hth3, Htb3. }
    by rewrite (Hquiet4 Hno3).
  - intros H. rewrite Hms4, Hms3, Hms2. by apply Hms1.
Qed.

Lemma run_session_wf (sessionId : option string) (chunks : list OpenAIChunk)
    (evs : list event) (s : StreamState) :
  well_formed evs s -> messageStarted s = true \/ no_open s ->
  messageStarted s = true \/ role_first chunks = true ->
  well_formed (evs ++ (run_session sessionId chunks s).1) (run_session sessionId chunks s).2.
Proof.
  revert evs s. induction chunks as [|c chunks IH]; intros evs s Hwf Hopen Hfirst.
  { simpl. by rewrite app_nil_r. }
  simpl. unfold seq.
  assert (Hc : messageStarted s = true \/ carries_role c = true \/ opens_block c = false).
  { destruct Hfirst as [|Hf]; [by left|right]. simpl in Hf.
    destruct (carries_role c); [by left|right]. simpl in Hf.
    apply andb_true_iff in Hf as [Hf _]. by apply negb_true_iff. }
  destruct (convert_event_wf sessionId c evs s Hwf Hopen Hc) as (Hwf1 & Hopen1 & Hms1).
  destruct (convert_event sessionId c s) as [e1 s1]. simpl in *.
  assert (Hfirst1 : messageStarted s1 = true \/ role_first chunks = true).
  { destruct Hfirst as [|Hf]; [left; apply Hms1; by left|].
    destruct (carries_role c); [left; apply Hms1; by right|].
    simpl in Hf. apply andb_true_iff in Hf as [_ Hf]. by right. }
  specialize (IH (evs ++ e1) s1 Hwf1 Hopen1 Hfirst1).
  destruct (run_session sessionId chunks s1) as [e2 s2]. simpl in *.
  by rewrite app_assoc.
Qed.

Lemma well_formed_initial : well_formed [] initial_state.
Proof.
  split; [done|]. split; [done|].
  intros pre post sr sq it ot H. by destruct pre.
Qed.

End StepFacts.

(** * What each statement can emit *)

Section Emission.
Import Js Stream Trace.

Lemma emits_only_skip (P : event -> bool) : emits_only P skip.
Proof. by intros s. Qed.

Lemma emits_only_update (P : event -> bool) (f : StreamState -> StreamState) :
  emits_only P (update f).
Proof. by intros s. Qed.

Lemma emits_only_emit (P : event -> bool) (e : event) :
  P e = true -> emits_only P (emit e).
Proof. intros H s. simpl. by rewrite H. Qed.

Lemma emits_only_read (P : event -> bool) (k : StreamState -> Step) :
  (forall s, emits_only P (k s)) -> emits_only P (read k).
Proof. intros H s. apply H. Qed.

Lemma emits_only_seq (P : event -> bool) (f g : Step) :
  emits_only P f -> emits_only P g -> emits_only P (f ;; g).
Proof.
  intros Hf Hg s. unfold seq. specialize (Hf s).
  destruct (f s) as [e1 s1]. specialize (Hg s1). destruct (g s1) as [e2 s2].
  simpl in *. rewrite forallb_app. by rewrite Hf, Hg.
Qed.

Lemma emits_only_when (P : event -> bool) (c : StreamState -> bool) (f : Step) :
  emits_only P f -> emits_only P (when_ c f).
Proof. intros Hf s. unfold when_. destruct (c s); [apply Hf|done]. Qed.

Lemma emits_only_for_each {A : Type} (P : event -> bool) (l : list A) (body : A -> Step) :
  (forall x, emits_only P (body x)) -> emits_only P (for_each l body).
Proof.
  intros H. induction l as [|x l IH]; simpl.
  - apply emits_only_skip.
  - by apply emits_only_seq.
Qed.

Lemma emits_only_if (P : event -> bool) (b : bool) (f g : Step) :
  emits_only P f -> emits_only P g -> emits_only P (if b then f else g).
Proof. by destruct b. Qed.

Lemma emits_only_mono (P Q : event -> bool) (f : Step) :
  (forall e, P e = true -> Q e = true) -> emits_only P f -> emits_only Q f.
Proof.
  intros HPQ Hf s. specialize (Hf s). rewrite forallb_forall in *.
  intros e He. by apply HPQ, Hf.
Qed.

Create HintDb emits.
#[local] Hint Resolve emits_only_skip emits_only_update emits_only_emit emits_only_read
  emits_only_seq emits_only_when emits_only_for_each emits_only_if : emits.
#[local] Hint Extern 1 (_ = true) => reflexivity : emits.

Lemma stop_thinking_block_emits (advance : bool) :
  emits_only is_block_event (stop_thinking_block advance).
Proof. unfold stop_thinking_block. auto 10 with emits. Qed.

Lemma stop_text_block_emits (advance : bool) :
  emits_only is_block_event (stop_text_block advance).
Proof. unfold stop_text_block. auto 10 with emits. Qed.

Lemma stop_tool_blocks_emits (advance : bool) :
  emits_only is_block_event (stop_tool_blocks advance).
Proof. unfold stop_tool_blocks. auto 10 with emits. Qed.

#[local] Hint Resolve stop_thinking_block_emits stop_text_block_emits
  stop_tool_blocks_emits : emits.

Lemma on_tool_call_emits (toolCall : ToolCallDelta) :
  emits_only is_block_event (on_tool_call toolCall).
Proof. unfold on_tool_call. auto 10 with emits. Qed.

#[local] Hint Resolve on_tool_call_emits : emits.

Lemma on_delta_emits (d : Delta) : emits_only is_block_event (on_delta d).
Proof.
  unfold on_delta, on_content, on_reasoning.
  destruct (tool_calls d); unfold on_tool_calls; auto 12 with emits.
Qed.

Lemma start_message_emits (sessionId : option string) (c : OpenAIChunk) (d : Delta) :
  emits_only is_message_start (start_message sessionId c d).
Proof. unfold start_message. auto 12 with emits. Qed.

Lemma start_message_no_role (sessionId : option string) (c : OpenAIChunk) (d : Delta)
    (s : StreamState) :
  truthy (role d) = false -> start_message sessionId c d s = ([], s).
Proof. intros H. unfold start_message, when_. by rewrite H. Qed.

Lemma on_finish_events (reason : option string) (s : StreamState) :
  truthy reason = true ->
  exists closes,
    (on_finish reason s).1
      = closes ++ [message_delta (_mapStopReason reason) None 0
                     (inputTokens (on_finish reason s).2 + outputTokens (on_finish reason s).2)]
    /\ forallb is_block_event closes = true
    /\ inputTokens (on_finish reason s).2 = inputTokens s
    /\ outputTokens (on_finish reason s).2 = outputTokens s.
Proof.
  intros Hr. unfold on_finish, when_. rewrite Hr. unfold seq.
  pose proof (stop_thinking_block_emits false s) as H1.
  assert (T1 : inputTokens (stop_thinking_block false s).2 = inputTokens s
               /\ outputTokens (stop_thinking_block false s).2 = outputTokens s).
  { unfold stop_thinking_block, when_. by destruct (thinkingBlockStarted s). }
  destruct (stop_thinking_block false s) as [e1 s1]. simpl in *.
  pose proof (stop_text_block_emits false s1) as H2.
  assert (T2 : inputTokens (stop_text_block false s1).2 = inputTokens s1
               /\ outputTokens (stop_text_block false s1).2 = outputTokens s1).
  { unfold stop_text_block, when_. by destruct (textBlockStarted s1). }
  destruct (stop_text_block false s1) as [e2 s2]. simpl in *.
  pose proof (stop_tool_blocks_emits false s2) as H3.
  assert (T3 : inputTokens (stop_tool_blocks false s2).2 = inputTokens s2
               /\ outputTokens (stop_tool_blocks false s2).2 = outputTokens s2).
  { rewrite stop_tool_blocks_eq. by destruct (0 <? Map_size (toolBlocks s2)). }
  destruct (stop_tool_blocks false s2) as [e3 s3]. simpl in *.
  exists (e1 ++ e2 ++ e3). rewrite <- !app_assoc. split; [done|].
  rewrite !forallb_app, H1, H2, H3.
  destruct T1, T2, T3. repeat split; congruence.
Qed.

Lemma on_finish_emits (reason : option string) :
  emits_only (fun e => is_block_event e || is_message_delta e) (on_finish reason).
Proof.
  assert (Hblock : forall f, emits_only is_block_event f ->
                             emits_only (fun e => is_block_event e || is_message_delta e) f).
  { intros f. apply emits_only_mono. by intros e ->. }
  unfold on_finish. auto 12 with emits.
Qed.

Lemma convert_event_no_role (sessionId : option string) (c : OpenAIChunk) :
  carries_role c = false ->
  emits_only (fun e => is_block_event e || is_message_delta e) (convert_event sessionId c).
Proof.
  intros Hrole s. unfold convert_event, carries_role in *.
  destruct (choices c) as [|choice rest]; [done|].
  unfold seq. rewrite (start_message_no_role _ _ _ _ Hrole).
  pose proof (on_delta_emits (delta choice) s) as H2.
  destruct (on_delta (delta choice) s) as [e2 s2].
  destruct (record_usage_blocks (usage c) s2) as (H3 & _).
  destruct (record_usage (usage c) s2) as [e3 s3].
  pose proof (on_finish_emits (finish_reason choice) s3) as H4.
  destruct (on_finish (finish_reason choice) s3) as [e4 s4].
  simpl in *. subst e3. simpl. rewrite forallb_app, H4, andb_true_r.
  rewrite forallb_forall in *. intros e He. by rewrite (H2 e He).
Qed.

Lemma run_session_no_role (sessionId : option string) (chunks : list OpenAIChunk) :
  never_role chunks = true ->
  emits_only (fun e => is_block_event e || is_message_delta e)
             (run_session sessionId chunks).
Proof.
  induction chunks as [|c chunks IH]; simpl; [intros _; apply emits_only_skip|].
  intros [Hc Hrest]%andb_true_iff. apply emits_only_seq; [|by apply IH].
  apply convert_event_no_role. by apply negb_true_iff.
Qed.

(** With tool blocks open and no thinking block, the text branch leaves
    [contentBlockIndex] one above its old value, whatever the tool indices:
    [Math.max] runs over the keys of the map that was just cleared. *)
Lemma on_content_index_after_tools (t : string) (s : StreamState) :
  toolBlocks s <> [] -> thinkingBlockStarted s = false ->
  contentBlockIndex (on_content t s).2 = contentBlockIndex s + 1
  /\ toolBlocks (on_content t s).2 = [].
Proof.
  destruct s as [ms ts th tb cbi it ot]. simpl. intros Htb ->.
  unfold on_content, seq, stop_thinking_block, when_. simpl.
  rewrite stop_tool_blocks_eq. simpl.
  destruct tb as [|[k v] tb]; [done|]. simpl. by destruct ts.
Qed.

End Emission.

(** C3 at its failing input. With tool blocks 0 and 1 open and
    [contentBlockIndex = 0], a [delta.content] chunk closes both tool blocks
    and clears the map, but leaves [contentBlockIndex] at 1, not at
    max(0, 1) + 1 = 2: the text block opens at index 1, which tool block 1
    has used. *)
Theorem text_after_tools_reuses_index :
  Js.Map_keys (Stream.toolBlocks Sample.two_tools_open) = [0; 1]
  /\ Stream.contentBlockIndex Sample.two_tools_open = 0
  /\ (Stream.on_content "x" Sample.two_tools_open).1
     = [Stream.content_block_stop 0; Stream.content_block_stop 1;
        Stream.content_block_start 1 Stream.TextBlock;
        Stream.content_block_delta 1 (Stream.text_delta "x")]
  /\ Stream.toolBlocks (Stream.on_content "x" Sample.two_tools_open).2 = []
  /\ Stream.contentBlockIndex (Stream.on_content "x" Sample.two_tools_open).2 = 1.
Proof. repeat split. Qed.

(** * The session table *)

Section Sessions.
Import Js Stream Converter.
Variable JSON_parse : string -> ParseResult.

Lemma session_key_truthy (sessionId : option string) :
  truthy (Some (session_key sessionId)) = true.
Proof. by destruct sessionId as [[|a s]|]. Qed.

Lemma session_key_idem (sessionId : option string) :
  session_key (Some (session_key sessionId)) = session_key sessionId.
Proof. by destruct sessionId as [[|a s]|]. Qed.

Lemma session_key_falsy (sessionId : option string) :
  truthy sessionId = false -> session_key sessionId = "default".
Proof. by destruct sessionId as [[|a s]|]. Qed.

Lemma session_key_given (sessionId : option string) :
  truthy sessionId = true -> Some (session_key sessionId) = sessionId.
Proof. by destruct sessionId as [[|a s]|]. Qed.

Lemma convert_event_falsy (sessionId : option string) (c : OpenAIChunk) (s : StreamState) :
  truthy sessionId = false -> convert_event sessionId c s = convert_event None c s.
Proof.
  intros H. unfold convert_event. destruct (choices c) as [|choice rest]; [done|].
  unfold seq, start_message. by rewrite H.
Qed.

Lemma _getStreamState_frame (table : gmap string StreamState) (sessionId : option string)
    (k : string) :
  k <> session_key sessionId ->
  (_getStreamState table sessionId).2 !! k = table !! k.
Proof.
  intros Hk. unfold _getStreamState.
  destruct (table !! session_key sessionId); [done|]. simpl. by rewrite lookup_insert_ne.
Qed.

Lemma _getStreamState_local (t1 t2 : gmap string StreamState) (sessionId : option string) :
  t1 !! session_key sessionId = t2 !! session_key sessionId ->
  (_getStreamState t1 sessionId).1 = (_getStreamState t2 sessionId).1
  /\ (_getStreamState t1 sessionId).2 !! session_key sessionId
     = (_getStreamState t2 sessionId).2 !! session_key sessionId.
Proof.
  intros H. unfold _getStreamState. rewrite <- H.
  destruct (t1 !! session_key sessionId) eqn:E; simpl; [by rewrite E, H|].
  by rewrite !lookup_insert_eq.
Qed.

Lemma convert_line_frame (sessionId : option string) (k : string)
    (acc : list event * gmap string StreamState) (line : string) :
  k <> session_key sessionId ->
  (convert_line JSON_parse sessionId acc line).2 !! k = acc.2 !! k.
Proof.
  intros Hk. destruct acc as [evs table]. unfold convert_line.
  destruct (startsWith "data: " line); [|done].
  destruct (String.eqb (substring_from 6 line) "[DONE]").
  { simpl. unfold _resetStreamState. rewrite session_key_idem. by rewrite lookup_delete_ne. }
  destruct (JSON_parse (substring_from 6 line)) as [| |c]; [done| |].
  - simpl. by apply _getStreamState_frame.
  - unfold _convertStreamEvent.
    pose proof (_getStreamState_frame table sessionId k Hk) as Hget.
    destruct (_getStreamState table sessionId) as [st table1].
    destruct (convert_event sessionId c st) as [e st']. simpl in *.
    by rewrite lookup_insert_ne.
Qed.

Lemma convert_line_local (sessionId : option string) (evs : list event)
    (t1 t2 : gmap string StreamState) (line : string) :
  t1 !! session_key sessionId = t2 !! session_key sessionId ->
  (convert_line JSON_parse sessionId (evs, t1) line).1
  = (convert_line JSON_parse sessionId (evs, t2) line).1
  /\ (convert_line JSON_parse sessionId (evs, t1) line).2 !! session_key sessionId
     = (convert_line JSON_parse sessionId (evs, t2) line).2 !! session_key sessionId.
Proof.
  intros H. unfold convert_line.
  destruct (startsWith "data: " line); [|done].
  destruct (String.eqb (substring_from 6 line) "[DONE]").
  { simpl. unfold _resetStreamState. rewrite session_key_idem.
    by rewrite !lookup_delete_eq. }
  destruct (JSON_parse (substring_from 6 line)) as [| |c]; [done| |].
  - simpl. split; [done|]. by apply _getStreamState_local.
  - unfold _convertStreamEvent.
    destruct (_getStreamState_local t1 t2 sessionId H) as [Hst _].
    destruct (_getStreamState t1 sessionId) as [st1 t1'].
    destruct (_getStreamState t2 sessionId) as [st2 t2']. simpl in Hst. subst st2.
    destruct (convert_event sessionId c st1) as [e st']. simpl.
    by rewrite !lookup_insert_eq.
Qed.

Lemma convert_lines_frame (sessionId : option string) (k : string) (lines : list string)
    (acc : list event * gmap string StreamState) :
  k <> session_key sessionId ->
  (foldl (convert_line JSON_parse sessionId) acc lines).2 !! k = acc.2 !! k.
Proof.
  intros Hk. revert acc. induction lines as [|line lines IH]; intros acc; [done|].
  cbn [foldl]. rewrite IH. by apply convert_line_frame.
Qed.

Lemma convert_lines_local (sessionId : option string) (lines : list string)
    (evs : list event) (t1 t2 : gmap string StreamState) :
  t1 !! session_key sessionId = t2 !! session_key sessionId ->
  (foldl (convert_line JSON_parse sessionId) (evs, t1) lines).1
  = (foldl (convert_line JSON_parse sessionId) (evs, t2) lines).1
  /\ (foldl (convert_line JSON_parse sessionId) (evs, t1) lines).2 !! session_key sessionId
     = (foldl (convert_line JSON_parse sessionId) (evs, t2) lines).2 !! session_key sessionId.
Proof.
  revert evs t1 t2. induction lines as [|line lines IH]; intros evs t1 t2 H; [done|].
  cbn [foldl]. destruct (convert_line_local sessionId evs t1 t2 line H) as [He Ht].
  destruct (convert_line JSON_parse sessionId (evs, t1) line) as [e1 t1'].
  destruct (convert_line JSON_parse sessionId (evs, t2) line) as [e2 t2'].
  simpl in *. subst e2. by apply IH.
Qed.

(** A call touches no entry but the one of its key. *)
Lemma convertStreamChunk_frame (table : gmap string StreamState) (chunk : string)
    (sessionId : option string) (k : string) :
  k <> session_key sessionId ->
  (convertStreamChunk JSON_parse table chunk sessionId).2 !! k = table !! k.
Proof.
  intros Hk. unfold convertStreamChunk. destruct (blank chunk); [done|].
  by rewrite convert_lines_frame.
Qed.

(** What a call emits, and the entry it leaves, depend on the table only
    through the entry of its key. *)
Lemma convertStreamChunk_local (t1 t2 : gmap string StreamState) (chunk : string)
    (sessionId : option string) :
  t1 !! session_key sessionId = t2 !! session_key sessionId ->
  (convertStreamChunk JSON_parse t1 chunk sessionId).1
  = (convertStreamChunk JSON_parse t2 chunk sessionId).1
  /\ (convertStreamChunk JSON_parse t1 chunk sessionId).2 !! session_key sessionId
     = (convertStreamChunk JSON_parse t2 chunk sessionId).2 !! session_key sessionId.
Proof.
  intros H. unfold convertStreamChunk. destruct (blank chunk); [done|].
  by apply convert_lines_local.
Qed.

(** Every falsy [sessionId] behaves as [undefined] does. *)
Lemma convertStreamChunk_falsy (table : gmap string StreamState) (chunk : string)
    (sessionId : option string) :
  truthy sessionId = false ->
  convertStreamChunk JSON_parse table chunk sessionId
  = convertStreamChunk JSON_parse table chunk None.
Proof.
  intros H. unfold convertStreamChunk. destruct (blank chunk); [done|].
  generalize (split "
" chunk) as lines. generalize (@nil event, table) as acc.
  intros acc lines. revert acc. induction lines as [|line lines IH]; intros acc; [done|].
  cbn [foldl]. rewrite <- IH. f_equal.
  destruct acc as [evs t]. unfold convert_line, _convertStreamEvent, _getStreamState.
  rewrite !(session_key_falsy _ H).
  change (session_key None) with "default".
  destruct (startsWith "data: " line); [|done].
  destruct (String.eqb (substring_from 6 line) "[DONE]"); [done|].
  destruct (JSON_parse (substring_from 6 line)) as [| |c]; [done|done|].
  destruct (t !! "default"); by rewrite (convert_event_falsy _ _ _ H).
Qed.

End Sessions.

(** C4 at its failing input. Whatever has been written before, when the
    upstream sends the frame [data: [DONE]] and then ends, the translator
    writes [message_stop] for the sentinel and the ['end'] listener writes
    a second one: no record is kept of the first. *)
Theorem done_then_end_writes_message_stop_twice
    (JSON_parse : string -> Converter.ParseResult) (sessionId : string)
    (written : list Stream.event) (table : gmap string Stream.StreamState) :
  Dispatch.res
    (Dispatch.on_end
       (Dispatch.on_data JSON_parse sessionId
          {| Dispatch.buffer := ""; Dispatch.res := written;
             Dispatch._streamStates := table |}
          "data: [DONE]

"))
  = written ++ [Stream.message_stop; Stream.message_stop].
Proof. simpl. by rewrite <- app_assoc. Qed.

(** * Properties of the request and response converters *)

Section Converters.
Import Js.

Lemma tool_blocks_of_calls (JSON_parse : string -> option json)
    (calls : list Response.ToolCall) :
  flat_map (Response.convert_tool_call JSON_parse) calls
  = map (Response.tool_use_of JSON_parse) (List.filter Response.is_function calls).
Proof.
  induction calls as [|toolCall calls IH]; [done|].
  simpl. unfold Response.convert_tool_call at 1.
  destruct (Response.is_function toolCall); simpl; by rewrite IH.
Qed.

Lemma scan_without_tool_result (JSON_stringify : json -> string)
    (base64 : string -> string) (blocks : list Request.ContentBlock) (acc : Request.Scan) :
  existsb Request.is_tool_result blocks = false ->
  Request.toolResults (foldl (Request.scan_block JSON_stringify base64) acc blocks)
  = Request.toolResults acc.
Proof.
  revert acc. induction blocks as [|b blocks IH]; intros acc H; [done|].
  simpl in H. apply orb_false_iff in H as [Hb Hrest].
  cbn [foldl]. rewrite (IH _ Hrest).
  destruct b as [t|src|src title|i n inp|i c|t sg|]; try done.
  - simpl. by destruct (truthy _).
  - simpl. by destruct (truthy _).
Qed.

End Converters.

(** C6 (as amended). [convertRequest] sets [parallel_tool_calls] to false
    exactly when the request has [tools], has a [tool_choice] of type
    [auto], [any] or [tool], and that choice carries a truthy
    [disable_parallel_tool_use]; in every other case the field is absent. *)
Theorem parallel_tool_calls_set
    (JSON_stringify : Js.json -> string) (base64 : string -> string)
    (claudeRequest : Request.AnthropicRequest) :
  Request.parallel_tool_calls (Request.convertRequest JSON_stringify base64 claudeRequest)
  = if Request.disables_parallel claudeRequest then Some false else None.
Proof.
  unfold Request.convertRequest, Request.disables_parallel. simpl.
  destruct (Request.tools claudeRequest) as [tools|]; [|done].
  destruct (Request.tool_choice claudeRequest) as [tc|]; [|done].
  unfold Request._convertToolChoice, Request.not_disabled.
  destruct (String.eqb (Request.tc_type tc) "auto");
    [by destruct (Request.disable_parallel_tool_use tc) as [[|]|]|].
  destruct (String.eqb (Request.tc_type tc) "any");
    [by destruct (Request.disable_parallel_tool_use tc) as [[|]|]|].
  destruct (String.eqb (Request.tc_type tc) "tool");
    [by destruct (Request.disable_parallel_tool_use tc) as [[|]|]|].
  by destruct (String.eqb (Request.tc_type tc) "none").
Qed.

(** C6 (as stated) fails twice: a [tool_choice] with
    [disable_parallel_tool_use = true] leaves [parallel_tool_calls] absent
    when the request has no [tools], and when its type is [none]. *)
Lemma parallel_tool_calls_counterexample :
  (Request.disable_parallel_tool_use <$> Request.tool_choice Sample.choice_without_tools)
    = Some (Some true)
  /\ Request.parallel_tool_calls
       (Request.convertRequest Sample.no_stringify Sample.no_base64
          Sample.choice_without_tools) = None
  /\ (Request.disable_parallel_tool_use <$> Request.tool_choice Sample.choice_none)
       = Some (Some true)
  /\ Request.parallel_tool_calls
       (Request.convertRequest Sample.no_stringify Sample.no_base64 Sample.choice_none)
     = None.
Proof. repeat split. Qed.

(** C9 (as amended). A user message with array content and no
    [tool_result] block contributes exactly one OpenAI message:
    [{role:'user', content: contentParts}] when [contentParts] is
    non-empty, and the default [{role:'user', content:''}] when the blocks
    yield no text, image or document part. *)
Theorem user_array_message
    (JSON_stringify : Js.json -> string) (base64 : string -> string)
    (blocks : list Request.ContentBlock) :
  existsb Request.is_tool_result blocks = false ->
  Request.pushed
    (Request._convertMessageContent JSON_stringify base64
       {| Request.role := "user"; Request.content := Request.content_array blocks |})
  = [{| Request.o_role := "user";
        Request.o_content :=
          match Request.contentParts (Request.scan_blocks JSON_stringify base64 blocks) with
          | [] => Request.openai_string ""
          | parts => Request.openai_parts parts
          end;
        Request.o_tool_calls := None; Request.o_tool_call_id := None |}].
Proof.
  intros Hres. unfold Request._convertMessageContent. simpl.
  unfold Request.scan_blocks at 1 2.
  rewrite (scan_without_tool_result _ _ _ _ Hres). simpl.
  fold (Request.scan_blocks JSON_stringify base64 blocks).
  by destruct (Request.contentParts (Request.scan_blocks JSON_stringify base64 blocks)).
Qed.

Lemma user_array_message_witness :
  Request.pushed
    (Request._convertMessageContent Sample.no_stringify Sample.no_base64
       {| Request.role := "user";
          Request.content := Request.content_array [Request.text "hello"] |})
  = [{| Request.o_role := "user";
        Request.o_content := Request.openai_parts [Request.part_text "hello"];
        Request.o_tool_calls := None; Request.o_tool_call_id := None |}].
Proof.
  exact (user_array_message Sample.no_stringify Sample.no_base64
           [Request.text "hello"] eq_refl).
Defined.

(** C9 (as stated) fails: a user message that holds only a thinking block
    has no content part, yet [_convertMessages] pushes one message for it,
    [{role:'user', content:''}], not zero. *)
Lemma user_array_message_counterexample :
  Request.contentParts
    (Request.scan_blocks Sample.no_stringify Sample.no_base64
       [Request.thinking "hm" "sig"]) = []
  /\ Request._convertMessages Sample.no_stringify Sample.no_base64
       Sample.thinking_only_request
     = [{| Request.o_role := "user"; Request.o_content := Request.openai_string "";
           Request.o_tool_calls := None; Request.o_tool_call_id := None |}]
  /\ length (Request._convertMessages Sample.no_stringify Sample.no_base64
               Sample.thinking_only_request) <> 0.
Proof. repeat split. discriminate. Qed.

(** C7 (as amended). For a response whose first choice has non-null text
    content, with [k] the number of [tool_calls] entries of type
    [function], the content list is the text block, then a thinking block
    if [reasoning_content] is non-empty, then one [tool_use] block per
    function entry in upstream order (entries of another type yield no
    block); its length is [k + 1] or [k + 2]. *)
Theorem response_content_order
    (JSON_parse : string -> option Js.json) (openaiResponse : Response.OpenAIResponse)
    (choice : Response.Choice) (rest : list Response.Choice) (c : string) :
  Response.choices openaiResponse = Some (choice :: rest) ->
  Response.content (Response.message choice) = Some c ->
  exists claudeResponse,
    Response.convertResponse JSON_parse openaiResponse = inr claudeResponse
    /\ Response.a_content claudeResponse
       = Response.text c None
         :: (if Js.truthy (Response.reasoning_content (Response.message choice))
             then [Response.thinking
                     (Js.or_else (Response.reasoning_content (Response.message choice)) "") ""]
             else [])
         ++ map (Response.tool_use_of JSON_parse)
                (List.filter Response.is_function
                   (Response.tool_calls (Response.message choice)))
    /\ (length (Response.a_content claudeResponse)
        = length (List.filter Response.is_function
                    (Response.tool_calls (Response.message choice))) + 1
        \/ length (Response.a_content claudeResponse)
           = length (List.filter Response.is_function
                       (Response.tool_calls (Response.message choice))) + 2).
Proof.
  intros Hch Hc. unfold Response.convertResponse. rewrite Hch. simpl.
  eexists. split; [reflexivity|]. simpl.
  unfold Response.convert_content. rewrite Hc, tool_blocks_of_calls. simpl.
  split; [done|].
  destruct (Js.truthy (Response.reasoning_content (Response.message choice))); simpl;
    rewrite length_map; [right|left]; lia.
Qed.

Lemma response_content_order_witness :
  exists claudeResponse,
    Response.convertResponse Sample.no_parse Sample.text_and_custom_calls
      = inr claudeResponse
    /\ Response.a_content claudeResponse = [Response.text "hi" None]
    /\ (length (Response.a_content claudeResponse) = 1
        \/ length (Response.a_content claudeResponse) = 2).
Proof.
  exact (response_content_order Sample.no_parse Sample.text_and_custom_calls _ [] "hi"
           eq_refl eq_refl).
Defined.

(** C7 (as stated) fails: with text content and two tool calls of type
    [custom], the content list is the text block alone; its length 1 is
    not in {2, 3, 4} and no [tool_use] block stands for the entries. *)
Lemma response_content_counterexample :
  exists claudeResponse,
    Response.convertResponse Sample.no_parse Sample.text_and_custom_calls
      = inr claudeResponse
    /\ Response.a_content claudeResponse = [Response.text "hi" None]
    /\ ~ (length (Response.a_content claudeResponse) = 2
          \/ length (Response.a_content claudeResponse) = 3
          \/ length (Response.a_content claudeResponse) = 4).
Proof.
  eexists. split; [reflexivity|]. split; [reflexivity|].
  simpl. intros [H|[H|H]]; discriminate H.
Qed.

(** * Further properties of the streaming translator *)

Section StreamMore.
Import Js Stream Trace Payload.

Lemma seq_run (f g : Step) (s : StreamState) :
  (f ;; g) s = ((f s).1 ++ (g (f s).2).1, (g (f s).2).2).
Proof. unfold seq. destruct (f s) as [e1 s1]. simpl. by destruct (g s1). Qed.

(** ** Components a statement leaves alone *)

Lemma keeps_skip {A : Type} (proj : StreamState -> A) : keeps proj skip.
Proof. by intros s. Qed.

Lemma keeps_emit {A : Type} (proj : StreamState -> A) (e : event) : keeps proj (emit e).
Proof. by intros s. Qed.

Lemma keeps_update {A : Type} (proj : StreamState -> A) (f : StreamState -> StreamState) :
  (forall s, proj (f s) = proj s) -> keeps proj (update f).
Proof. intros H s. apply H. Qed.

Lemma keeps_read {A : Type} (proj : StreamState -> A) (k : StreamState -> Step) :
  (forall s, keeps proj (k s)) -> keeps proj (read k).
Proof. intros H s. apply H. Qed.

Lemma keeps_seq {A : Type} (proj : StreamState -> A) (f g : Step) :
  keeps proj f -> keeps proj g -> keeps proj (f ;; g).
Proof. intros Hf Hg s. rewrite seq_run. simpl. by rewrite Hg, Hf. Qed.

Lemma keeps_when {A : Type} (proj : StreamState -> A) (c : StreamState -> bool) (f : Step) :
  keeps proj f -> keeps proj (when_ c f).
Proof. intros Hf s. unfold when_. destruct (c s); [apply Hf|done]. Qed.

Lemma keeps_for_each {A B : Type} (proj : StreamState -> A) (l : list B) (body : B -> Step) :
  (forall x, keeps proj (body x)) -> keeps proj (for_each l body).
Proof.
  intros H. induction l as [|x l IH]; simpl; [apply keeps_skip|by apply keeps_seq].
Qed.

Lemma keeps_if {A : Type} (proj : StreamState -> A) (b : bool) (f g : Step) :
  keeps proj f -> keeps proj g -> keeps proj (if b then f else g).
Proof. by destruct b. Qed.

Create HintDb keeps.
#[local] Hint Resolve keeps_skip keeps_emit keeps_update keeps_read keeps_seq keeps_when
  keeps_for_each keeps_if : keeps.
#[local] Hint Extern 1 (forall s : StreamState, _ = _) => (intros []; reflexivity) : keeps.

Lemma on_delta_keeps_messageStarted (d : Delta) : keeps messageStarted (on_delta d).
Proof.
  unfold on_delta, on_content, on_reasoning, stop_thinking_block, stop_text_block,
    stop_tool_blocks.
  destruct (tool_calls d); unfold on_tool_calls, on_tool_call, stop_thinking_block,
    stop_text_block; auto 20 with keeps.
Qed.

Lemma record_usage_keeps_messageStarted (u : option Usage) :
  keeps messageStarted (record_usage u).
Proof. unfold record_usage. destruct u; auto 20 with keeps. Qed.

Lemma on_finish_keeps_messageStarted (reason : option string) :
  keeps messageStarted (on_finish reason).
Proof.
  unfold on_finish, stop_thinking_block, stop_text_block, stop_tool_blocks.
  auto 20 with keeps.
Qed.

Lemma on_tool_call_keeps_text (toolCall : ToolCallDelta) :
  keeps textBlockStarted (on_tool_call toolCall).
Proof. unfold on_tool_call. auto 20 with keeps. Qed.

Lemma on_tool_call_keeps_thinking (toolCall : ToolCallDelta) :
  keeps thinkingBlockStarted (on_tool_call toolCall).
Proof. unfold on_tool_call. auto 20 with keeps. Qed.

Lemma on_tool_call_keeps_index (toolCall : ToolCallDelta) :
  keeps contentBlockIndex (on_tool_call toolCall).
Proof. unfold on_tool_call. auto 20 with keeps. Qed.

(** ** Mutual exclusion of the open blocks *)

Ltac crunch :=
  repeat (cbv beta iota delta
            [on_content on_reasoning on_finish stop_thinking_block stop_text_block
             start_message seq when_ read update emit skip negb andb fst snd
             messageStarted textBlockStarted thinkingBlockStarted toolBlocks
             contentBlockIndex inputTokens outputTokens
             set_messageStarted set_textBlockStarted set_thinkingBlockStarted
             set_toolBlocks set_contentBlockIndex set_inputTokens set_outputTokens];
          rewrite ?stop_tool_blocks_eq);
  simpl.

Lemma on_content_post (t : string) (s : StreamState) :
  textBlockStarted (on_content t s).2 = true
  /\ thinkingBlockStarted (on_content t s).2 = false
  /\ toolBlocks (on_content t s).2 = [].
Proof.
  destruct s as [ms ts th tb cbi it ot].
  destruct ts, th, tb as [|[k v] tb]; crunch; done.
Qed.

Lemma on_reasoning_post (t : string) (s : StreamState) :
  textBlockStarted (on_reasoning t s).2 = false
  /\ thinkingBlockStarted (on_reasoning t s).2 = true
  /\ toolBlocks (on_reasoning t s).2 = [].
Proof.
  destruct s as [ms ts th tb cbi it ot].
  destruct ts, th, tb as [|[k v] tb]; crunch; done.
Qed.

Lemma on_tool_calls_post (calls : list ToolCallDelta) (s : StreamState) :
  textBlockStarted (on_tool_calls calls s).2 = false
  /\ thinkingBlockStarted (on_tool_calls calls s).2 = false.
Proof.
  unfold on_tool_calls. rewrite !seq_run. simpl.
  rewrite (keeps_for_each textBlockStarted calls on_tool_call on_tool_call_keeps_text).
  rewrite (keeps_for_each thinkingBlockStarted calls on_tool_call on_tool_call_keeps_thinking).
  destruct s as [ms ts th tb cbi it ot]. by destruct ts, th.
Qed.

Lemma on_finish_post (reason : option string) (s : StreamState) :
  truthy reason = true -> no_open (on_finish reason s).2.
Proof.
  intros Hr. unfold on_finish, when_. rewrite Hr.
  destruct s as [ms ts th tb cbi it ot].
  destruct ts, th, tb as [|[k v] tb]; crunch; done.
Qed.

Lemma no_open_exclusive (s : StreamState) : no_open s -> exclusive s.
Proof. intros (Hts & Hth & Htb). unfold exclusive. rewrite Hts, Hth, Htb. by split. Qed.

Lemma on_delta_exclusive (d : Delta) (s : StreamState) :
  exclusive s -> exclusive (on_delta d s).2.
Proof.
  intros Hx. unfold on_delta.
  destruct (truthy (content d)).
  { destruct (on_content_post (or_else (content d) "") s) as (H1 & H2 & H3).
    unfold exclusive. rewrite H1, H2, H3. by split. }
  destruct (truthy (reasoning_content d)).
  { destruct (on_reasoning_post (or_else (reasoning_content d) "") s) as (H1 & H2 & H3).
    unfold exclusive. rewrite H1, H2, H3. by split. }
  destruct (tool_calls d) as [|toolCall calls]; [done|].
  destruct (on_tool_calls_post (toolCall :: calls) s) as (H1 & H2).
  unfold exclusive. rewrite H1, H2. by split.
Qed.

Lemma convert_event_exclusive (sessionId : option string) (c : OpenAIChunk)
    (s : StreamState) :
  exclusive s -> exclusive (convert_event sessionId c s).2.
Proof.
  intros Hx. unfold convert_event. destruct (choices c) as [|choice rest]; [done|].
  rewrite !seq_run. simpl.
  set (s1 := (start_message sessionId c (delta choice) s).2).
  assert (H1 : exclusive s1).
  { subst s1. destruct s as [ms ts th tb cbi it ot]. unfold start_message, when_.
    destruct (truthy (role (delta choice)) && negb (messageStarted _)); [|done].
    crunch. by split. }
  pose proof (on_delta_exclusive (delta choice) s1 H1) as H2.
  set (s2 := (on_delta (delta choice) s1).2) in *.
  destruct (record_usage_blocks (usage c) s2) as (_ & _ & Hts & Hth & Htb & _).
  set (s3 := (record_usage (usage c) s2).2) in *.
  assert (H3 : exclusive s3) by (unfold exclusive in *; by rewrite Hts, Hth, Htb).
  unfold on_finish, when_. destruct (truthy (finish_reason choice)) eqn:Hr; [|done].
  apply no_open_exclusive.
  pose proof (on_finish_post (finish_reason choice) s3 Hr) as H4.
  unfold on_finish, when_ in H4. by rewrite Hr in H4.
Qed.

Lemma run_session_exclusive (sessionId : option string) (chunks : list OpenAIChunk)
    (s : StreamState) :
  exclusive s -> exclusive (run_session sessionId chunks s).2.
Proof.
  revert s. induction chunks as [|c chunks IH]; intros s Hx; [done|].
  simpl. rewrite seq_run. simpl. by apply IH, convert_event_exclusive.
Qed.

End StreamMore.

(** X1. Whatever chunks a session receives, its state never holds a text
    block and a thinking block open together, and holds tool blocks open
    only while neither is open. *)
Theorem open_blocks_exclude_each_other
    (sessionId : option string) (chunks : list Stream.OpenAIChunk) :
  let s := (Stream.run_session sessionId chunks Stream.initial_state).2 in
  (Stream.textBlockStarted s = true ->
   Stream.thinkingBlockStarted s = false /\ Stream.toolBlocks s = [])
  /\ (Stream.thinkingBlockStarted s = true -> Stream.toolBlocks s = []).
Proof. apply run_session_exclusive. by split. Qed.

(** X2. A chunk whose first choice has a truthy [finish_reason] leaves no
    block open, whatever the state before it. *)
Theorem finish_closes_every_block
    (sessionId : option string) (c : Stream.OpenAIChunk) (choice : Stream.Choice)
    (rest : list Stream.Choice) (s : Stream.StreamState) :
  Stream.choices c = choice :: rest ->
  Js.truthy (Stream.finish_reason choice) = true ->
  Stream.textBlockStarted (Stream.convert_event sessionId c s).2 = false
  /\ Stream.thinkingBlockStarted (Stream.convert_event sessionId c s).2 = false
  /\ Stream.toolBlocks (Stream.convert_event sessionId c s).2 = [].
Proof.
  intros Hc Hr. unfold Stream.convert_event. rewrite Hc. rewrite !seq_run. simpl.
  by apply on_finish_post.
Qed.

Lemma finish_closes_every_block_witness :
  Stream.textBlockStarted
    (Stream.convert_event (Some "s") Sample.finish_chunk Sample.two_tools_open).2 = false
  /\ Stream.thinkingBlockStarted
       (Stream.convert_event (Some "s") Sample.finish_chunk Sample.two_tools_open).2 = false
  /\ Stream.toolBlocks
       (Stream.convert_event (Some "s") Sample.finish_chunk Sample.two_tools_open).2 = [].
Proof.
  exact (finish_closes_every_block (Some "s") Sample.finish_chunk
           {| Stream.delta := Stream.empty_delta; Stream.finish_reason := Some "stop" |} []
           Sample.two_tools_open eq_refl eq_refl).
Defined.

Section StreamTraces.
Import Js Stream Trace Payload.

Create HintDb events.
#[local] Hint Resolve emits_only_skip emits_only_update emits_only_emit emits_only_read
  emits_only_seq emits_only_when emits_only_for_each emits_only_if : events.
#[local] Hint Extern 1 (_ = true) => reflexivity : events.

Lemma count_of_emits_only (P q : event -> bool) (f : Step) (s : StreamState) :
  emits_only P f -> (forall e, P e = true -> q e = false) -> count q (f s).1 = 0.
Proof.
  intros Hf Hq. apply count_none. intros e He. apply Hq.
  specialize (Hf s). rewrite forallb_forall in Hf. by apply Hf.
Qed.

(** ** One [message_start] per session *)

Lemma convert_event_message_start (sessionId : option string) (c : OpenAIChunk)
    (s : StreamState) :
  count is_message_start (convert_event sessionId c s).1
  = (if negb (messageStarted s) && carries_role c then 1 else 0)
  /\ messageStarted (convert_event sessionId c s).2 = messageStarted s || carries_role c.
Proof.
  unfold convert_event, carries_role. destruct (choices c) as [|choice rest].
  { simpl. by rewrite andb_false_r, orb_false_r. }
  rewrite !seq_run. simpl. rewrite !count_app.
  rewrite (count_of_emits_only is_block_event _ _ _ (on_delta_emits (delta choice)))
    by (by intros []).
  rewrite (proj1 (record_usage_blocks (usage c) _)).
  rewrite (count_of_emits_only _ _ _ _ (on_finish_emits (finish_reason choice)))
    by (by intros []).
  rewrite on_finish_keeps_messageStarted, record_usage_keeps_messageStarted,
    on_delta_keeps_messageStarted.
  destruct s as [ms ts th tb cbi it ot]. unfold start_message, when_. simpl.
  destruct (truthy (role (delta choice))), ms; done.
Qed.

Lemma run_session_message_start (sessionId : option string) (chunks : list OpenAIChunk)
    (s : StreamState) :
  count is_message_start (run_session sessionId chunks s).1
  = if negb (messageStarted s) && existsb carries_role chunks then 1 else 0.
Proof.
  revert s. induction chunks as [|c chunks IH]; intros s.
  { simpl. by rewrite andb_false_r. }
  simpl. rewrite seq_run. simpl. rewrite count_app, IH.
  destruct (convert_event_message_start sessionId c s) as [-> ->].
  by destruct (messageStarted s), (carries_role c), (existsb carries_role chunks).
Qed.

(** ** Payloads pass through in order *)

Lemma yields_silent {B : Type} (p : event -> option B) (f : Step) :
  emits_only (silent p) f -> yields p f [].
Proof.
  intros Hf s. specialize (Hf s). induction ((f s).1) as [|e l IH]; [done|].
  simpl in *. apply andb_true_iff in Hf as [He Hl]. unfold silent in He.
  destruct (p e); [done|]. by apply IH.
Qed.

Lemma yields_seq {B : Type} (p : event -> option B) (f g : Step) (l1 l2 : list B) :
  yields p f l1 -> yields p g l2 -> yields p (f ;; g) (l1 ++ l2).
Proof. intros Hf Hg s. rewrite seq_run. simpl. by rewrite omap_app, Hf, Hg. Qed.

Lemma yields_for_each {A B : Type} (p : event -> option B) (l : list A)
    (body : A -> Step) (g : A -> list B) :
  (forall x, yields p (body x) (g x)) -> yields p (for_each l body) (flat_map g l).
Proof.
  intros H. induction l as [|x l IH]; [done|].
  simpl. by apply yields_seq.
Qed.

Lemma stop_blocks_silent {B : Type} (p : event -> option B) (advance : bool) :
  (forall i, p (content_block_stop i) = None) ->
  (forall i, p (content_block_delta i (signature_delta "")) = None) ->
  emits_only (silent p) (stop_thinking_block advance)
  /\ emits_only (silent p) (stop_text_block advance)
  /\ emits_only (silent p) (stop_tool_blocks advance).
Proof.
  intros Hstop Hsig.
  assert (H1 : forall i, silent p (content_block_stop i) = true)
    by (intros i; unfold silent; by rewrite Hstop).
  assert (H2 : forall i, silent p (content_block_delta i (signature_delta "")) = true)
    by (intros i; unfold silent; by rewrite Hsig).
  unfold stop_thinking_block, stop_text_block, stop_tool_blocks.
  split; [|split]; auto 12 with events.
Qed.

Lemma on_tool_call_payloads (toolCall : ToolCallDelta) :
  yields payload_of (on_tool_call toolCall) (call_payloads toolCall).
Proof.
  intros s. unfold on_tool_call, call_payloads. rewrite seq_run. simpl. rewrite omap_app.
  unfold when_ at 1 3.
  destruct (truthy (tc_id toolCall)), (truthy (tc_function toolCall ≫= fn_arguments));
    simpl; rewrite ?seq_run; simpl; unfold when_; try done;
    by destruct (Map_has _ _).
Qed.

Lemma on_delta_payloads (d : Delta) :
  yields payload_of (on_delta d)
    (if truthy (content d) then [text_delta (or_else (content d) "")]
     else if truthy (reasoning_content d)
     then [thinking_delta (or_else (reasoning_content d) "")]
     else flat_map call_payloads (tool_calls d)).
Proof.
  destruct (stop_blocks_silent payload_of true (fun _ => eq_refl) (fun _ => eq_refl))
    as (Hth & Hts & Htb).
  unfold on_delta. destruct (truthy (content d)).
  { unfold on_content.
    apply (yields_seq _ _ _ [] _ (yields_silent _ _ Hth)).
    apply (yields_seq _ _ _ [] _ (yields_silent _ _ Htb)).
    apply (yields_seq _ _ _ [] [_]); [apply yields_silent; auto 12 with events|done]. }
  destruct (truthy (reasoning_content d)).
  { unfold on_reasoning.
    apply (yields_seq _ _ _ [] _ (yields_silent _ _ Hts)).
    apply (yields_seq _ _ _ [] _ (yields_silent _ _ Htb)).
    apply (yields_seq _ _ _ [] [_]); [apply yields_silent; auto 12 with events|done]. }
  destruct (tool_calls d) as [|toolCall calls] eqn:E; [done|]. rewrite <- E.
  unfold on_tool_calls.
  apply (yields_seq _ _ _ [] _ (yields_silent _ _ Hts)).
  apply (yields_seq _ _ _ [] _ (yields_silent _ _ Hth)).
  apply yields_for_each, on_tool_call_payloads.
Qed.

Lemma frame_silent {B : Type} (p : event -> option B)
    (sessionId : option string) (c : OpenAIChunk) (d : Delta) (reason : option string) :
  (forall i, p (content_block_stop i) = None) ->
  (forall i, p (content_block_delta i (signature_delta "")) = None) ->
  (forall id m, p (message_start id m) = None) ->
  (forall sr sq it ot, p (message_delta sr sq it ot) = None) ->
  emits_only (silent p) (start_message sessionId c d)
  /\ emits_only (silent p) (on_finish reason).
Proof.
  intros Hstop Hsig Hstart Hmd.
  destruct (stop_blocks_silent p false Hstop Hsig) as (Hth & Hts & Htb).
  assert (H1 : forall id m, silent p (message_start id m) = true)
    by (intros; unfold silent; by rewrite Hstart).
  assert (H2 : forall sr sq it ot, silent p (message_delta sr sq it ot) = true)
    by (intros; unfold silent; by rewrite Hmd).
  unfold start_message, on_finish. split; auto 14 with events.
Qed.

Lemma convert_event_payloads (sessionId : option string) (c : OpenAIChunk) :
  yields payload_of (convert_event sessionId c) (chunk_payloads c).
Proof.
  unfold convert_event, chunk_payloads. destruct (choices c) as [|choice rest]; [done|].
  destruct (frame_silent payload_of sessionId c (delta choice) (finish_reason choice))
    as (Hstart & Hfinish); try done.
  apply (yields_seq _ _ _ [] _ (yields_silent _ _ Hstart)).
  rewrite <- (app_nil_r (if truthy _ then _ else _)).
  apply yields_seq; [apply on_delta_payloads|].
  apply (yields_seq _ _ _ [] []); [|by apply yields_silent].
  intros s. by rewrite (proj1 (record_usage_blocks (usage c) s)).
Qed.

Lemma run_session_payloads (sessionId : option string) (chunks : list OpenAIChunk) :
  yields payload_of (run_session sessionId chunks) (flat_map chunk_payloads chunks).
Proof.
  induction chunks as [|c chunks IH]; [done|].
  simpl. apply yields_seq; [apply convert_event_payloads|done].
Qed.

(** ** Argument fragments keep their upstream index *)

Lemma on_tool_call_fragments (toolCall : ToolCallDelta) :
  yields fragment_of (on_tool_call toolCall)
    (if truthy (tc_function toolCall ≫= fn_arguments)
     then [(default 0 (tc_index toolCall),
            or_else (tc_function toolCall ≫= fn_arguments) "")]
     else []).
Proof.
  intros s. unfold on_tool_call. rewrite seq_run. simpl. rewrite omap_app.
  unfold when_ at 1 3.
  destruct (truthy (tc_id toolCall)), (truthy (tc_function toolCall ≫= fn_arguments));
    simpl; rewrite ?seq_run; simpl; unfold when_; try done;
    by destruct (Map_has _ _).
Qed.

Lemma on_delta_fragments (d : Delta) :
  yields fragment_of (on_delta d)
    (if truthy (content d) || truthy (reasoning_content d) then []
     else flat_map (fun toolCall =>
                      if truthy (tc_function toolCall ≫= fn_arguments)
                      then [(default 0 (tc_index toolCall),
                             or_else (tc_function toolCall ≫= fn_arguments) "")]
                      else [])
                   (tool_calls d)).
Proof.
  destruct (stop_blocks_silent fragment_of true (fun _ => eq_refl) (fun _ => eq_refl))
    as (Hth & Hts & Htb).
  unfold on_delta. destruct (truthy (content d)).
  { unfold on_content. apply yields_silent. auto 14 with events. }
  destruct (truthy (reasoning_content d)).
  { unfold on_reasoning. apply yields_silent. auto 14 with events. }
  simpl. destruct (tool_calls d) as [|toolCall calls] eqn:E; [done|]. rewrite <- E.
  unfold on_tool_calls.
  apply (yields_seq _ _ _ [] _ (yields_silent _ _ Hts)).
  apply (yields_seq _ _ _ [] _ (yields_silent _ _ Hth)).
  apply yields_for_each, on_tool_call_fragments.
Qed.

Lemma convert_event_fragments (sessionId : option string) (c : OpenAIChunk) :
  yields fragment_of (convert_event sessionId c) (chunk_fragments c).
Proof.
  unfold convert_event, chunk_fragments. destruct (choices c) as [|choice rest]; [done|].
  destruct (frame_silent fragment_of sessionId c (delta choice) (finish_reason choice))
    as (Hstart & Hfinish); try done.
  apply (yields_seq _ _ _ [] _ (yields_silent _ _ Hstart)).
  rewrite <- (app_nil_r (if _ || _ then _ else _)).
  apply yields_seq; [apply on_delta_fragments|].
  apply (yields_seq _ _ _ [] []); [|by apply yields_silent].
  intros s. by rewrite (proj1 (record_usage_blocks (usage c) s)).
Qed.

Lemma run_session_fragments (sessionId : option string) (chunks : list OpenAIChunk) :
  yields fragment_of (run_session sessionId chunks) (flat_map chunk_fragments chunks).
Proof.
  induction chunks as [|c chunks IH]; [done|].
  simpl. apply yields_seq; [apply convert_event_fragments|done].
Qed.

End StreamTraces.

(** X3. A session that starts from a fresh state emits exactly one
    [message_start] if some chunk carries a truthy [delta.role] in its
    first choice, and none otherwise; later roles do not repeat it. *)
Theorem message_start_once
    (sessionId : option string) (chunks : list Stream.OpenAIChunk) :
  Trace.count Trace.is_message_start
    (Stream.run_session sessionId chunks Stream.initial_state).1
  = if existsb Trace.carries_role chunks then 1 else 0.
Proof. by rewrite run_session_message_start. Qed.

(** X4. The upstream content passes through in order and unchanged: the
    text, thinking and tool-argument deltas of the emitted events are, in
    order, what the chunks carry (text before reasoning before tool calls
    within one chunk), from whatever state the session starts. The
    translator adds only the empty [signature_delta]. *)
Theorem payloads_pass_in_order
    (sessionId : option string) (chunks : list Stream.OpenAIChunk)
    (s : Stream.StreamState) :
  omap Payload.payload_of (Stream.run_session sessionId chunks s).1
  = flat_map Payload.chunk_payloads chunks.
Proof. apply run_session_payloads. Qed.

(** X5. Every [input_json_delta] is sent at the upstream index of its tool
    call ([toolCall.index ?? 0]) with the arguments fragment unchanged, in
    upstream order; a chunk that also carries text or reasoning sends no
    fragment. *)
Theorem fragments_keep_upstream_index
    (sessionId : option string) (chunks : list Stream.OpenAIChunk)
    (s : Stream.StreamState) :
  omap Payload.fragment_of (Stream.run_session sessionId chunks s).1
  = flat_map Payload.chunk_fragments chunks.
Proof. apply run_session_fragments. Qed.

Section StreamFields.
Import Js Stream Trace Payload.

Create HintDb fields.
#[local] Hint Resolve emits_only_skip emits_only_update emits_only_emit emits_only_read
  emits_only_seq emits_only_when emits_only_for_each emits_only_if : fields.
#[local] Hint Extern 1 (_ = true) => reflexivity : fields.

Lemma _mapStopReason_table (openaiReason : option string) :
  _mapStopReason openaiReason = mapped_stop_reason openaiReason.
Proof.
  destruct openaiReason as [r|]; [|done]. unfold mapped_stop_reason.
  destruct (String.eqb_spec r "stop") as [->|N1]; [done|].
  destruct (String.eqb_spec r "length") as [->|N2]; [done|].
  destruct (String.eqb_spec r "tool_calls") as [->|N3]; [done|].
  destruct (String.eqb_spec r "function_call") as [->|N4]; [done|].
  destruct (String.eqb_spec r "content_filter") as [->|N5]; [done|].
  cbn [orb]. unfold _mapStopReason.
  repeat match goal with
         | |- context [match ?x with _ => _ end] => is_var x; destruct x
         end; try reflexivity; congruence.
Qed.

Lemma _mapStopReason_range (openaiReason : option string) :
  existsb (String.eqb (_mapStopReason openaiReason))
          ["end_turn"; "max_tokens"; "tool_use"; "refusal"] = true.
Proof.
  rewrite _mapStopReason_table. destruct openaiReason as [r|]; [|done].
  unfold mapped_stop_reason.
  destruct (String.eqb r "stop"); [done|].
  destruct (String.eqb r "length"); [done|].
  destruct (String.eqb r "tool_calls" || String.eqb r "function_call"); [done|].
  by destruct (String.eqb r "content_filter").
Qed.

Lemma convert_event_message_delta (sessionId : option string) (c : OpenAIChunk) :
  emits_only well_formed_message_delta (convert_event sessionId c).
Proof.
  unfold convert_event. destruct (choices c) as [|choice rest]; [auto with fields|].
  assert (H1 : emits_only well_formed_message_delta
                 (start_message sessionId c (delta choice))).
  { apply (emits_only_mono is_message_start); [by intros []|apply start_message_emits]. }
  assert (H2 : emits_only well_formed_message_delta (on_delta (delta choice))).
  { apply (emits_only_mono is_block_event); [by intros []|apply on_delta_emits]. }
  assert (H3 : emits_only well_formed_message_delta (record_usage (usage c))).
  { intros s. by rewrite (proj1 (record_usage_blocks (usage c) s)). }
  assert (H4 : emits_only well_formed_message_delta (on_finish (finish_reason choice))).
  { assert (Hb : forall f, emits_only is_block_event f ->
                           emits_only well_formed_message_delta f).
    { intros f. apply emits_only_mono. by intros []. }
    pose proof (stop_thinking_block_emits false) as B1.
    pose proof (stop_text_block_emits false) as B2.
    pose proof (stop_tool_blocks_emits false) as B3.
    assert (Hmd : forall s : StreamState,
               well_formed_message_delta
                 (message_delta (_mapStopReason (finish_reason choice)) None 0
                    (inputTokens s + outputTokens s)) = true).
    { intros s. unfold well_formed_message_delta. by rewrite _mapStopReason_range. }
    unfold on_finish. auto 12 with fields. }
  auto with fields.
Qed.

Lemma run_session_message_delta (sessionId : option string) (chunks : list OpenAIChunk) :
  emits_only well_formed_message_delta (run_session sessionId chunks).
Proof.
  induction chunks as [|c chunks IH]; simpl; [auto with fields|].
  apply emits_only_seq; [apply convert_event_message_delta|done].
Qed.

(** ** The block index never goes back *)

Lemma grows_skip : grows skip.
Proof. by intros s. Qed.

Lemma grows_emit (e : event) : grows (emit e).
Proof. by intros s. Qed.

Lemma grows_update (f : StreamState -> StreamState) :
  (forall s, contentBlockIndex s <= contentBlockIndex (f s)) -> grows (update f).
Proof. intros H s. apply H. Qed.

Lemma grows_read (k : StreamState -> Step) : (forall s, grows (k s)) -> grows (read k).
Proof. intros H s. apply H. Qed.

Lemma grows_seq (f g : Step) : grows f -> grows g -> grows (f ;; g).
Proof.
  intros Hf Hg s. rewrite seq_run. simpl.
  specialize (Hf s). specialize (Hg (f s).2). lia.
Qed.

Lemma grows_when (c : StreamState -> bool) (f : Step) : grows f -> grows (when_ c f).
Proof. intros Hf s. unfold when_. destruct (c s); [apply Hf|done]. Qed.

Lemma grows_for_each {A : Type} (l : list A) (body : A -> Step) :
  (forall x, grows (body x)) -> grows (for_each l body).
Proof.
  intros H. induction l as [|x l IH]; simpl; [apply grows_skip|by apply grows_seq].
Qed.

Lemma grows_if (b : bool) (f g : Step) : grows f -> grows g -> grows (if b then f else g).
Proof. by destruct b. Qed.

Lemma Math_max_ge (x : nat) (ys : list nat) : x <= Math_max x ys.
Proof.
  unfold Math_max. revert x. induction ys as [|y ys IH]; intros x; simpl; [done|].
  specialize (IH (Nat.max x y)). lia.
Qed.

Create HintDb grows.
#[local] Hint Resolve grows_skip grows_emit grows_update grows_read grows_seq grows_when
  grows_for_each grows_if : grows.
#[local] Hint Extern 1 (forall s : StreamState, _ <= _) =>
  (intros []; simpl; try lia; try (pose proof Math_max_ge; eauto with lia)) : grows.

Lemma on_delta_grows (d : Delta) : grows (on_delta d).
Proof.
  assert (Hmax : forall s, contentBlockIndex s
                 <= contentBlockIndex
                      (set_contentBlockIndex
                         (Math_max (contentBlockIndex s) (Map_keys (toolBlocks s)) + 1) s)).
  { intros []. simpl. pose proof (Math_max_ge contentBlockIndex0 (Map_keys toolBlocks0)). lia. }
  unfold on_delta, on_content, on_reasoning, stop_thinking_block, stop_text_block,
    stop_tool_blocks.
  destruct (tool_calls d); unfold on_tool_calls, on_tool_call, stop_thinking_block,
    stop_text_block; auto 20 with grows.
Qed.

Lemma convert_event_grows (sessionId : option string) (c : OpenAIChunk) (s : StreamState) :
  messageStarted s = true ->
  contentBlockIndex s <= contentBlockIndex (convert_event sessionId c s).2
  /\ messageStarted (convert_event sessionId c s).2 = true.
Proof.
  intros Hms. split.
  - unfold convert_event. destruct (choices c) as [|choice rest]; [done|].
    rewrite seq_run. simpl.
    assert (Hs : start_message sessionId c (delta choice) s = ([], s)).
    { unfold start_message, when_. by rewrite Hms, andb_false_r. }
    rewrite Hs. simpl.
    assert (Hg : grows (on_delta (delta choice) ;; record_usage (usage c) ;;
                        on_finish (finish_reason choice))).
    { apply grows_seq; [apply on_delta_grows|]. apply grows_seq.
      - unfold record_usage. destruct (usage c); auto 10 with grows.
      - unfold on_finish, stop_thinking_block, stop_text_block, stop_tool_blocks.
        auto 20 with grows. }
    apply Hg.
  - rewrite (proj2 (convert_event_message_start sessionId c s)). by rewrite Hms.
Qed.

Lemma run_session_grows (sessionId : option string) (chunks : list OpenAIChunk)
    (s : StreamState) :
  messageStarted s = true ->
  contentBlockIndex s <= contentBlockIndex (run_session sessionId chunks s).2.
Proof.
  revert s. induction chunks as [|c chunks IH]; intros s Hms; [done|].
  simpl. rewrite seq_run. simpl.
  destruct (convert_event_grows sessionId c s Hms) as [Hle Hms'].
  specialize (IH _ Hms'). lia.
Qed.

End StreamFields.

(** X6. Every [message_delta] a session emits, from whatever state,
    carries a stop reason among [end_turn], [max_tokens], [tool_use] and
    [refusal], a null [stop_sequence] and [input_tokens] 0, however unknown
    the upstream finish reasons are. The finish reasons are taken not to
    name a member of [Object.prototype], which the lookup of the source
    would find and the table of own keys does not hold. *)
Theorem message_delta_fields
    (sessionId : option string) (chunks : list Stream.OpenAIChunk) (s : Stream.StreamState)
    (stop_reason : string) (stop_sequence : option string) (input_tokens output_tokens : Z) :
  forallb Payload.plain_finish chunks = true ->
  In (Stream.message_delta stop_reason stop_sequence input_tokens output_tokens)
     (Stream.run_session sessionId chunks s).1 ->
  In stop_reason ["end_turn"; "max_tokens"; "tool_use"; "refusal"]
  /\ stop_sequence = None /\ input_tokens = 0%Z.
Proof.
  intros _ Hin. pose proof (run_session_message_delta sessionId chunks s) as H.
  rewrite forallb_forall in H. specialize (H _ Hin).
  unfold Payload.well_formed_message_delta in H.
  apply andb_true_iff in H as [[Hsr Hsq]%andb_true_iff Hit]. split; [|split].
  - apply existsb_exists in Hsr as (x & Hx & Heq). apply String.eqb_eq in Heq. by subst.
  - by destruct stop_sequence.
  - by apply Z.eqb_eq.
Qed.

Lemma message_delta_fields_witness :
  In "end_turn" ["end_turn"; "max_tokens"; "tool_use"; "refusal"]
  /\ @None string = None /\ 0%Z = 0%Z.
Proof.
  apply (message_delta_fields (Some "s") Sample.text_session Stream.initial_state
           "end_turn" None 0%Z 3%Z); [reflexivity|].
  simpl. right. right. right. right. right. by left.
Defined.

(** X7. Once the message has started, [contentBlockIndex] never
    decreases, whatever chunks follow. *)
Theorem block_index_never_decreases
    (sessionId : option string) (chunks : list Stream.OpenAIChunk) (s : Stream.StreamState) :
  Stream.messageStarted s = true ->
  Stream.contentBlockIndex s
  <= Stream.contentBlockIndex (Stream.run_session sessionId chunks s).2.
Proof. apply run_session_grows. Qed.

Lemma block_index_never_decreases_witness :
  Stream.contentBlockIndex Sample.two_tools_open
  <= Stream.contentBlockIndex
       (Stream.run_session (Some "s") [Sample.chunk_of (Sample.text_of "x") None None]
          Sample.two_tools_open).2.
Proof.
  exact (block_index_never_decreases (Some "s")
           [Sample.chunk_of (Sample.text_of "x") None None] Sample.two_tools_open eq_refl).
Defined.

(** * Properties of the reframer and of the session table *)

Section Splitting.
Import Js Reframe.

Lemma append_cons (c : Ascii.ascii) (s t : string) :
  String c s +:+ t = String c (s +:+ t).
Proof. reflexivity. Qed.

Lemma append_nil_r (s : string) : s +:+ "" = s.
Proof. induction s as [|c s IH]; [done|]. by rewrite append_cons, IH. Qed.

Lemma append_assoc (a b c : string) : (a +:+ b) +:+ c = a +:+ (b +:+ c).
Proof. induction a as [|x a IH]; [done|]. by rewrite !append_cons, IH. Qed.

Lemma append_snoc (a : string) (c : Ascii.ascii) (s : string) :
  (a +:+ String c "") +:+ s = a +:+ String c s.
Proof. by rewrite append_assoc. Qed.

Lemma startsWith_app (p s t : string) :
  startsWith p s = true -> startsWith p (s +:+ t) = true.
Proof.
  revert s. induction p as [|a p IH]; intros s H; [done|].
  destruct s as [|b s]; [done|]. rewrite append_cons. simpl in *.
  destruct (Ascii.eqb a b); [by apply IH|done].
Qed.

Lemma startsWith_length (p s : string) :
  startsWith p s = true -> String.length p <= String.length s.
Proof.
  revert s. induction p as [|a p IH]; intros s H; simpl; [lia|].
  destruct s as [|b s]; [done|]. simpl in *.
  destruct (Ascii.eqb a b); [|done]. specialize (IH s H). lia.
Qed.

Lemma startsWith_app_false (p s t : string) :
  startsWith p s = false -> String.length p <= String.length s ->
  startsWith p (s +:+ t) = false.
Proof.
  revert s. induction p as [|a p IH]; intros s H Hlen; [done|].
  destruct s as [|b s]; [simpl in Hlen; lia|]. rewrite append_cons. simpl in *.
  destruct (Ascii.eqb a b); [apply IH; [done|lia]|done].
Qed.

Lemma split_go_nonempty (sep s : string) (skip : nat) (cur : string) :
  split_go sep s skip cur <> [].
Proof.
  revert skip cur. induction s as [|c s IH]; intros skip cur; [done|].
  simpl. destruct skip as [|k]; [|apply IH].
  destruct (startsWith sep (String c s)); [done|apply IH].
Qed.

Lemma split_go_short (sep s cur : string) :
  String.length s < String.length sep -> split_go sep s 0 cur = [cur +:+ s].
Proof.
  revert cur. induction s as [|c s IH]; intros cur Hlen.
  { simpl. by rewrite append_nil_r. }
  cbn [split_go].
  destruct (startsWith sep (String c s)) eqn:E.
  { apply startsWith_length in E. lia. }
  rewrite IH by (simpl in Hlen; lia). by rewrite append_snoc.
Qed.

Lemma split_go_no_occurrence (sep s cur : string) :
  occurs sep s = false -> split_go sep s 0 cur = [cur +:+ s].
Proof.
  revert cur. induction s as [|c s IH]; intros cur H.
  { simpl. by rewrite append_nil_r. }
  cbn [split_go]. cbn [occurs] in H. apply orb_false_iff in H as [H1 H2].
  rewrite H1, IH by done. by rewrite append_snoc.
Qed.

Lemma clean_snoc (sep cur : string) (c : Ascii.ascii) (t : string) :
  clean sep cur (String c t) -> startsWith sep (String c t) = false ->
  clean sep (cur +:+ String c "") t.
Proof.
  intros Hc Hs. induction cur as [|d cur IH].
  { change ("" +:+ String c "") with (String c ""). cbn [clean].
    change (String c "" +:+ t) with (String c t). by split. }
  cbn [clean] in Hc. destruct Hc as [H1 H2].
  rewrite append_cons. cbn [clean]. split; [|by apply IH].
  rewrite <- append_cons. by rewrite append_snoc.
Qed.

(** Scanning a clean prefix again only collects it. *)
Lemma split_go_rescan (sep cur t acc : string) :
  clean sep cur t -> split_go sep (cur +:+ t) 0 acc = split_go sep t 0 (acc +:+ cur).
Proof.
  revert acc. induction cur as [|c cur IH]; intros acc Hc.
  { change ("" +:+ t) with t. by rewrite append_nil_r. }
  cbn [clean] in Hc. destruct Hc as [H1 H2].
  rewrite append_cons in *.
  cbn [split_go]. rewrite H1. rewrite IH by done. by rewrite append_snoc.
Qed.

Lemma removelast_cons {A : Type} (x : A) (l : list A) :
  l <> [] -> removelast (x :: l) = x :: removelast l.
Proof. by destruct l. Qed.

Lemma last_cons_ne {A : Type} (x : A) (l : list A) : l <> [] -> last (x :: l) = last l.
Proof. by destruct l. Qed.

Lemma split_go_app (sep b : string) (s : string) (skip : nat) (cur : string) :
  skip <= String.length s ->
  match skip with 0 => clean sep cur (s +:+ b) | S _ => cur = "" end ->
  split_go sep (s +:+ b) skip cur
  = removelast (split_go sep s skip cur)
    ++ split_go sep (default "" (last (split_go sep s skip cur)) +:+ b) 0 "".
Proof.
  revert skip cur. induction s as [|c s IH]; intros skip cur Hskip Hinv.
  { destruct skip; [|simpl in Hskip; lia]. change ("" +:+ b) with b in *.
    cbn [split_go removelast last default app]. unfold id.
    rewrite split_go_rescan by done. by change ("" +:+ cur) with cur. }
  rewrite append_cons in *.
  destruct skip as [|k].
  - cbn [split_go].
    destruct (startsWith sep (String c s)) eqn:E.
    + pose proof (startsWith_app _ _ b E) as E'.
      rewrite append_cons in E'. rewrite E'.
      pose proof (startsWith_length _ _ E) as Hlen. simpl in Hlen.
      rewrite removelast_cons, last_cons_ne by apply split_go_nonempty.
      cbn [app]. f_equal. apply IH; [lia|]. by destruct (String.length sep - 1).
    + destruct (startsWith sep (String c (s +:+ b))) eqn:E'.
      * assert (Hlen : String.length (String c s) < String.length sep).
        { destruct (decide (String.length sep <= String.length (String c s))) as [Hle|]; [|lia].
          pose proof (startsWith_app_false _ _ b E Hle) as Hf.
          rewrite append_cons in Hf. congruence. }
        pose proof (split_go_short sep (String c s) cur Hlen) as Hshort.
        cbn [split_go] in Hshort. rewrite E in Hshort. rewrite Hshort.
        cbn [removelast last default app]. unfold id.
        rewrite append_assoc, append_cons.
        rewrite split_go_rescan by done. change ("" +:+ cur) with cur.
        cbn [split_go]. by rewrite E'.
      * apply IH; [lia|]. by apply clean_snoc.
  - cbn [split_go]. subst cur. apply IH; [simpl in Hskip; lia|]. by destruct k.
Qed.

(** Cutting [s +:+ b] is cutting [s], then cutting its last piece
    followed by [b]. *)
Lemma split_app (sep s b : string) :
  split sep (s +:+ b)
  = removelast (split sep s) ++ split sep (default "" (last (split sep s)) +:+ b).
Proof. unfold split. apply split_go_app; [lia|done]. Qed.

End Splitting.

Section Reframing.
Import Js Stream Converter Dispatch Reframe.
Variable JSON_parse : string -> ParseResult.
Variable sessionId : string.

Lemma write_frame_buffer (frame : string) (b b' : string) (r : list event)
    (t : gmap string StreamState) :
  write_frame JSON_parse sessionId {| buffer := b; res := r; _streamStates := t |} frame
  = {| buffer := b;
       res := res (write_frame JSON_parse sessionId
                     {| buffer := b'; res := r; _streamStates := t |} frame);
       _streamStates :=
         _streamStates (write_frame JSON_parse sessionId
                          {| buffer := b'; res := r; _streamStates := t |} frame) |}.
Proof.
  unfold write_frame. cbn [buffer res _streamStates].
  destruct (negb (blank frame)); [|done].
  by destruct (convertStreamChunk JSON_parse t frame (Some sessionId)).
Qed.

Lemma write_frames_buffer (frames : list string) (b b' : string) (r : list event)
    (t : gmap string StreamState) :
  foldl (write_frame JSON_parse sessionId)
        {| buffer := b; res := r; _streamStates := t |} frames
  = {| buffer := b;
       res := res (foldl (write_frame JSON_parse sessionId)
                     {| buffer := b'; res := r; _streamStates := t |} frames);
       _streamStates :=
         _streamStates (foldl (write_frame JSON_parse sessionId)
                          {| buffer := b'; res := r; _streamStates := t |} frames) |}.
Proof.
  revert r t. induction frames as [|frame frames IH]; intros r t; [done|].
  cbn [foldl].
  rewrite (write_frame_buffer frame b b'), (write_frame_buffer frame b' b').
  apply IH.
Qed.

Lemma removelast_app_ne {A : Type} (l1 l2 : list A) :
  l2 <> [] -> removelast (l1 ++ l2) = l1 ++ removelast l2.
Proof. intros H. by apply removelast_app. Qed.

Lemma last_app_ne {A : Type} (l1 l2 : list A) : l2 <> [] -> last (l1 ++ l2) = last l2.
Proof.
  intros H. induction l1 as [|x l1 IH]; [done|].
  cbn [app]. rewrite last_cons_ne; [done|]. by destruct l1.
Qed.

(** Where the upstream cuts its chunks does not matter. *)
Lemma on_data_app (h : Handler) (a b : string) :
  on_data JSON_parse sessionId (on_data JSON_parse sessionId h a) b
  = on_data JSON_parse sessionId h (a +:+ b).
Proof.
  destruct h as [buf r t].
  remember (on_data JSON_parse sessionId
              {| buffer := buf; res := r; _streamStates := t |} a) as h1 eqn:Hh1.
  unfold on_data in Hh1. cbn [buffer res _streamStates] in Hh1.
  set (lines1 := split _ (buf +:+ a)) in Hh1.
  assert (Hbuf : buffer h1 = default "" (last lines1)).
  { subst h1. by rewrite (write_frames_buffer _ _ ""). }
  unfold on_data. cbn [buffer res _streamStates]. rewrite Hbuf.
  rewrite <- append_assoc, (split_app _ (buf +:+ a) b). fold lines1.
  rewrite removelast_app_ne, last_app_ne by apply split_go_nonempty.
  rewrite foldl_app. f_equal.
  subst h1. symmetry. apply write_frames_buffer.
Qed.

Lemma on_data_chunks (h : Handler) (a : string) (chunks : list string) :
  foldl (on_data JSON_parse sessionId) h (a :: chunks)
  = on_data JSON_parse sessionId h (a +:+ String.concat "" chunks).
Proof.
  revert h a. induction chunks as [|b chunks IH]; intros h a.
  { simpl. by rewrite append_nil_r. }
  cbn [foldl]. cbn [foldl] in IH. rewrite IH, on_data_app.
  f_equal. destruct chunks; [simpl; by rewrite append_nil_r|done].
Qed.

End Reframing.

Section LinesMore.
Import Js Stream Converter Dispatch Reframe.
Variable JSON_parse : string -> ParseResult.

Lemma convert_line_ignored (sessionId : option string)
    (acc : list event * gmap string StreamState) (line : string) :
  ignored JSON_parse line = true -> convert_line JSON_parse sessionId acc line = acc.
Proof.
  destruct acc as [evs t]. unfold ignored, convert_line.
  destruct (startsWith "data: " line); [|done].
  destruct (String.eqb (substring_from 6 line) "[DONE]"); [done|].
  by destruct (JSON_parse (substring_from 6 line)).
Qed.

Lemma convert_lines_filter (sessionId : option string) (lines : list string)
    (acc : list event * gmap string StreamState) :
  foldl (convert_line JSON_parse sessionId) acc lines
  = foldl (convert_line JSON_parse sessionId) acc
          (List.filter (fun line => negb (ignored JSON_parse line)) lines).
Proof.
  revert acc. induction lines as [|line lines IH]; intros acc; [done|].
  cbn [foldl List.filter]. destruct (ignored JSON_parse line) eqn:E; cbn [negb foldl].
  - rewrite convert_line_ignored by done. apply IH.
  - apply IH.
Qed.

Lemma blank_not_data (line : string) : blank line = true -> startsWith "data: " line = false.
Proof.
  destruct line as [|c line]; [done|]. simpl. intros [Hc _]%andb_true_iff.
  destruct c as [[] [] [] [] [] [] [] []]; done.
Qed.

Lemma blank_snoc (cur : string) (c : Ascii.ascii) :
  blank cur = true -> is_space c = true -> blank (cur +:+ String c "") = true.
Proof.
  intros Hcur Hc. induction cur as [|d cur IH]; [simpl; by rewrite Hc|].
  rewrite append_cons. simpl in *. apply andb_true_iff in Hcur as [Hd Hcur].
  by rewrite Hd, IH.
Qed.

Lemma split_go_blank (sep s : string) (skip : nat) (cur : string) :
  blank s = true -> blank cur = true ->
  Forall (fun piece => blank piece = true) (split_go sep s skip cur).
Proof.
  revert skip cur. induction s as [|c s IH]; intros skip cur Hs Hcur.
  { by constructor. }
  simpl in Hs. apply andb_true_iff in Hs as [Hc Hs].
  cbn [split_go]. destruct skip as [|k]; [|by apply IH].
  destruct (startsWith sep (String c s)).
  - constructor; [done|]. by apply IH.
  - apply IH; [done|]. by apply blank_snoc.
Qed.

Lemma blank_lines_ignored (chunk : string) :
  blank chunk = true ->
  List.filter (fun line => negb (ignored JSON_parse line)) (split "
" chunk) = [].
Proof.
  intros Hb. pose proof (split_go_blank "
" chunk 0 "" Hb eq_refl) as H. fold (split "
" chunk) in H.
  induction H as [|line lines Hline _ IH]; [done|].
  cbn [List.filter]. unfold ignored at 1. by rewrite (blank_not_data line Hline).
Qed.

Lemma convert_line_done (sessionId : option string) (evs : list event)
    (t : gmap string StreamState) :
  convert_line JSON_parse sessionId (evs, t) "data: [DONE]"
  = (evs ++ [message_stop], delete (session_key sessionId) t).
Proof.
  unfold convert_line, _resetStreamState. rewrite session_key_idem. reflexivity.
Qed.

End LinesMore.

Section WholeStream.
Import Js Stream Converter Dispatch.

(** Reading the chunk strings one by one, or their concatenation at once. *)
Lemma stream_request_concat (JSON_parse : string -> ParseResult) (sessionId : string)
    (table : gmap string StreamState) (chunks : list string) :
  stream_request JSON_parse sessionId table chunks
  = stream_request JSON_parse sessionId table [String.concat "" chunks].
Proof.
  unfold stream_request. f_equal.
  destruct chunks as [|a chunks]; [done|].
  rewrite on_data_chunks. cbn [foldl]. f_equal.
  destruct chunks; [simpl; by rewrite append_nil_r|done].
Qed.

End WholeStream.

Section Buffers.
Import Js Stream Converter.

Lemma stream_request_decoded (toString : list Byte.byte -> string)
    (JSON_parse : string -> ParseResult) (sessionId : string)
    (table : gmap string StreamState) (chunks : list (list Byte.byte)) :
  Upstream.stream_request toString JSON_parse sessionId table chunks
  = Dispatch.stream_request JSON_parse sessionId table (map toString chunks).
Proof.
  unfold Upstream.stream_request, Dispatch.stream_request. f_equal.
  generalize {| Dispatch.buffer := ""; Dispatch.res := [];
                Dispatch._streamStates := table |} as h.
  induction chunks as [|chunk chunks IH]; intros h; [done|].
  cbn [foldl map]. by rewrite IH.
Qed.

End Buffers.

(** X8. The result of a request depends on the text the ['data'] listener
    appends to its buffer, not on where the upstream cuts it, as long as
    no chunk ends inside a character: when decoding the chunks one by one
    with [chunk.toString()] reads the text that decoding their
    concatenation reads, handling the chunks one by one leaves the handler
    where handling their concatenation at once does. *)
Theorem cuts_at_characters_do_not_matter
    (toString : list Byte.byte -> string)
    (JSON_parse : string -> Converter.ParseResult) (sessionId : string)
    (table : gmap string Stream.StreamState) (chunks : list (list Byte.byte)) :
  Upstream.cut_at_characters toString chunks ->
  Upstream.stream_request toString JSON_parse sessionId table chunks
  = Upstream.stream_request toString JSON_parse sessionId table [concat chunks].
Proof.
  unfold Upstream.cut_at_characters. intros Hcut.
  rewrite !stream_request_decoded, stream_request_concat, Hcut.
  cbn [map]. rewrite (stream_request_concat _ _ _ [toString (concat chunks)]).
  cbn [String.concat]. reflexivity.
Qed.

Lemma cuts_at_characters_do_not_matter_witness :
  Upstream.stream_request String.string_of_list_byte Sample.parse_demo "s" ∅
    [String.list_byte_of_string "data: ro"; String.list_byte_of_string "le

"]
  = Upstream.stream_request String.string_of_list_byte Sample.parse_demo "s" ∅
      [concat [String.list_byte_of_string "data: ro"; String.list_byte_of_string "le

"]].
Proof.
  apply (cuts_at_characters_do_not_matter String.string_of_list_byte Sample.parse_demo "s" ∅
           [String.list_byte_of_string "data: ro"; String.list_byte_of_string "le

"]).
  reflexivity.
Defined.

(** X9. Only frames closed by a blank line are translated: when the
    upstream text contains no blank line at all, nothing of it reaches the
    client, the session table is untouched, and the ['end'] listener's
    [message_stop] is the only event written; the unterminated text stays
    in the buffer. *)
Theorem unterminated_frame_is_dropped
    (JSON_parse : string -> Converter.ParseResult) (sessionId : string)
    (table : gmap string Stream.StreamState) (chunks : list string) :
  Reframe.occurs "

" (String.concat "" chunks) = false ->
  Dispatch.stream_request JSON_parse sessionId table chunks
  = {| Dispatch.buffer := String.concat "" chunks;
       Dispatch.res := [Stream.message_stop];
       Dispatch._streamStates := table |}.
Proof.
  intros Hocc. rewrite stream_request_concat.
  unfold Dispatch.stream_request, Dispatch.on_data. cbn [foldl Dispatch.buffer].
  change ("" +:+ String.concat "" chunks) with (String.concat "" chunks).
  unfold Js.split. rewrite (split_go_no_occurrence _ _ "" Hocc).
  by change ("" +:+ String.concat "" chunks) with (String.concat "" chunks).
Qed.

Lemma unterminated_frame_is_dropped_witness :
  Dispatch.stream_request Sample.parse_demo "s" ∅ ["data: ro"; "le"]
  = {| Dispatch.buffer := "data: role";
       Dispatch.res := [Stream.message_stop];
       Dispatch._streamStates := ∅ |}.
Proof.
  exact (unterminated_frame_is_dropped Sample.parse_demo "s" ∅ ["data: ro"; "le"] eq_refl).
Defined.

(** X10. Lines that are not [data: ] lines, and data lines whose payload
    does not parse, have no effect: [convertStreamChunk] returns the events
    and the table it returns for the chunk's other lines alone, so such a
    line neither emits anything nor disturbs the lines after it. *)
Theorem ignored_lines_have_no_effect
    (JSON_parse : string -> Converter.ParseResult)
    (table : gmap string Stream.StreamState) (chunk : string) (sessionId : option string) :
  Converter.convertStreamChunk JSON_parse table chunk sessionId
  = foldl (Converter.convert_line JSON_parse sessionId) ([], table)
          (List.filter (fun line => negb (Reframe.ignored JSON_parse line))
                       (Js.split "
" chunk)).
Proof.
  unfold Converter.convertStreamChunk. destruct (Js.blank chunk) eqn:Hb.
  - by rewrite blank_lines_ignored.
  - apply convert_lines_filter.
Qed.

(** X11. The [[DONE]] line emits [message_stop] and deletes the session's
    entry, so whatever the session's state was, the next chunk under the
    same id is translated as the first chunk of a new session. *)
Theorem done_discards_session_state
    (JSON_parse : string -> Converter.ParseResult)
    (table : gmap string Stream.StreamState) (chunk : string) (sessionId : option string) :
  Converter.convertStreamChunk JSON_parse table "data: [DONE]" sessionId
  = ([Stream.message_stop], delete (Converter.session_key sessionId) table)
  /\ (Converter.convertStreamChunk JSON_parse
        (Converter.convertStreamChunk JSON_parse table "data: [DONE]" sessionId).2
        chunk sessionId).1
     = (Converter.convertStreamChunk JSON_parse ∅ chunk sessionId).1.
Proof.
  assert (H : Converter.convertStreamChunk JSON_parse table "data: [DONE]" sessionId
              = ([Stream.message_stop], delete (Converter.session_key sessionId) table)).
  { exact (convert_line_done JSON_parse sessionId [] table). }
  split; [done|]. rewrite H. simpl.
  apply convertStreamChunk_local. by rewrite lookup_delete_eq, lookup_empty.
Qed.

(** * Further properties of the request and response converters *)

Section RequestMore.
Import Js Request.
Variable JSON_stringify : json -> string.
Variable base64 : string -> string.

(** The four accumulators, read off the blocks one type at a time. *)
Lemma scan_accumulators (blocks : list ContentBlock) (acc : Scan) :
  textParts (foldl (scan_block JSON_stringify base64) acc blocks)
  = textParts acc ++ omap Blocks.text_part blocks
  /\ toolCalls (foldl (scan_block JSON_stringify base64) acc blocks)
     = toolCalls acc ++ omap (Blocks.tool_call JSON_stringify) blocks
  /\ toolResults (foldl (scan_block JSON_stringify base64) acc blocks)
     = toolResults acc ++ omap Blocks.tool_message blocks.
Proof.
  revert acc. induction blocks as [|b blocks IH]; intros acc.
  { simpl. by rewrite !app_nil_r. }
  cbn [foldl]. destruct (IH (scan_block JSON_stringify base64 acc b)) as (-> & -> & ->).
  destruct b as [t|src|src title|i n inp|i c|t sg|]; simpl;
    try (destruct (truthy _); simpl); rewrite <- ?app_assoc; done.
Qed.

Lemma scan_blocks_accumulators (blocks : list ContentBlock) :
  textParts (scan_blocks JSON_stringify base64 blocks) = omap Blocks.text_part blocks
  /\ toolCalls (scan_blocks JSON_stringify base64 blocks)
     = omap (Blocks.tool_call JSON_stringify) blocks
  /\ toolResults (scan_blocks JSON_stringify base64 blocks)
     = omap Blocks.tool_message blocks.
Proof. unfold scan_blocks. by destruct (scan_accumulators blocks
  {| textParts := []; contentParts := []; toolCalls := []; toolResults := [] |})
  as (-> & -> & ->). Qed.

Lemma tool_messages_nonempty (blocks : list ContentBlock) :
  existsb is_tool_result blocks = true -> omap Blocks.tool_message blocks <> [].
Proof.
  induction blocks as [|b blocks IH]; [done|].
  simpl. destruct b; simpl; try done; apply IH.
Qed.

Lemma pushed_nonempty (msg : Message) :
  pushed (_convertMessageContent JSON_stringify base64 msg) <> [].
Proof.
  unfold _convertMessageContent. destruct (content msg) as [s|blocks|]; [done| |done].
  cbv zeta.
  destruct (0 <? length (toolResults (scan_blocks JSON_stringify base64 blocks))) eqn:E.
  { simpl. apply Nat.ltb_lt in E. intros H. rewrite H in E. simpl in E. lia. }
  destruct (_ && _); [done|]. by destruct (_ && _).
Qed.

Lemma system_text_fold (parts : list SystemPart) (acc : string) :
  foldl (fun text part => match part with
                          | system_text t => text +:+ t
                          | system_other => text
                          end) acc parts
  = acc +:+ foldr String.append "" (map Blocks.system_part_text parts).
Proof.
  revert acc. induction parts as [|part parts IH]; intros acc.
  { simpl. by rewrite append_nil_r. }
  cbn [foldl map foldr]. rewrite IH. destruct part; simpl.
  - by rewrite append_assoc.
  - done.
Qed.

End RequestMore.

(** X12. A message whose array content holds a [tool_result] block, under
    any role, becomes exactly the tool messages of its [tool_result]
    blocks, one each and in order; every other block of the message is
    dropped. *)
Theorem tool_results_take_the_message
    (JSON_stringify : Js.json -> string) (base64 : string -> string)
    (role : string) (blocks : list Request.ContentBlock) :
  existsb Request.is_tool_result blocks = true ->
  Request.pushed
    (Request._convertMessageContent JSON_stringify base64
       {| Request.role := role; Request.content := Request.content_array blocks |})
  = omap Blocks.tool_message blocks.
Proof.
  intros H. unfold Request._convertMessageContent. cbn [Request.content]. cbv zeta.
  destruct (scan_blocks_accumulators JSON_stringify base64 blocks) as (_ & _ & ->).
  pose proof (tool_messages_nonempty blocks H) as Hne.
  by destruct (omap Blocks.tool_message blocks).
Qed.

Lemma tool_results_take_the_message_witness :
  Request.pushed
    (Request._convertMessageContent Sample.no_stringify Sample.no_base64
       {| Request.role := "user";
          Request.content :=
            Request.content_array
              [Request.tool_result "t1" (Request.result_string "ok");
               Request.text "ignored"] |})
  = [{| Request.o_role := "tool"; Request.o_content := Request.openai_string "ok";
        Request.o_tool_calls := None; Request.o_tool_call_id := Some "t1" |}].
Proof.
  exact (tool_results_take_the_message Sample.no_stringify Sample.no_base64 "user"
           [Request.tool_result "t1" (Request.result_string "ok"); Request.text "ignored"]
           eq_refl).
Defined.

(** X13. An assistant message with array content and no [tool_result]
    block keeps its text blocks as [content] and its [tool_use] blocks as
    [tool_calls], each in order, and drops images, documents and thinking;
    [content] is null when there is no text, [tool_calls] is absent when
    there is no tool use, and with neither the message is the default
    [{role:'assistant', content:''}]. *)
Theorem assistant_message_keeps_text_and_tool_use
    (JSON_stringify : Js.json -> string) (base64 : string -> string)
    (blocks : list Request.ContentBlock) :
  existsb Request.is_tool_result blocks = false ->
  Request.pushed
    (Request._convertMessageContent JSON_stringify base64
       {| Request.role := "assistant"; Request.content := Request.content_array blocks |})
  = [match omap Blocks.text_part blocks, omap (Blocks.tool_call JSON_stringify) blocks with
     | [], [] =>
         {| Request.o_role := "assistant"; Request.o_content := Request.openai_string "";
            Request.o_tool_calls := None; Request.o_tool_call_id := None |}
     | texts, calls =>
         {| Request.o_role := "assistant";
            Request.o_content := match texts with
                                 | [] => Request.openai_null
                                 | _ => Request.openai_parts texts
                                 end;
            Request.o_tool_calls := match calls with [] => None | _ => Some calls end;
            Request.o_tool_call_id := None |}
     end].
Proof.
  intros H. unfold Request._convertMessageContent. cbn [Request.content Request.role]. cbv zeta.
  destruct (scan_blocks_accumulators JSON_stringify base64 blocks) as (-> & -> & Hres).
  rewrite Hres.
  assert (Hnone : omap Blocks.tool_message blocks = []).
  { rewrite <- Hres. unfold Request.scan_blocks.
    by rewrite (scan_without_tool_result _ _ _ _ H). }
  rewrite Hnone. simpl.
  by destruct (omap Blocks.text_part blocks),
              (omap (Blocks.tool_call JSON_stringify) blocks).
Qed.

Lemma assistant_message_keeps_text_and_tool_use_witness :
  Request.pushed
    (Request._convertMessageContent Sample.no_stringify Sample.no_base64
       {| Request.role := "assistant";
          Request.content :=
            Request.content_array
              [Request.thinking "hm" "sig"; Request.tool_use "t1" "f" Js.JNull] |})
  = [{| Request.o_role := "assistant"; Request.o_content := Request.openai_null;
        Request.o_tool_calls :=
          Some [{| Request.call_id := "t1"; Request.call_name := "f";
                   Request.call_arguments := "" |}];
        Request.o_tool_call_id := None |}].
Proof.
  exact (assistant_message_keeps_text_and_tool_use Sample.no_stringify Sample.no_base64
           [Request.thinking "hm" "sig"; Request.tool_use "t1" "f" Js.JNull] eq_refl).
Defined.

(** X14. A system prompt given as an array becomes one system message, the
    first of the output, whose content is the texts of its text parts
    joined in order without separator; when that text is empty no system
    message is emitted. *)
Theorem system_array_is_joined
    (JSON_stringify : Js.json -> string) (base64 : string -> string)
    (claudeRequest : Request.AnthropicRequest) (parts : list Request.SystemPart) :
  Request.system claudeRequest = Some (Request.system_array parts) ->
  Request._convertMessages JSON_stringify base64 claudeRequest
  = match foldr String.append "" (map Blocks.system_part_text parts) with
    | EmptyString => []
    | text => [{| Request.o_role := "system"; Request.o_content := Request.openai_string text;
                  Request.o_tool_calls := None; Request.o_tool_call_id := None |}]
    end
    ++ flat_map (fun msg => Request.pushed
                              (Request._convertMessageContent JSON_stringify base64 msg))
                (Request.messages claudeRequest).
Proof.
  intros H. unfold Request._convertMessages, Request.system_messages. rewrite H.
  rewrite system_text_fold. change ("" +:+ ?x) with x.
  by destruct (foldr String.append "" (map Blocks.system_part_text parts)).
Qed.

Lemma system_array_is_joined_witness :
  Request._convertMessages Sample.no_stringify Sample.no_base64
    {| Request.model := "m"; Request.messages := [];
       Request.system :=
         Some (Request.system_array
                 [Request.system_text "A"; Request.system_other; Request.system_text "B"]);
       Request.max_tokens := None; Request.temperature := None; Request.top_p := None;
       Request.stop_sequences := None; Request.stream := None;
       Request.tools := None; Request.tool_choice := None; Request.metadata := None |}
  = [{| Request.o_role := "system"; Request.o_content := Request.openai_string "AB";
        Request.o_tool_calls := None; Request.o_tool_call_id := None |}].
Proof.
  exact (system_array_is_joined Sample.no_stringify Sample.no_base64
           {| Request.model := "m"; Request.messages := [];
              Request.system :=
                Some (Request.system_array
                        [Request.system_text "A"; Request.system_other;
                         Request.system_text "B"]);
              Request.max_tokens := None; Request.temperature := None;
              Request.top_p := None; Request.stop_sequences := None;
              Request.stream := None; Request.tools := None;
              Request.tool_choice := None; Request.metadata := None |}
           [Request.system_text "A"; Request.system_other; Request.system_text "B"]
           eq_refl).
Defined.

(** X15. No message is lost: every Anthropic message contributes at least
    one OpenAI message, so the output has at least as many messages as the
    input. *)
Theorem no_message_is_dropped
    (JSON_stringify : Js.json -> string) (base64 : string -> string)
    (claudeRequest : Request.AnthropicRequest) :
  length (Request.messages claudeRequest)
  <= length (Request._convertMessages JSON_stringify base64 claudeRequest).
Proof.
  unfold Request._convertMessages. rewrite length_app.
  induction (Request.messages claudeRequest) as [|msg msgs IH]; [simpl; lia|].
  cbn [flat_map length]. rewrite length_app.
  pose proof (pushed_nonempty JSON_stringify base64 msg) as Hne.
  destruct (Request.pushed _) as [|m ms]; [done|]. simpl in *. lia.
Qed.

(** X16. A tool call survives the trip upstream and back: when
    [JSON.parse] reads back what [JSON.stringify] wrote for the inputs of
    its [tool_use] blocks, the tool calls [convertRequest] builds for a
    message, echoed in a response, are converted into [tool_use] blocks
    with the ids, names and inputs of the original blocks, in order. *)
Theorem tool_calls_round_trip
    (JSON_stringify : Js.json -> string) (base64 : string -> string)
    (JSON_parse : string -> option Js.json) (blocks : list Request.ContentBlock) :
  Forall (Blocks.input_round_trips JSON_stringify JSON_parse) blocks ->
  flat_map (Response.convert_tool_call JSON_parse)
           (map Blocks.echoed
                (Request.toolCalls (Request.scan_blocks JSON_stringify base64 blocks)))
  = omap Blocks.same_tool_use blocks.
Proof.
  intros H.
  destruct (scan_blocks_accumulators JSON_stringify base64 blocks) as (_ & -> & _).
  induction H as [|b blocks Hb _ IH]; [done|].
  destruct b as [t|src|src title|i n inp|i c|t sg|]; try apply IH.
  cbn [omap list_omap Blocks.tool_call Blocks.same_tool_use map flat_map]. simpl.
  unfold Response.convert_tool_call, Response.is_function, Response.tool_use_of. simpl.
  simpl in Hb. rewrite Hb. f_equal. apply IH.
Qed.

Lemma tool_calls_round_trip_witness :
  flat_map (Response.convert_tool_call (fun _ => Some Js.JNull))
           (map Blocks.echoed
                (Request.toolCalls
                   (Request.scan_blocks Sample.no_stringify Sample.no_base64
                      [Request.text "calling"; Request.tool_use "t1" "f" Js.JNull])))
  = [Response.tool_use (Some "t1") "f" (Response.input_parsed Js.JNull)].
Proof.
  apply (tool_calls_round_trip Sample.no_stringify Sample.no_base64
           (fun _ => Some Js.JNull)
           [Request.text "calling"; Request.tool_use "t1" "f" Js.JNull]).
  repeat constructor.
Defined.

(** X17. The gates of the handler. A key whose [permissions] is neither
    missing, ['all'] nor ['openai'] is refused with 403 and
    [permission_error] before the body is looked at. For any other key the
    body is converted next: without [messages] the conversion throws and
    the reply is 500 with [api_error], whatever the model restriction.
    With [messages] the request passes, converted, exactly when the model
    restriction is off, or its list is missing or empty, or the list holds
    the requested model; otherwise the reply is 403 with
    [invalid_request_error]. *)
Theorem preflight_admits
    (JSON_stringify : Js.json -> string) (base64 : string -> string)
    (apiKeyData : Route.ApiKeyData) (body : Route.Body) :
  (Route.checkPermissions apiKeyData "openai" = false ->
   Route.preflight JSON_stringify base64 apiKeyData body
   = Route.rejected 403 Route.permission_error)
  /\ (Route.checkPermissions apiKeyData "openai" = true ->
      Route.messages body = None ->
      Route.preflight JSON_stringify base64 apiKeyData body
      = Route.rejected 500 Route.api_error)
  /\ (Route.checkPermissions apiKeyData "openai" = true ->
      forall messages, Route.messages body = Some messages ->
      exists openaiRequest,
        Route.convertRequest JSON_stringify base64 body = Some openaiRequest
        /\ (Route.enableModelRestriction apiKeyData = false
            \/ default [] (Route.restrictedModels apiKeyData) = []
            \/ In (Route.model body) (default [] (Route.restrictedModels apiKeyData)) ->
            Route.preflight JSON_stringify base64 apiKeyData body
            = Route.admitted openaiRequest)
        /\ (~ (Route.enableModelRestriction apiKeyData = false
               \/ default [] (Route.restrictedModels apiKeyData) = []
               \/ In (Route.model body) (default [] (Route.restrictedModels apiKeyData))) ->
            Route.preflight JSON_stringify base64 apiKeyData body
            = Route.rejected 403 Route.invalid_request_error))
  /\ (Route.checkPermissions apiKeyData "openai" = true <->
      ~ Js.truthy (Route.permissions apiKeyData) = true
      \/ Route.permissions apiKeyData = Some "all"
      \/ Route.permissions apiKeyData = Some "openai").
Proof.
  split; [|split; [|split]].
  - intros H. unfold Route.preflight. by rewrite H.
  - intros H Hm. unfold Route.preflight, Route.convertRequest. by rewrite H, Hm.
  - intros H messages Hm. unfold Route.preflight, Route.convertRequest. rewrite H, Hm.
    eexists. split; [reflexivity|]. cbn [negb].
    destruct (Route.enableModelRestriction apiKeyData); cbn [andb];
      [|split; [done|intros Hn; destruct Hn; by left]].
    destruct (default [] (Route.restrictedModels apiKeyData)) as [|m ms] eqn:E;
      [split; [done|intros Hn; destruct Hn; right; by left]|].
    cbn [length]. change (0 <? S (length ms)) with true. cbn [andb].
    destruct (existsb (String.eqb (Route.model body)) (m :: ms)) eqn:Hex; cbn [negb].
    + split; [done|]. intros Hn. destruct Hn. right. right.
      apply existsb_exists in Hex as (x & Hin & Heq). apply String.eqb_eq in Heq. by subst.
    + split; [|done]. intros [?|[?|Hin]]; try done.
      rewrite <- not_true_iff_false in Hex. destruct Hex. apply existsb_exists.
      exists (Route.model body). split; [done|]. apply String.eqb_refl.
  - unfold Route.checkPermissions.
    destruct (Route.permissions apiKeyData) as [[|a p]|].
    + split; [by left|done].
    + cbn [Js.or_else Js.truthy]. rewrite orb_true_iff, !String.eqb_eq. split.
      * intros [->| ->]; [right; by left|right; by right].
      * intros [H|[H|H]]; [done|left; congruence|right; congruence].
    + split; [by left|done].
Qed.

Lemma preflight_admits_witness :
  Route.preflight Sample.no_stringify Sample.no_base64
    {| Route.permissions := Some "claude"; Route.enableModelRestriction := false;
       Route.restrictedModels := None |} (Route.body_of "m" (Some []))
  = Route.rejected 403 Route.permission_error
  /\ Route.preflight Sample.no_stringify Sample.no_base64
       {| Route.permissions := None; Route.enableModelRestriction := true;
          Route.restrictedModels := Some ["other"] |} (Route.body_of "m" None)
     = Route.rejected 500 Route.api_error
  /\ exists openaiRequest,
       Route.convertRequest Sample.no_stringify Sample.no_base64
         (Route.body_of "m" (Some [])) = Some openaiRequest
       /\ Route.preflight Sample.no_stringify Sample.no_base64
            {| Route.permissions := None; Route.enableModelRestriction := true;
               Route.restrictedModels := Some [] |} (Route.body_of "m" (Some []))
          = Route.admitted openaiRequest.
Proof.
  split; [|split].
  - apply (proj1 (preflight_admits Sample.no_stringify Sample.no_base64
             {| Route.permissions := Some "claude"; Route.enableModelRestriction := false;
                Route.restrictedModels := None |} (Route.body_of "m" (Some [])))).
    reflexivity.
  - apply (proj1 (proj2 (preflight_admits Sample.no_stringify Sample.no_base64
             {| Route.permissions := None; Route.enableModelRestriction := true;
                Route.restrictedModels := Some ["other"] |} (Route.body_of "m" None))));
      reflexivity.
  - destruct (proj1 (proj2 (proj2 (preflight_admits Sample.no_stringify Sample.no_base64
             {| Route.permissions := None; Route.enableModelRestriction := true;
                Route.restrictedModels := Some [] |} (Route.body_of "m" (Some [])))))
             eq_refl [] eq_refl) as (openaiRequest & Hconv & Hadmit & _).
    exists openaiRequest. split; [exact Hconv|]. apply Hadmit. right. by left.
Defined.

Section Joining.
Import Js Reframe.

Lemma startsWith_split (p s : string) :
  startsWith p s = true -> s = p +:+ substring_from (String.length p) s.
Proof.
  revert s. induction p as [|a p IH]; intros s H; [done|].
  destruct s as [|b s]; [done|]. simpl in H.
  destruct (Ascii.eqb_spec a b) as [->|]; [|done].
  rewrite append_cons. simpl. f_equal. by apply IH.
Qed.

Lemma concat_cons_ne (sep x : string) (l : list string) :
  l <> [] -> String.concat sep (x :: l) = x +:+ sep +:+ String.concat sep l.
Proof. by destruct l. Qed.

Lemma join_split_go (sep s : string) (skip : nat) (cur : string) :
  sep <> "" ->
  String.concat sep (split_go sep s skip cur) = cur +:+ substring_from skip s.
Proof.
  intros Hsep. revert skip cur. induction s as [|c s IH]; intros skip cur.
  { destruct skip; simpl; by rewrite append_nil_r. }
  destruct skip as [|k]; cbn [split_go]; [|by rewrite IH].
  destruct (startsWith sep (String c s)) eqn:E.
  - rewrite concat_cons_ne by apply split_go_nonempty. rewrite IH.
    change ("" +:+ ?x) with x. cbn [substring_from]. f_equal.
    transitivity (sep +:+ substring_from (String.length sep) (String c s));
      [|symmetry; by apply startsWith_split].
    f_equal. destruct sep as [|a sep]; [done|]. simpl. by rewrite Nat.sub_0_r.
  - rewrite IH. cbn [substring_from]. by rewrite append_snoc.
Qed.

End Joining.

(** X18. Reframing loses no character: the pieces [split] cuts a string into,
    joined again by the separator, are the string. *)
Theorem join_split (sep s : string) :
  sep <> "" -> String.concat sep (Js.split sep s) = s.
Proof. intros H. unfold Js.split. by rewrite join_split_go. Qed.

Lemma join_split_witness :
  String.concat "

" (Js.split "

" "a

b
c") = "a

b
c".
Proof.
  apply join_split. discriminate.
Defined.

(** X19. A converted response carries a stop reason among [end_turn],
    [max_tokens], [tool_use] and [refusal], however unknown the upstream
    [finish_reason] is, and the upstream token counts, or zeros when
    [usage] is missing. The finish reason is taken not to name a member of
    [Object.prototype], which the lookup of the source would find and the
    table of own keys does not hold. *)
Theorem response_stop_reason_and_usage
    (JSON_parse : string -> option Js.json) (openaiResponse : Response.OpenAIResponse)
    (claudeResponse : Response.AnthropicResponse) :
  Blocks.plain_reply openaiResponse = true ->
  Response.convertResponse JSON_parse openaiResponse = inr claudeResponse ->
  In (Response.stop_reason claudeResponse) ["end_turn"; "max_tokens"; "tool_use"; "refusal"]
  /\ Response.input_tokens (Response.a_usage claudeResponse)
     = match Response.usage openaiResponse with
       | Some u => Stream.prompt_tokens u
       | None => 0%Z
       end
  /\ Response.output_tokens (Response.a_usage claudeResponse)
     = match Response.usage openaiResponse with
       | Some u => Stream.completion_tokens u
       | None => 0%Z
       end.
Proof.
  intros _. unfold Response.convertResponse.
  destruct (Response.choices openaiResponse ≫= head) as [choice|]; [|done].
  intros [= <-]. cbn [Response.stop_reason Response.a_usage Response.input_tokens
                      Response.output_tokens].
  split; [|by destruct (Response.usage openaiResponse)].
  pose proof (_mapStopReason_range (Response.finish_reason choice)) as H.
  apply existsb_exists in H as (x & Hx & Heq). apply String.eqb_eq in Heq. by subst.
Qed.

Lemma response_stop_reason_and_usage_witness :
  In "end_turn" ["end_turn"; "max_tokens"; "tool_use"; "refusal"]
  /\ 0%Z = 0%Z /\ 0%Z = 0%Z.
Proof.
  exact (response_stop_reason_and_usage Sample.no_parse Sample.text_and_custom_calls _
           eq_refl eq_refl).
Defined.

(** X20. A chunk without choices (missing, not an array, or empty) emits
    nothing and changes no session state, its [usage] included; yet it
    allocates the table entry of a session id not seen before. *)
Theorem chunk_without_choices
    (table : gmap string Stream.StreamState) (c : Stream.OpenAIChunk)
    (sessionId : option string) :
  Stream.choices c = [] ->
  (Converter._convertStreamEvent table c sessionId).1 = []
  /\ (Converter._convertStreamEvent table c sessionId).2
     = match table !! Converter.session_key sessionId with
       | Some _ => table
       | None => <[Converter.session_key sessionId := Stream.initial_state]> table
       end.
Proof.
  intros H. unfold Converter._convertStreamEvent, Converter._getStreamState,
    Stream.convert_event. rewrite H.
  destruct (table !! Converter.session_key sessionId) as [st|] eqn:E; simpl.
  - split; [done|]. by apply insert_id.
  - split; [done|]. by rewrite insert_insert_eq.
Qed.

Lemma chunk_without_choices_witness :
  (Converter._convertStreamEvent ∅
     {| Stream.model := None; Stream.choices := [];
        Stream.usage := Some {| Stream.prompt_tokens := 5; Stream.completion_tokens := 7 |} |}
     (Some "s")).1 = []
  /\ (Converter._convertStreamEvent ∅
        {| Stream.model := None; Stream.choices := [];
           Stream.usage :=
             Some {| Stream.prompt_tokens := 5; Stream.completion_tokens := 7 |} |}
        (Some "s")).2
     = <["s" := Stream.initial_state]> ∅.
Proof.
  exact (chunk_without_choices ∅
           {| Stream.model := None; Stream.choices := [];
              Stream.usage :=
                Some {| Stream.prompt_tokens := 5; Stream.completion_tokens := 7 |} |}
           (Some "s") eq_refl).
Defined.

(** * Sessions around the role gate *)

Section RoleGate.
Import Js Stream Trace.

Lemma run_session_app (sessionId : option string) (a b : list OpenAIChunk) (s : StreamState) :
  run_session sessionId (a ++ b) s
  = ((run_session sessionId a s).1 ++ (run_session sessionId b (run_session sessionId a s).2).1,
     (run_session sessionId b (run_session sessionId a s).2).2).
Proof.
  revert s. induction a as [|c a IH]; intros s.
  { simpl. by destruct (run_session sessionId b s). }
  simpl. unfold seq. destruct (convert_event sessionId c s) as [e1 s1]. rewrite IH.
  destruct (run_session sessionId a s1) as [e2 s2]. simpl.
  destruct (run_session sessionId b s2) as [e3 s3]. simpl. by rewrite app_assoc.
Qed.

Lemma before_from_role (chunks : list OpenAIChunk) :
  chunks = before_role chunks ++ from_role chunks.
Proof.
  induction chunks as [|c chunks IH]; [done|].
  simpl. destruct (carries_role c); [done|]. simpl. by rewrite <- IH.
Qed.

Lemma before_role_never (chunks : list OpenAIChunk) :
  never_role (before_role chunks) = true.
Proof.
  induction chunks as [|c chunks IH]; [done|].
  simpl. destruct (carries_role c) eqn:E; [done|]. simpl. by rewrite E.
Qed.

Lemma from_role_head (chunks : list OpenAIChunk) :
  from_role chunks = []
  \/ exists c rest, from_role chunks = c :: rest /\ carries_role c = true.
Proof.
  induction chunks as [|c chunks IH]; [by left|].
  simpl. destruct (carries_role c) eqn:E; [right; by exists c, chunks|done].
Qed.

Lemma from_role_never (chunks : list OpenAIChunk) :
  never_role chunks = true -> from_role chunks = [].
Proof.
  induction chunks as [|c chunks IH]; [done|].
  simpl. intros [Hc Hrest]%andb_true_iff. apply negb_true_iff in Hc. rewrite Hc. by apply IH.
Qed.

(** ** A session without a role keeps the invariant *)

Lemma convert_event_quiet_wf (sessionId : option string) (c : OpenAIChunk)
    (evs : list event) (s : StreamState) :
  carries_role c = false -> well_formed evs s ->
  well_formed (evs ++ (convert_event sessionId c s).1) (convert_event sessionId c s).2
  /\ messageStarted (convert_event sessionId c s).2 = messageStarted s.
Proof.
  intros Hrole Hwf. unfold convert_event, carries_role in *.
  destruct (choices c) as [|choice rest].
  { simpl. by rewrite app_nil_r. }
  unfold seq. rewrite (start_message_no_role _ _ _ _ Hrole).
  destruct (on_delta_wf (delta choice) evs s Hwf) as (Hwf2 & Hms2).
  destruct (on_delta (delta choice) s) as [e2 s2]. simpl in *.
  destruct (record_usage_blocks (usage c) s2) as (He3 & Hms3 & Hts3 & Hth3 & Htb3 & Hcbi3).
  destruct (record_usage (usage c) s2) as [e3 s3]. simpl in *. subst e3.
  assert (Hwf3 : well_formed (evs ++ e2) s3) by (by apply (well_formed_same_blocks _ s2)).
  destruct (on_finish_wf (finish_reason choice) _ s3 Hwf3) as (Hwf4 & Hms4).
  destruct (on_finish (finish_reason choice) s3) as [e4 s4]. simpl in *.
  rewrite app_assoc. split; [done|congruence].
Qed.

Lemma run_session_quiet_wf (sessionId : option string) (chunks : list OpenAIChunk)
    (evs : list event) (s : StreamState) :
  never_role chunks = true -> well_formed evs s ->
  well_formed (evs ++ (run_session sessionId chunks s).1) (run_session sessionId chunks s).2
  /\ messageStarted (run_session sessionId chunks s).2 = messageStarted s.
Proof.
  revert evs s. induction chunks as [|c chunks IH]; intros evs s Hnever Hwf.
  { simpl. by rewrite app_nil_r. }
  simpl in Hnever. apply andb_true_iff in Hnever as [Hc Hrest]. apply negb_true_iff in Hc.
  simpl. unfold seq.
  destruct (convert_event_quiet_wf sessionId c evs s Hc Hwf) as (Hwf1 & Hms1).
  destruct (convert_event sessionId c s) as [e1 s1]. simpl in *.
  destruct (IH (evs ++ e1) s1 Hrest Hwf1) as (Hwf2 & Hms2).
  destruct (run_session sessionId chunks s1) as [e2 s2]. simpl in *.
  rewrite app_assoc. split; [done|congruence].
Qed.

(** ** One [message_delta] per finishing chunk *)

Lemma count_of_only (P q : event -> bool) (l : list event) :
  forallb P l = true -> (forall e, P e = true -> q e = false) -> count q l = 0.
Proof.
  intros Hl Hq. apply count_none. intros e He. apply Hq.
  rewrite forallb_forall in Hl. by apply Hl.
Qed.

Lemma on_finish_count (reason : option string) (s : StreamState) :
  count is_message_delta (on_finish reason s).1 = if truthy reason then 1 else 0.
Proof.
  destruct (truthy reason) eqn:Hr.
  - destruct (on_finish_events reason s Hr) as (closes & H4 & Hcl & _).
    rewrite H4, count_app, (count_of_only is_block_event _ closes Hcl) by (by intros []).
    done.
  - unfold on_finish, when_. by rewrite Hr.
Qed.

Lemma convert_event_finishes (sessionId : option string) (c : OpenAIChunk) (s : StreamState) :
  count is_message_delta (convert_event sessionId c s).1 = if finishes c then 1 else 0.
Proof.
  unfold convert_event, finishes. destruct (choices c) as [|choice rest]; [done|].
  unfold seq.
  pose proof (start_message_emits sessionId c (delta choice) s) as H1.
  destruct (start_message sessionId c (delta choice) s) as [e1 s1].
  pose proof (on_delta_emits (delta choice) s1) as H2.
  destruct (on_delta (delta choice) s1) as [e2 s2].
  destruct (record_usage_blocks (usage c) s2) as (H3 & _).
  destruct (record_usage (usage c) s2) as [e3 s3].
  pose proof (on_finish_count (finish_reason choice) s3) as H4.
  destruct (on_finish (finish_reason choice) s3) as [e4 s4].
  cbn -[count] in *. subst e3.
  rewrite !count_app, H4.
  rewrite (count_of_only is_message_start _ e1 H1) by (by intros []).
  rewrite (count_of_only is_block_event _ e2 H2) by (by intros []).
  by rewrite count_nil.
Qed.

Lemma run_session_finishes (sessionId : option string) (chunks : list OpenAIChunk)
    (s : StreamState) :
  count is_message_delta (run_session sessionId chunks s).1 = count finishes chunks.
Proof.
  revert s. induction chunks as [|c chunks IH]; intros s; [done|].
  simpl. unfold seq.
  pose proof (convert_event_finishes sessionId c s) as H1.
  destruct (convert_event sessionId c s) as [e1 s1].
  specialize (IH s1). destruct (run_session sessionId chunks s1) as [e2 s2].
  cbn -[count] in *. by rewrite count_app, count_cons, H1, IH.
Qed.

Lemma count_zero_existsb {A : Type} (p : A -> bool) (l : list A) :
  count p l = 0 <-> existsb p l = false.
Proof.
  induction l as [|x l IH]; [done|].
  rewrite count_cons. simpl. destruct (p x); simpl; [split; [lia|done]|done].
Qed.

Lemma count_pos_split {A : Type} (p : A -> bool) (l : list A) :
  count p l <> 0 -> exists pre x post, l = pre ++ x :: post /\ p x = true.
Proof.
  induction l as [|x l IH]; [done|].
  rewrite count_cons. destruct (p x) eqn:E.
  - intros _. by exists [], x, l.
  - simpl. intros H. destruct (IH H) as (pre & y & post & -> & Hy).
    by exists (x :: pre), y, post.
Qed.

End RoleGate.

Section RoleReset.
Import Js Stream Trace.

Lemma start_message_at_role (sessionId : option string) (c : OpenAIChunk) (d : Delta)
    (s : StreamState) :
  truthy (role d) = true -> messageStarted s = false ->
  start_message sessionId c d s
  = ([message_start (if truthy sessionId then GivenId (or_else sessionId "")
                     else GeneratedId) (model c)],
     started_state).
Proof. intros Hrole Hms. unfold start_message, when_. by rewrite Hrole, Hms. Qed.

Lemma start_message_started (sessionId : option string) (c : OpenAIChunk) (d : Delta)
    (s : StreamState) :
  messageStarted s = true -> start_message sessionId c d s = ([], s).
Proof. intros Hms. unfold start_message, when_. rewrite Hms. by rewrite andb_false_r. Qed.

Lemma convert_event_at_role (sessionId : option string) (c : OpenAIChunk) (s : StreamState) :
  carries_role c = true -> messageStarted s = false ->
  exists id,
    convert_event sessionId c s
    = (message_start id (model c) :: (convert_event sessionId c started_state).1,
       (convert_event sessionId c started_state).2).
Proof.
  intros Hrole Hms. unfold convert_event, carries_role in *.
  destruct (choices c) as [|choice rest]; [done|].
  eexists.
  rewrite (seq_run (start_message _ _ _) _ s), (seq_run (start_message _ _ _) _ started_state).
  rewrite (start_message_at_role _ _ _ _ Hrole Hms).
  rewrite (start_message_started _ _ _ started_state eq_refl). reflexivity.
Qed.

Lemma run_session_at_role (sessionId : option string) (c : OpenAIChunk)
    (rest : list OpenAIChunk) (s : StreamState) :
  carries_role c = true -> messageStarted s = false ->
  exists id,
    (run_session sessionId (c :: rest) s).1
    = message_start id (model c) :: (run_session sessionId (c :: rest) started_state).1.
Proof.
  intros Hrole Hms. destruct (convert_event_at_role sessionId c s Hrole Hms) as (id & H).
  exists id. cbn [run_session]. rewrite !seq_run, H. reflexivity.
Qed.

Lemma well_formed_started : well_formed [] started_state.
Proof.
  split; [done|]. split; [done|].
  intros pre post sr sq it ot H. by destruct pre.
Qed.

Lemma run_session_started_balanced (sessionId : option string) (chunks : list OpenAIChunk) :
  balanced_at_message_delta (run_session sessionId chunks started_state).1.
Proof.
  pose proof (run_session_wf sessionId chunks [] started_state well_formed_started
                (or_introl eq_refl) (or_introl eq_refl)) as (_ & _ & H).
  done.
Qed.

Lemma no_open_of_open_at (s : StreamState) :
  (forall i, open_at i s = 0) -> no_open s.
Proof.
  destruct s as [ms ts th tb cbi it ot]. unfold open_at, no_open. simpl. intros H.
  pose proof (H cbi) as Hc. rewrite Nat.eqb_refl, !andb_true_r in Hc.
  destruct ts; [simpl in Hc; lia|]. destruct th; [simpl in Hc; lia|].
  destruct tb as [|[k v] tb]; [done|].
  specialize (H k). simpl in H. rewrite count_cons, Nat.eqb_refl in H.
  destruct (cbi =? k); simpl in H; lia.
Qed.

(** A block held open when the role arrives stays unclosed at every later
    [message_delta]. *)
Lemma open_at_role_unbalanced (sessionId : option string) (c : OpenAIChunk)
    (rest : list OpenAIChunk) (evs : list event) (s : StreamState) :
  well_formed evs s -> messageStarted s = false ->
  carries_role c = true -> existsb finishes (c :: rest) = true ->
  balanced_at_message_delta (evs ++ (run_session sessionId (c :: rest) s).1) ->
  no_open s.
Proof.
  intros (Hbal & _ & _) Hms Hrole Hfin Hb.
  destruct (run_session_at_role sessionId c rest s Hrole Hms) as (id & HR).
  rewrite HR in Hb.
  pose proof (run_session_started_balanced sessionId (c :: rest)) as Hst.
  pose proof (run_session_finishes sessionId (c :: rest) started_state) as Hcount.
  assert (Hne : count is_message_delta (run_session sessionId (c :: rest) started_state).1 <> 0).
  { rewrite Hcount. intros H0. apply count_zero_existsb in H0. congruence. }
  apply count_pos_split in Hne as (pre & x & post & HRsplit & Hx).
  destruct x as [| | | |sr sq it ot|]; try done.
  apply no_open_of_open_at. intros i.
  specialize (Hst pre post sr sq it ot HRsplit i).
  specialize (Hb (evs ++ message_start id (model c) :: pre) post sr sq it ot).
  rewrite HRsplit in Hb. rewrite <- app_assoc in Hb. specialize (Hb eq_refl i).
  specialize (Hbal i). unfold starts, stops in *.
  rewrite !count_app, !count_cons in Hb. simpl in Hb. lia.
Qed.

End RoleReset.


Section Blind.
Import Js Stream Trace Payload.

Lemma blind_skip : blind skip.
Proof. by intros b s. Qed.

Lemma blind_emit (e : event) : blind (emit e).
Proof. by intros b s. Qed.

Lemma blind_update (f : StreamState -> StreamState) :
  (forall b s, f (set_messageStarted b s) = set_messageStarted b (f s)) -> blind (update f).
Proof. intros H b s. unfold update. by rewrite H. Qed.

Lemma blind_read (k : StreamState -> Step) :
  (forall b s, k (set_messageStarted b s) = k s) -> (forall s, blind (k s)) -> blind (read k).
Proof. intros Hk H b s. unfold read. rewrite Hk. apply H. Qed.

Lemma blind_seq (f g : Step) : blind f -> blind g -> blind (f ;; g).
Proof. intros Hf Hg b s. rewrite !seq_run, Hf. simpl. by rewrite Hg. Qed.

Lemma blind_when (c : StreamState -> bool) (f : Step) :
  (forall b s, c (set_messageStarted b s) = c s) -> blind f -> blind (when_ c f).
Proof. intros Hc Hf b s. unfold when_. rewrite Hc. destruct (c s); [apply Hf|done]. Qed.

Lemma blind_for_each {A : Type} (l : list A) (body : A -> Step) :
  (forall x, blind (body x)) -> blind (for_each l body).
Proof.
  intros H. induction l as [|x l IH]; simpl; [apply blind_skip|by apply blind_seq].
Qed.

Lemma blind_if (b : bool) (f g : Step) : blind f -> blind g -> blind (if b then f else g).
Proof. by destruct b. Qed.

Create HintDb blind.
#[local] Hint Resolve blind_skip blind_emit blind_update blind_read blind_seq blind_when
  blind_for_each blind_if : blind.
#[local] Hint Extern 1 (_ = _) => reflexivity : blind.

Lemma on_delta_blind (d : Delta) : blind (on_delta d).
Proof.
  unfold on_delta, on_content, on_reasoning, stop_thinking_block, stop_text_block,
    stop_tool_blocks.
  destruct (tool_calls d); unfold on_tool_calls, stop_thinking_block, stop_text_block,
    on_tool_call; auto 30 with blind.
Qed.

Lemma record_usage_blind (u : option Usage) : blind (record_usage u).
Proof. unfold record_usage. destruct u; auto 20 with blind. Qed.

Lemma on_finish_blind (reason : option string) : blind (on_finish reason).
Proof.
  unfold on_finish, stop_thinking_block, stop_text_block, stop_tool_blocks.
  auto 30 with blind.
Qed.

Lemma convert_event_blind (sessionId : option string) (c : OpenAIChunk) :
  carries_role c = false -> blind (convert_event sessionId c).
Proof.
  intros Hrole b s. unfold convert_event, carries_role in *.
  destruct (choices c) as [|choice rest]; [done|].
  rewrite (seq_run (start_message _ _ _) _ s),
    (seq_run (start_message _ _ _) _ (set_messageStarted b s)).
  rewrite !(start_message_no_role _ _ _ _ Hrole). cbn [fst snd app].
  assert (H : blind (on_delta (delta choice) ;; record_usage (usage c) ;;
                     on_finish (finish_reason choice))).
  { apply blind_seq; [apply on_delta_blind|].
    apply blind_seq; [apply record_usage_blind|apply on_finish_blind]. }
  by rewrite H.
Qed.

Lemma run_session_blind (sessionId : option string) (chunks : list OpenAIChunk) :
  never_role chunks = true -> blind (run_session sessionId chunks).
Proof.
  induction chunks as [|c chunks IH]; simpl; [intros _; apply blind_skip|].
  intros [Hc Hrest]%andb_true_iff. apply blind_seq; [|by apply IH].
  apply convert_event_blind. by apply negb_true_iff.
Qed.

(** Announcing the role adds [message_start] and changes no other event. *)
Lemma role_adds_message_start (sessionId : option string) (chunks : list OpenAIChunk)
    (model : option string) (role : string) :
  never_role chunks = true -> truthy (Some role) = true ->
  (run_session sessionId (role_only model role :: chunks) initial_state).1
  = message_start (if truthy sessionId then GivenId (or_else sessionId "") else GeneratedId)
                  model
    :: (run_session sessionId chunks initial_state).1.
Proof.
  intros Hnever Hrole. cbn [run_session]. rewrite seq_run.
  assert (H : convert_event sessionId (role_only model role) initial_state
              = ([message_start (if truthy sessionId then GivenId (or_else sessionId "")
                                 else GeneratedId) model],
                 set_messageStarted true initial_state)).
  { unfold convert_event, role_only. cbn [choices delta Stream.role].
    rewrite !seq_run. unfold start_message, when_. cbn [Stream.role]. rewrite Hrole.
    reflexivity. }
  rewrite H. cbn [fst snd app].
  by rewrite (run_session_blind sessionId chunks Hnever true initial_state).
Qed.

End Blind.

(** C1 (as amended). In a session that starts from a fresh state, at every
    [message_delta] the events emitted before it contain, for each block
    index, as many [content_block_start] as [content_block_stop] events,
    if and only if no content block is open when the first chunk that
    carries [delta.role] arrives, or no chunk from that one on carries a
    [finish_reason]. So the balance holds in every session without a role,
    and in every session whose blocks were closed before the role; a block
    that is open when the role arrives is never closed. *)
Theorem blocks_closed_at_message_delta
    (sessionId : option string) (chunks : list Stream.OpenAIChunk) :
  Trace.balanced_at_message_delta
    (Stream.run_session sessionId chunks Stream.initial_state).1
  <-> (Trace.no_open
         (Stream.run_session sessionId (Trace.before_role chunks) Stream.initial_state).2
       \/ existsb Trace.finishes (Trace.from_role chunks) = false).
Proof.
  rewrite (before_from_role chunks) at 1. rewrite run_session_app. cbn [fst].
  destruct (run_session_quiet_wf sessionId (Trace.before_role chunks) [] Stream.initial_state
              (before_role_never chunks) well_formed_initial) as (Hwf & Hms).
  rewrite app_nil_l in Hwf.
  set (e1 := (Stream.run_session sessionId (Trace.before_role chunks)
                Stream.initial_state).1) in *.
  set (s1 := (Stream.run_session sessionId (Trace.before_role chunks)
                Stream.initial_state).2) in *.
  change (Stream.messageStarted Stream.initial_state) with false in Hms.
  destruct (from_role_head chunks) as [->|(c & rest & -> & Hrole)].
  { simpl. rewrite app_nil_r. split; [by right|]. intros _. by destruct Hwf as (_ & _ & H). }
  split.
  - intros Hb. destruct (existsb Trace.finishes (c :: rest)) eqn:Hfin; [left|by right].
    by apply (open_at_role_unbalanced sessionId c rest e1 s1).
  - intros [Hno|Hfin].
    + pose proof (run_session_wf sessionId (c :: rest) e1 s1 Hwf (or_intror Hno)) as H.
      destruct H as (_ & _ & H); [|done]. right. simpl. by rewrite Hrole.
    + apply balanced_app_quiet; [by destruct Hwf as (_ & _ & H)|].
      apply count_zero_existsb. rewrite run_session_finishes.
      by apply count_zero_existsb.
Qed.

Lemma blocks_closed_at_message_delta_witness :
  Trace.balanced_at_message_delta
    (Stream.run_session (Some "s") Sample.closed_before_role Stream.initial_state).1.
Proof.
  apply (proj2 (blocks_closed_at_message_delta (Some "s") Sample.closed_before_role)).
  left. repeat split; reflexivity.
Defined.

(** C1 (as stated) fails when text arrives before the role: the session
    emits [content_block_start 0], [content_block_delta 0], [message_start],
    [message_delta]; the role chunk resets the state without closing the
    text block, so index 0 is opened once and never closed. *)
Lemma blocks_closed_counterexample :
  ~ Trace.balanced_at_message_delta
      (Stream.run_session None Sample.text_before_role Stream.initial_state).1.
Proof.
  intros H.
  specialize (H [Stream.content_block_start 0 Stream.TextBlock;
                 Stream.content_block_delta 0 (Stream.text_delta "a");
                 Stream.message_start Stream.GeneratedId (Some "m")]
                [] "end_turn" None 0%Z 0%Z eq_refl 0).
  discriminate H.
Qed.

(** C2 (as amended). A session whose chunks never carry [delta.role] emits
    no [message_start] event, from whatever state it starts, and its
    content, reasoning, tool-call and finish chunks still emit their
    events: the text, thinking and argument deltas are those the chunks
    carry, in order; every chunk with a [finish_reason] emits one
    [message_delta]; and from the fresh state the events are exactly those
    of the same chunks after a chunk that carries only a role, without the
    [message_start]. *)
Theorem no_role_no_message_start
    (sessionId : option string) (chunks : list Stream.OpenAIChunk) (s : Stream.StreamState) :
  Trace.never_role chunks = true ->
  (forall id model,
     ~ In (Stream.message_start id model) (Stream.run_session sessionId chunks s).1)
  /\ omap Payload.payload_of (Stream.run_session sessionId chunks s).1
     = flat_map Payload.chunk_payloads chunks
  /\ Trace.count Trace.is_message_delta (Stream.run_session sessionId chunks s).1
     = Trace.count Trace.finishes chunks
  /\ (forall model role,
        Js.truthy (Some role) = true ->
        (Stream.run_session sessionId (Trace.role_only model role :: chunks)
           Stream.initial_state).1
        = Stream.message_start
            (if Js.truthy sessionId then Stream.GivenId (Js.or_else sessionId "")
             else Stream.GeneratedId) model
          :: (Stream.run_session sessionId chunks Stream.initial_state).1).
Proof.
  intros Hnever. split; [|split; [|split]].
  - intros id model Hin.
    pose proof (run_session_no_role sessionId chunks Hnever s) as H.
    rewrite forallb_forall in H. by specialize (H _ Hin).
  - apply run_session_payloads.
  - apply run_session_finishes.
  - intros model role Hrole. by apply role_adds_message_start.
Qed.

Lemma no_role_no_message_start_witness :
  ~ In (Stream.message_start Stream.GeneratedId (Some "m"))
       (Stream.run_session None Sample.text_without_role Stream.initial_state).1
  /\ omap Payload.payload_of
       (Stream.run_session None Sample.text_without_role Stream.initial_state).1
     = [Stream.text_delta "a"]
  /\ Trace.count Trace.is_message_delta
       (Stream.run_session None Sample.text_without_role Stream.initial_state).1 = 1
  /\ (Stream.run_session None (Trace.role_only (Some "m") "assistant"
                                 :: Sample.text_without_role) Stream.initial_state).1
     = Stream.message_start Stream.GeneratedId (Some "m")
       :: (Stream.run_session None Sample.text_without_role Stream.initial_state).1.
Proof.
  split; [|split; [|split]].
  - exact (proj1 (no_role_no_message_start None Sample.text_without_role
                    Stream.initial_state eq_refl) Stream.GeneratedId (Some "m")).
  - exact (proj1 (proj2 (no_role_no_message_start None Sample.text_without_role
                           Stream.initial_state eq_refl))).
  - exact (proj1 (proj2 (proj2 (no_role_no_message_start None Sample.text_without_role
                                  Stream.initial_state eq_refl)))).
  - exact (proj2 (proj2 (proj2 (no_role_no_message_start None Sample.text_without_role
                                  Stream.initial_state eq_refl)))
             (Some "m") "assistant" eq_refl).
Defined.

(** C2 (as stated) fails: a chunk carrying only [delta.content], sent to a
    session that never received a role, opens a text block and emits its
    delta. *)
Lemma no_role_counterexample :
  Trace.never_role [Sample.chunk_of (Sample.text_of "a") None None] = true
  /\ (Stream.run_session None [Sample.chunk_of (Sample.text_of "a") None None]
        Stream.initial_state).1
     = [Stream.content_block_start 0 Stream.TextBlock;
        Stream.content_block_delta 0 (Stream.text_delta "a")]
  /\ (Stream.run_session None [Sample.chunk_of (Sample.text_of "a") None None]
        Stream.initial_state).1 <> [].
Proof. repeat split. discriminate. Qed.

(** * The finishing chunk *)

Section Tokens.
Import Js Stream Trace Payload.

Create HintDb tokens.
#[local] Hint Resolve keeps_skip keeps_emit keeps_update keeps_read keeps_seq keeps_when
  keeps_for_each keeps_if : tokens.
#[local] Hint Extern 1 (forall s : StreamState, _ = _) => (intros []; reflexivity) : tokens.




End Tokens.



(** * Calls that share a table entry *)

Section Sharing.
Import Js Stream Converter Reframe.
Variable JSON_parse : string -> ParseResult.

(** A call reads the state stored under its key, or the fresh state when
    there is none, and stores the state it leaves under that key. *)
Lemma _convertStreamEvent_stored (table : gmap string StreamState) (c : OpenAIChunk)
    (sessionId : option string) :
  _convertStreamEvent table c sessionId
  = ((convert_event sessionId c
        (default initial_state (table !! session_key sessionId))).1,
     <[session_key sessionId :=
         (convert_event sessionId c
            (default initial_state (table !! session_key sessionId))).2]> table).
Proof.
  unfold _convertStreamEvent, _getStreamState.
  destruct (table !! session_key sessionId) as [st|]; simpl.
  - by destruct (convert_event sessionId c st).
  - destruct (convert_event sessionId c initial_state). simpl. by rewrite insert_insert_eq.
Qed.

Lemma convertStreamChunk_carries (table : gmap string StreamState) (line : string)
    (c : OpenAIChunk) (sessionId : option string) :
  carries JSON_parse line c ->
  convertStreamChunk JSON_parse table line sessionId = _convertStreamEvent table c sessionId.
Proof.
  intros (Hdata & Hline & Hdone & Hparse). unfold convertStreamChunk.
  destruct (blank line) eqn:Hb.
  { apply blank_not_data in Hb. congruence. }
  unfold split. rewrite (split_go_no_occurrence _ _ "" Hline).
  change ("" +:+ line) with line. cbn [foldl]. unfold convert_line.
  rewrite Hdata, Hdone, Hparse. by destruct (_convertStreamEvent table c sessionId).
Qed.

(** Two calls under one key are two steps of one session. *)
Lemma convertStreamChunk_shared (table : gmap string StreamState) (line1 line2 : string)
    (c1 c2 : OpenAIChunk) (sid1 sid2 : option string) :
  session_key sid1 = session_key sid2 ->
  carries JSON_parse line1 c1 -> carries JSON_parse line2 c2 ->
  let state := default initial_state (table !! session_key sid1) in
  let first := convertStreamChunk JSON_parse table line1 sid1 in
  let second := convertStreamChunk JSON_parse first.2 line2 sid2 in
  first.1 = (convert_event sid1 c1 state).1
  /\ first.2 !! session_key sid1 = Some (convert_event sid1 c1 state).2
  /\ second.1 = (convert_event sid2 c2 (convert_event sid1 c1 state).2).1
  /\ second.2 !! session_key sid1
     = Some (convert_event sid2 c2 (convert_event sid1 c1 state).2).2.
Proof.
  intros Hkey H1 H2. cbv zeta.
  rewrite (convertStreamChunk_carries _ _ _ _ H1), _convertStreamEvent_stored. cbn [fst snd].
  rewrite (convertStreamChunk_carries _ _ _ _ H2), _convertStreamEvent_stored. cbn [fst snd].
  rewrite <- Hkey. rewrite !lookup_insert_eq. by cbn [default].
Qed.

End Sharing.

(** C10. A call of [convertStreamChunk] with a falsy [sessionId]
    ([undefined], [null] or the empty string) works on the table entry
    keyed ["default"]: it changes no other entry and its events depend on
    the table through that entry only. Two calls that both omit the id are
    the calls of one stream on that entry. Two calls with distinct
    non-empty ids have distinct keys, each emits what it would emit alone,
    and the two orders of the calls leave the same table. Two calls whose
    ids have one key (two falsy ids in particular) share the state: the
    first call reads the state stored under the key, or the fresh state
    when there is none, and stores the state it leaves; the second call
    translates its chunk from that state and stores its own, so the two
    calls are two steps of one session even when they belong to two
    interleaved streams. *)
Theorem stream_state_keyed_by_session
    (JSON_parse : string -> Converter.ParseResult)
    (table : gmap string Stream.StreamState) (chunk1 chunk2 : string)
    (sid1 sid2 : option string) :
  (Js.truthy sid1 = false ->
     Converter.session_key sid1 = "default"
     /\ (forall k, k <> "default" ->
           (Converter.convertStreamChunk JSON_parse table chunk1 sid1).2 !! k = table !! k)
     /\ (forall table' : gmap string Stream.StreamState,
           table' !! "default" = table !! "default" ->
           (Converter.convertStreamChunk JSON_parse table' chunk1 sid1).1
           = (Converter.convertStreamChunk JSON_parse table chunk1 sid1).1))
  /\ (Js.truthy sid1 = false -> Js.truthy sid2 = false ->
        Converter.convertStreamChunk JSON_parse
          (Converter.convertStreamChunk JSON_parse table chunk1 sid1).2 chunk2 sid2
        = Converter.convertStreamChunk JSON_parse
            (Converter.convertStreamChunk JSON_parse table chunk1 None).2 chunk2 None)
  /\ (Js.truthy sid1 = true -> Js.truthy sid2 = true -> sid1 <> sid2 ->
        Converter.session_key sid1 <> Converter.session_key sid2
        /\ (Converter.convertStreamChunk JSON_parse
              (Converter.convertStreamChunk JSON_parse table chunk1 sid1).2 chunk2 sid2).1
           = (Converter.convertStreamChunk JSON_parse table chunk2 sid2).1
        /\ (Converter.convertStreamChunk JSON_parse
              (Converter.convertStreamChunk JSON_parse table chunk2 sid2).2 chunk1 sid1).1
           = (Converter.convertStreamChunk JSON_parse table chunk1 sid1).1
        /\ (Converter.convertStreamChunk JSON_parse
              (Converter.convertStreamChunk JSON_parse table chunk1 sid1).2 chunk2 sid2).2
           = (Converter.convertStreamChunk JSON_parse
                (Converter.convertStreamChunk JSON_parse table chunk2 sid2).2 chunk1 sid1).2)
  /\ (forall c1 c2 : Stream.OpenAIChunk,
        Converter.session_key sid1 = Converter.session_key sid2 ->
        Reframe.carries JSON_parse chunk1 c1 -> Reframe.carries JSON_parse chunk2 c2 ->
        let state := default Stream.initial_state (table !! Converter.session_key sid1) in
        let first := Converter.convertStreamChunk JSON_parse table chunk1 sid1 in
        let second := Converter.convertStreamChunk JSON_parse first.2 chunk2 sid2 in
        first.1 = (Stream.convert_event sid1 c1 state).1
        /\ first.2 !! Converter.session_key sid1
           = Some (Stream.convert_event sid1 c1 state).2
        /\ second.1
           = (Stream.convert_event sid2 c2 (Stream.convert_event sid1 c1 state).2).1
        /\ second.2 !! Converter.session_key sid1
           = Some (Stream.convert_event sid2 c2 (Stream.convert_event sid1 c1 state).2).2).
Proof.
  split; [|split; [|split]].
  - intros H1. pose proof (session_key_falsy sid1 H1) as Hkey.
    split; [done|]. split.
    + intros k Hk. apply convertStreamChunk_frame. by rewrite Hkey.
    + intros table' Ht. apply convertStreamChunk_local. by rewrite Hkey.
  - intros H1 H2. by rewrite (convertStreamChunk_falsy _ _ _ sid1 H1),
      (convertStreamChunk_falsy _ _ _ sid2 H2).
  - intros H1 H2 Hne.
    assert (Hk : Converter.session_key sid1 <> Converter.session_key sid2).
    { intros Heq. apply Hne.
      by rewrite <- (session_key_given sid1 H1), <- (session_key_given sid2 H2), Heq. }
    assert (Hk' : Converter.session_key sid2 <> Converter.session_key sid1) by done.
    pose proof (convertStreamChunk_frame JSON_parse table chunk1 sid1 _ Hk') as F1.
    pose proof (convertStreamChunk_frame JSON_parse table chunk2 sid2 _ Hk) as F2.
    destruct (convertStreamChunk_local JSON_parse _ table chunk2 sid2 F1) as [E2 T2].
    destruct (convertStreamChunk_local JSON_parse _ table chunk1 sid1 F2) as [E1 T1].
    split; [done|]. split; [done|]. split; [done|].
    apply map_eq. intros k.
    destruct (decide (k = Converter.session_key sid1)) as [->|N1].
    { rewrite T1. by rewrite (convertStreamChunk_frame _ _ chunk2 sid2 _ Hk). }
    destruct (decide (k = Converter.session_key sid2)) as [->|N2].
    { rewrite T2. by rewrite (convertStreamChunk_frame _ _ chunk1 sid1 _ Hk'). }
    by rewrite !convertStreamChunk_frame.
  - intros c1 c2 Hkey H1 H2. by apply convertStreamChunk_shared.
Qed.

Lemma stream_state_keyed_by_session_witness :
  Converter.session_key (Some "") = "default"
  /\ Converter.convertStreamChunk Sample.parse_demo
       (Converter.convertStreamChunk Sample.parse_demo ∅ "data: role" (Some "")).2
       "data: text" None
     = Converter.convertStreamChunk Sample.parse_demo
         (Converter.convertStreamChunk Sample.parse_demo ∅ "data: role" None).2
         "data: text" None
  /\ (Converter.convertStreamChunk Sample.parse_demo
        (Converter.convertStreamChunk Sample.parse_demo ∅ "data: role" (Some "a")).2
        "data: text" (Some "b")).1
     = (Converter.convertStreamChunk Sample.parse_demo ∅ "data: text" (Some "b")).1
  /\ (Converter.convertStreamChunk Sample.parse_demo
        (Converter.convertStreamChunk Sample.parse_demo ∅ "data: text" None).2
        "data: text" (Some "")).1
     = [Stream.content_block_delta 0 (Stream.text_delta "hi")].
Proof.
  split; [|split; [|split]].
  - exact (proj1 (proj1 (stream_state_keyed_by_session Sample.parse_demo ∅
                           "data: role" "data: text" (Some "") None) eq_refl)).
  - exact (proj1 (proj2 (stream_state_keyed_by_session Sample.parse_demo ∅
                           "data: role" "data: text" (Some "") None)) eq_refl eq_refl).
  - refine (proj1 (proj2 (proj1 (proj2 (proj2 (stream_state_keyed_by_session
                           Sample.parse_demo ∅
                           "data: role" "data: text" (Some "a") (Some "b"))))
                         eq_refl eq_refl _))).
    discriminate.
  - refine (proj1 (proj2 (proj2
              (proj2 (proj2 (proj2 (stream_state_keyed_by_session Sample.parse_demo ∅
                                      "data: text" "data: text" None (Some ""))))
                 (Sample.chunk_of (Sample.text_of "hi") None None)
                 (Sample.chunk_of (Sample.text_of "hi") None None)
                 eq_refl _ _)))); repeat split.
Defined.

(** * Responses with missing objects *)

Section WireFacts.
Import Js.
Variable JSON_parse : string -> option json.

Lemma convert_tool_calls_readable (toolCalls : list (option Wire.ToolCall)) :
  forallb Wire.readable toolCalls = true ->
  Wire.convert_tool_calls JSON_parse toolCalls
  = inr (map (Response.tool_use_of JSON_parse) (omap Wire.function_call toolCalls)).
Proof.
  induction toolCalls as [|toolCall rest IH]; [done|].
  cbn [forallb]. intros [H Hrest]%andb_true_iff.
  cbn [Wire.convert_tool_calls]. rewrite (IH Hrest).
  destruct toolCall as [toolCall|]; [|done].
  unfold Wire.readable in H. cbn [omap list_omap Wire.convert_tool_call Wire.function_call].
  destruct (String.eqb (Wire.type toolCall) "function"); [|done].
  by destruct (Wire.function toolCall).
Qed.

Lemma convert_tool_calls_unreadable (toolCalls : list (option Wire.ToolCall)) :
  forallb Wire.readable toolCalls = false ->
  Wire.convert_tool_calls JSON_parse toolCalls = inl Wire.TypeError.
Proof.
  induction toolCalls as [|toolCall rest IH]; [done|].
  cbn [forallb]. intros H. cbn [Wire.convert_tool_calls].
  destruct toolCall as [toolCall|]; [|done].
  unfold Wire.readable in H. cbn [Wire.convert_tool_call].
  destruct (String.eqb (Wire.type toolCall) "function").
  - destruct (Wire.function toolCall); [|done]. simpl in H. by rewrite (IH H).
  - simpl in H. by rewrite (IH H).
Qed.

Lemma convert_tool_calls_typed (toolCalls : list Response.ToolCall) :
  Wire.convert_tool_calls JSON_parse (map Wire.of_tool_call toolCalls)
  = inr (flat_map (Response.convert_tool_call JSON_parse) toolCalls).
Proof.
  induction toolCalls as [|toolCall rest IH]; [done|].
  cbn [map Wire.convert_tool_calls flat_map]. rewrite IH.
  unfold Wire.convert_tool_call, Wire.of_tool_call, Response.convert_tool_call,
    Response.is_function. cbn [Wire.type Wire.function Wire.id].
  destruct (String.eqb (Response.type toolCall) "function"); [|done].
  by destruct toolCall as [t i f].
Qed.

(** On a response that [Response] types, the two readings of
    [convertResponse] agree. *)
Lemma convertResponse_typed (openaiResponse : Response.OpenAIResponse) :
  Wire.convertResponse JSON_parse (Wire.of_response openaiResponse)
  = match Response.convertResponse JSON_parse openaiResponse with
    | inl _ => inl Wire.InvalidUpstreamResponse
    | inr claudeResponse => inr claudeResponse
    end.
Proof.
  unfold Wire.convertResponse, Response.convertResponse, Wire.of_response.
  cbn [Wire.choices Wire.r_id Wire.r_model Wire.usage].
  destruct (Response.choices openaiResponse) as [[|choice rest]|]; [done| |done].
  cbn [fmap option_fmap option_map map mbind option_bind head Wire.of_choice Wire.message
       Wire.finish_reason Wire.tool_calls Wire.content Wire.reasoning_content].
  rewrite convert_tool_calls_typed. reflexivity.
Qed.

End WireFacts.

(** C8 (as amended). [convertResponse] throws its invalid-response error
    exactly when [choices] is missing or empty or its first entry is
    [null]. With a first choice it throws a [TypeError] instead when the
    choice has no [message], or when an entry of [tool_calls] is [null] or
    is of type [function] without a [function]; in every other case it
    returns a message object of type [message] and role [assistant] whose
    content is the text block, the thinking block and the [tool_use]
    blocks of the function entries. *)
Theorem convertResponse_fails_without_choice
    (JSON_parse : string -> option Js.json) (openaiResponse : Wire.OpenAIResponse) :
  (Wire.convertResponse JSON_parse openaiResponse = inl Wire.InvalidUpstreamResponse
   <-> Wire.choices openaiResponse = None
       \/ Wire.choices openaiResponse = Some []
       \/ exists rest, Wire.choices openaiResponse = Some (None :: rest))
  /\ (forall choice rest,
        Wire.choices openaiResponse = Some (Some choice :: rest) ->
        (Wire.message choice = None ->
         Wire.convertResponse JSON_parse openaiResponse = inl Wire.TypeError)
        /\ (forall message,
              Wire.message choice = Some message ->
              (forallb Wire.readable (Wire.tool_calls message) = false ->
               Wire.convertResponse JSON_parse openaiResponse = inl Wire.TypeError)
              /\ (forallb Wire.readable (Wire.tool_calls message) = true ->
                  exists claudeResponse,
                    Wire.convertResponse JSON_parse openaiResponse = inr claudeResponse
                    /\ Response.a_type claudeResponse = "message"
                    /\ Response.a_role claudeResponse = "assistant"
                    /\ Response.a_content claudeResponse
                       = match Wire.content message with
                         | Some c => [Response.text c None]
                         | None => []
                         end
                         ++ (if Js.truthy (Wire.reasoning_content message)
                             then [Response.thinking
                                     (Js.or_else (Wire.reasoning_content message) "") ""]
                             else [])
                         ++ map (Response.tool_use_of JSON_parse)
                                (omap Wire.function_call (Wire.tool_calls message))))).
Proof.
  split.
  - unfold Wire.convertResponse.
    destruct (Wire.choices openaiResponse) as [[|[choice|] rest]|]; cbn [mbind option_bind head].
    + split; [intros _; right; by left|done].
    + split.
      * destruct (Wire.message choice) as [message|]; [|done].
        destruct (forallb Wire.readable (Wire.tool_calls message)) eqn:H.
        -- by rewrite (convert_tool_calls_readable _ _ H).
        -- by rewrite (convert_tool_calls_unreadable _ _ H).
      * intros [H|[H|(r & H)]]; done.
    + split; [intros _; right; right; by exists rest|done].
    + split; [intros _; by left|done].
  - intros choice rest Hch. unfold Wire.convertResponse. rewrite Hch.
    cbn [mbind option_bind head]. split.
    + by intros ->.
    + intros message ->. split.
      * intros H. by rewrite (convert_tool_calls_unreadable _ _ H).
      * intros H. rewrite (convert_tool_calls_readable _ _ H). eexists. by split.
Qed.

Lemma convertResponse_fails_without_choice_witness :
  Wire.convertResponse Sample.no_parse (Wire.response_of (Some []))
    = inl Wire.InvalidUpstreamResponse
  /\ Wire.convertResponse Sample.no_parse
       (Wire.response_of
          (Some [Some (Wire.choice_with (Wire.call_without_function "function"))]))
     = inl Wire.TypeError
  /\ exists claudeResponse,
       Wire.convertResponse Sample.no_parse
         (Wire.response_of
            (Some [Some (Wire.choice_with (Wire.call_without_function "custom"))]))
         = inr claudeResponse
       /\ Response.a_type claudeResponse = "message"
       /\ Response.a_role claudeResponse = "assistant"
       /\ Response.a_content claudeResponse = [Response.text "hi" None].
Proof.
  split; [|split].
  - apply (proj2 (proj1 (convertResponse_fails_without_choice Sample.no_parse
                           (Wire.response_of (Some []))))).
    right. by left.
  - exact (proj1 (proj2 (proj2 (convertResponse_fails_without_choice Sample.no_parse
                                  (Wire.response_of
                                     (Some [Some (Wire.choice_with
                                                    (Wire.call_without_function
                                                       "function"))])))
                           (Wire.choice_with (Wire.call_without_function "function")) []
                           eq_refl)
                    (Wire.message_with (Wire.call_without_function "function")) eq_refl)
             eq_refl).
  - exact (proj2 (proj2 (proj2 (convertResponse_fails_without_choice Sample.no_parse
                                  (Wire.response_of
                                     (Some [Some (Wire.choice_with
                                                    (Wire.call_without_function
                                                       "custom"))])))
                           (Wire.choice_with (Wire.call_without_function "custom")) []
                           eq_refl)
                    (Wire.message_with (Wire.call_without_function "custom")) eq_refl)
             eq_refl).
Defined.

(** C8 (as stated) fails: with a first choice that has no [message] the
    [choices] array is not empty, yet [convertResponse] does not return a
    message object but throws a [TypeError]; and with [null] as its first
    entry the array is not empty, yet the invalid-response error is
    thrown. *)
Lemma convertResponse_counterexample :
  Wire.choices (Wire.response_of (Some [Some Wire.choice_without_message])) <> None
  /\ Wire.choices (Wire.response_of (Some [Some Wire.choice_without_message])) <> Some []
  /\ Wire.convertResponse Sample.no_parse
       (Wire.response_of (Some [Some Wire.choice_without_message]))
     = inl Wire.TypeError
  /\ (~ exists claudeResponse,
          Wire.convertResponse Sample.no_parse
            (Wire.response_of (Some [Some Wire.choice_without_message]))
          = inr claudeResponse)
  /\ Wire.choices (Wire.response_of (Some [None])) <> Some []
  /\ Wire.convertResponse Sample.no_parse (Wire.response_of (Some [None]))
     = inl Wire.InvalidUpstreamResponse.
Proof.
  repeat split; try discriminate. intros (claudeResponse & H). discriminate H.
Qed.
